(** * nanobind: type casters, ownership policies and the object protocol shim

    A shallow embedding of the caster header (the [type_caster]
    specialisations, [NB_TYPE_CASTER], [rv_policy]) and of [src/common.cpp]
    ([raise], [fail], [python_error_raise], the checked wrappers of the
    CPython object protocol and [seq_size_fetch]).

    C++ code that touches the interpreter is written in a state monad [M]
    over an explicit interpreter state; a C++ exception, [abort()] and
    undefined behaviour are distinct outcomes of a computation. *)

From Stdlib Require Import ZArith Lia Bool List String.
From Stdlib.Strings Require Import Byte.
From Stdlib Require Import SpecFloat.
From stdpp Require Import base option list gmap strings.

Local Open Scope Z_scope.

(** ** C integer types *)

(** The only platform fact the casters look at is [sizeof(long)]:
    8 bytes on LP64 targets, 4 bytes on LLP64 and ILP32 targets.
    [long long] is 8 bytes on all of them. *)
Inductive data_model := LP64 | LLP64.

Inductive byte_size := Size1 | Size2 | Size4 | Size8.

Definition bytes (sz : byte_size) : Z :=
  match sz with Size1 => 1 | Size2 => 2 | Size4 => 4 | Size8 => 8 end.

Record int_type := IntType { is_signed : bool; size : byte_size }.

Definition sizeof (T : int_type) : Z := bytes (size T).
Definition bits (T : int_type) : Z := 8 * sizeof T.

Definition int_min (T : int_type) : Z :=
  if is_signed T then - 2 ^ (bits T - 1) else 0.
Definition int_max (T : int_type) : Z :=
  if is_signed T then 2 ^ (bits T - 1) - 1 else 2 ^ bits T - 1.

Definition in_range (T : int_type) (z : Z) : Prop :=
  int_min T <= z <= int_max T.

Definition in_rangeb (T : int_type) (z : Z) : bool :=
  (int_min T <=? z) && (z <=? int_max T).

(** [(T) z]: conversion to an integer type keeps the value modulo
    [2 ^ bits T] (two's complement). *)
Definition int_cast (T : int_type) (z : Z) : Z :=
  if is_signed T
  then (z + 2 ^ (bits T - 1)) mod 2 ^ bits T - 2 ^ (bits T - 1)
  else z mod 2 ^ bits T.

Section Platform.
Variable dm : data_model.

Definition long_size : byte_size :=
  match dm with LP64 => Size8 | LLP64 => Size4 end.

Definition long : int_type := IntType true long_size.
Definition unsigned_long : int_type := IntType false long_size.
Definition long_long : int_type := IntType true Size8.
Definition unsigned_long_long : int_type := IntType false Size8.
End Platform.

(** [Py_ssize_t] and [size_t] have the width of a pointer; the model fixes
    it at 64 bits.  [int] is 32 bits. *)
Definition Py_ssize_t : int_type := IntType true Size8.
Definition size_t : int_type := IntType false Size8.
Definition int : int_type := IntType true Size4.

(** ** Floating-point types

    Values are [spec_float]s in the canonical form of their format;
    a conversion to a format rounds to nearest, ties to even. *)
Inductive float_type := Float32 | Float64.

Definition prec (F : float_type) : Z :=
  match F with Float32 => 24 | Float64 => 53 end.
Definition emax (F : float_type) : Z :=
  match F with Float32 => 128 | Float64 => 1024 end.

Definition is_float (F : float_type) (x : spec_float) : bool :=
  valid_binary (prec F) (emax F) x.

(** [(F) x] *)
Definition float_cast (F : float_type) (x : spec_float) : spec_float :=
  match x with
  | S754_finite s m e => binary_round (prec F) (emax F) s m e
  | _ => x
  end.

(** [(double) n] for an integer [n] *)
Definition double_of_Z (n : Z) : spec_float :=
  binary_normalize (prec Float64) (emax Float64) n 0 false.

(** ** The arithmetic types the numeric caster is instantiated at *)
Inductive num_type :=
| NInt (T : int_type)
| NFloat (F : float_type).

Definition num_value (T : num_type) : Type :=
  match T with NInt _ => Z | NFloat _ => spec_float end.

Definition is_floating_point (T : num_type) : bool :=
  match T with NFloat _ => true | NInt _ => false end.

Definition num_sizeof (T : num_type) : Z :=
  match T with
  | NInt T => sizeof T
  | NFloat Float32 => 4
  | NFloat Float64 => 8
  end.

(** [v] is a value of type [T] *)
Definition is_value (T : num_type) : num_value T -> Prop :=
  match T with
  | NInt T => fun z => in_range T z
  | NFloat F => fun x => is_float F x = true
  end.

Definition num_eqb (T : num_type) : num_value T -> num_value T -> bool :=
  match T with
  | NInt _ => Z.eqb
  | NFloat _ => SFeqb
  end.

(** [T(-1)] *)
Definition num_minus_one (T : num_type) : num_value T :=
  match T with
  | NInt T => int_cast T (-1)
  | NFloat F => float_cast F (S754_finite true 1 0)
  end.

(** ** The interpreter (CPython) as seen through its C API

    The interpreter is not part of the sources: the functions of the
    module [CPython] below follow the documented behaviour of the C API
    calls of the same name, on a small universe of objects.

    Objects live at addresses; a [PyObject *] is an address or [NULL].
    Reference counts are kept apart from the object payloads, so that a
    count can be read for every address.  Deallocation at count zero is
    not modelled: liveness is read off the count. *)
Abbreviation addr := positive (only parsing).
Abbreviation PyObject_ptr := (option addr) (only parsing).

Definition is_null (o : PyObject_ptr) : bool :=
  match o with None => true | Some _ => false end.

Definition Py_None : addr := 1%positive.
Definition Py_True : addr := 2%positive.
Definition Py_False : addr := 3%positive.

Inductive py_exception :=
| TypeError | OverflowError | IndexError | ValueError
| MemoryError | SystemError | AttributeError | KeyError.

(** An instance of a user-defined class, described by the protocols it
    implements: [__len__], [__getitem__] (an entry [None] raises),
    [__index__] and [__float__]. *)
Record py_instance := MkInstance {
  tp_len : option Z;
  tp_items : list (option addr);
  tp_index : option Z;
  tp_float : option spec_float
}.

Inductive py_value :=
| PyNoneV
| PyBoolV (b : bool)
| PyLongV (n : Z)
| PyFloatV (d : spec_float)
| PyTupleV (ob_item : list PyObject_ptr)
| PyInstanceV (i : py_instance).

Record State := MkState {
  objects : gmap addr py_value;
  ob_refcnt : gmap addr Z;
  curexc : option py_exception;     (* the pending-error indicator *)
  next_addr : addr;                 (* where the next object is placed *)
  py_avail : nat;                   (* objects the allocator can still hand out *)
  c_avail : Z                       (* bytes [malloc] can still hand out *)
}.

Definition refcnt (s : State) (a : addr) : Z := default 0 (ob_refcnt s !! a).

Definition set_refcnt (a : addr) (n : Z) (s : State) : State :=
  MkState (objects s) (<[a := n]> (ob_refcnt s)) (curexc s)
          (next_addr s) (py_avail s) (c_avail s).

Definition set_curexc (e : option py_exception) (s : State) : State :=
  MkState (objects s) (ob_refcnt s) e (next_addr s) (py_avail s) (c_avail s).

Definition set_object (a : addr) (v : py_value) (s : State) : State :=
  MkState (<[a := v]> (objects s)) (ob_refcnt s) (curexc s)
          (next_addr s) (py_avail s) (c_avail s).

(** A C++ exception object *)
Inductive exception :=
| runtime_error (what : list byte)
| python_error (e : py_exception).

Inductive result (A : Type) :=
| Return (a : A) (s : State)
| Throw (e : exception) (s : State)
| Abort (stderr : list byte) (s : State)
| Undefined.
Arguments Return {A} a s.
Arguments Throw {A} e s.
Arguments Abort {A} stderr s.
Arguments Undefined {A}.

Definition M (A : Type) : Type := State -> result A.

#[global] Instance M_ret : MRet M := fun A a s => Return a s.
#[global] Instance M_bind : MBind M := fun A B k m s =>
  match m s with
  | Return a s' => k a s'
  | Throw e s' => Throw e s'
  | Abort msg s' => Abort msg s'
  | Undefined => Undefined
  end.

Definition modify (f : State -> State) : M unit := fun s => Return tt (f s).
Definition gets {A} (f : State -> A) : M A := fun s => Return (f s) s.
Definition undefined {A} : M A := fun _ => Undefined.

Module CPython.

Definition incref (a : addr) (s : State) : State :=
  set_refcnt a (refcnt s a + 1) s.
Definition decref (a : addr) (s : State) : State :=
  set_refcnt a (refcnt s a - 1) s.

Definition Py_INCREF (o : PyObject_ptr) : M unit :=
  match o with Some a => modify (incref a) | None => undefined end.
Definition Py_DECREF (o : PyObject_ptr) : M unit :=
  match o with Some a => modify (decref a) | None => undefined end.
Definition Py_XINCREF (o : PyObject_ptr) : M unit :=
  match o with Some a => modify (incref a) | None => mret tt end.
Definition Py_XDECREF (o : PyObject_ptr) : M unit :=
  match o with Some a => modify (decref a) | None => mret tt end.

Definition error_pending (s : State) : bool :=
  match curexc s with Some _ => true | None => false end.
Definition PyErr_Occurred : M bool := gets error_pending.
Definition PyErr_Clear : M unit := modify (set_curexc None).
Definition PyErr_SetNone (e : py_exception) : M unit := modify (set_curexc (Some e)).

(** Allocation of a new object holding [v], with reference count 1;
    [NULL] and [MemoryError] when the allocator is exhausted. *)
Definition new_object (v : py_value) : M PyObject_ptr := fun s =>
  match py_avail s with
  | O => Return None (set_curexc (Some MemoryError) s)
  | S n =>
      let a := next_addr s in
      Return (Some a)
        (MkState (<[a := v]> (objects s)) (<[a := 1]> (ob_refcnt s)) (curexc s)
                 (Pos.succ a) n (c_avail s))
  end.

Definition value_of (o : PyObject_ptr) : M py_value := fun s =>
  match o with
  | Some a => match objects s !! a with
              | Some v => Return v s
              | None => Undefined
              end
  | None => Undefined
  end.

Definition PyLong_Check (o : PyObject_ptr) : M bool :=
  v ← value_of o;
  mret match v with PyLongV _ | PyBoolV _ => true | _ => false end.

Definition PyFloat_Check (o : PyObject_ptr) : M bool :=
  v ← value_of o;
  mret match v with PyFloatV _ => true | _ => false end.

(** the value of an [int] (or of a [bool], its subclass) *)
Definition long_value (v : py_value) : option Z :=
  match v with
  | PyLongV n => Some n
  | PyBoolV b => Some (Z.b2z b)
  | _ => None
  end.

(** as [long_value], or through [__index__] *)
Definition index_value (v : py_value) : option Z :=
  match v with
  | PyInstanceV i => tp_index i
  | _ => long_value v
  end.

(** A method written in Python ([__len__], [__getitem__], [__index__],
    [__float__]) that the interpreter calls while an error is pending: the
    interpreter rejects what the method returns and sets [SystemError]
    ("returned a result with an exception set").  The methods of the
    built-in types are C functions, which are not checked in this way. *)
Definition result_rejected (v : py_value) (s : State) : bool :=
  match v with
  | PyInstanceV _ => error_pending s
  | _ => false
  end.

(** The signed conversions accept any object with [__index__]. *)
Definition as_signed (T : int_type) (o : PyObject_ptr) : M Z :=
  v ← value_of o;
  rejected ← gets (result_rejected v);
  match index_value v with
  | None => PyErr_SetNone TypeError;; mret (-1)
  | Some n =>
      if (rejected : bool) then PyErr_SetNone SystemError;; mret (-1)
      else if in_rangeb T n then mret n
      else PyErr_SetNone OverflowError;; mret (-1)
  end.

(** The unsigned conversions require an [int]; the error value is
    [(unsigned T) -1]. *)
Definition as_unsigned (T : int_type) (o : PyObject_ptr) : M Z :=
  v ← value_of o;
  match long_value v with
  | None => PyErr_SetNone TypeError;; mret (int_cast T (-1))
  | Some n =>
      if in_rangeb T n then mret n
      else PyErr_SetNone OverflowError;; mret (int_cast T (-1))
  end.

Definition PyLong_AsLong (dm : data_model) := as_signed (long dm).
Definition PyLong_AsLongLong := as_signed long_long.
Definition PyLong_AsUnsignedLong (dm : data_model) := as_unsigned (unsigned_long dm).
Definition PyLong_AsUnsignedLongLong := as_unsigned unsigned_long_long.

(** The interpreter keeps one shared [int] object for each of the values
    from [-NSMALLNEGINTS] to [NSMALLPOSINTS - 1], that is from -5 to 256;
    they are created when it starts, in a block of addresses of their own
    (an address is only an identity: the block is put at [small_ints],
    out of the way of the allocator).  [PyLong_FromLong] and its siblings
    hand out a new reference to the shared object for such a value and
    allocate for every other. *)
Definition NSMALLNEGINTS : Z := 5.
Definition NSMALLPOSINTS : Z := 257.
Definition is_small_int (v : Z) : bool :=
  (- NSMALLNEGINTS <=? v) && (v <? NSMALLPOSINTS).
Definition small_ints : Z := 2 ^ 32.
Definition small_int (v : Z) : addr := Z.to_pos (small_ints + v).

(** [get_small_int]: a new reference to the shared object *)
Definition get_small_int (v : Z) : M PyObject_ptr :=
  Py_INCREF (Some (small_int v));; mret (Some (small_int v)).

(** An [int] object of value [v]: the shared object for a small value,
    without any allocation, and a new object otherwise. *)
Definition long_from (v : Z) : M PyObject_ptr :=
  if is_small_int v then get_small_int v else new_object (PyLongV v).

Definition PyLong_FromLong (v : Z) := long_from v.
Definition PyLong_FromLongLong (v : Z) := long_from v.
Definition PyLong_FromUnsignedLong (v : Z) := long_from v.
Definition PyLong_FromUnsignedLongLong (v : Z) := long_from v.

Definition minus_one_double : spec_float := float_cast Float64 (S754_finite true 1 0).

(** [int] to [double]; an [int] beyond the range of [double] raises. *)
Definition long_as_double (n : Z) : M spec_float :=
  match double_of_Z n with
  | S754_infinity _ => PyErr_SetNone OverflowError;; mret minus_one_double
  | d => mret d
  end.

(** A [float] gives its value; other objects go through [__float__],
    then [__index__]. *)
Definition PyFloat_AsDouble (o : PyObject_ptr) : M spec_float :=
  v ← value_of o;
  rejected ← gets (result_rejected v);
  match v with
  | PyFloatV d => mret d
  | PyInstanceV i =>
      match tp_float i, tp_index i with
      | None, None => PyErr_SetNone TypeError;; mret minus_one_double
      | Some d, _ =>
          if (rejected : bool) then PyErr_SetNone SystemError;; mret minus_one_double
          else mret d
      | None, Some n =>
          if (rejected : bool) then PyErr_SetNone SystemError;; mret minus_one_double
          else long_as_double n
      end
  | _ =>
      match long_value v with
      | Some n => long_as_double n
      | None => PyErr_SetNone TypeError;; mret minus_one_double
      end
  end.

Definition PyFloat_FromDouble (d : spec_float) := new_object (PyFloatV d).

Definition PySequence_Size (o : PyObject_ptr) : M Z :=
  match o with
  | None => PyErr_SetNone SystemError;; mret (-1)
  | Some _ =>
      v ← value_of o;
      rejected ← gets (result_rejected v);
      match v with
      | PyTupleV items => mret (Z.of_nat (length items))
      | PyInstanceV i =>
          match tp_len i with
          | Some n =>
              if (rejected : bool) then PyErr_SetNone SystemError;; mret (-1)
              else if n <? 0 then PyErr_SetNone ValueError;; mret (-1)
              else mret n
          | None => PyErr_SetNone TypeError;; mret (-1)
          end
      | _ => PyErr_SetNone TypeError;; mret (-1)
      end
  end.

(** A new reference to item [i], or [NULL] with an error set. *)
Definition PySequence_GetItem (o : PyObject_ptr) (i : Z) : M PyObject_ptr :=
  match o with
  | None => PyErr_SetNone SystemError;; mret None
  | Some _ =>
      v ← value_of o;
      rejected ← gets (result_rejected v);
      match v with
      | PyTupleV items =>
          let i := if i <? 0 then i + Z.of_nat (length items) else i in
          if (0 <=? i) && (i <? Z.of_nat (length items)) then
            match items !! Z.to_nat i with
            | Some (Some a) => Py_INCREF (Some a);; mret (Some a)
            | _ => undefined
            end
          else PyErr_SetNone IndexError;; mret None
      | PyInstanceV inst =>
          match (if 0 <=? i then tp_items inst !! Z.to_nat i else None) with
          | Some (Some a) =>
              if (rejected : bool) then PyErr_SetNone SystemError;; mret None
              else Py_INCREF (Some a);; mret (Some a)
          | _ => PyErr_SetNone IndexError;; mret None
          end
      | _ => PyErr_SetNone TypeError;; mret None
      end
  end.

(** A tuple of [n] empty slots. *)
Definition PyTuple_New (n : Z) : M PyObject_ptr :=
  if n <? 0 then PyErr_SetNone SystemError;; mret None
  else new_object (PyTupleV (replicate (Z.to_nat n) None)).

(** Stores [o] in slot [i] without any check; the reference to [o] is
    taken over by the tuple. *)
Definition PyTuple_SET_ITEM (t : PyObject_ptr) (i : Z) (o : PyObject_ptr) : M unit :=
  v ← value_of t;
  match t, v with
  | Some a, PyTupleV items =>
      if (0 <=? i) && (i <? Z.of_nat (length items))
      then modify (set_object a (PyTupleV (<[Z.to_nat i := o]> items)))
      else undefined
  | _, _ => undefined
  end.

End CPython.

(** The part of the object protocol that the shim of [common.cpp] wraps.
    What these calls do is the interpreter's business; the shim only looks
    at their result. *)
Class ObjectProtocol := {
  PyObject_Length : PyObject_ptr -> M Z;
  PyObject_Repr : PyObject_ptr -> M PyObject_ptr;
  PyObject_Str : PyObject_ptr -> M PyObject_ptr;
  PyObject_RichCompareBool : PyObject_ptr -> PyObject_ptr -> Z -> M Z;
  PyObject_GetAttrString : PyObject_ptr -> list byte -> M PyObject_ptr;
  PyObject_GetAttr : PyObject_ptr -> PyObject_ptr -> M PyObject_ptr;
  PyObject_SetAttrString : PyObject_ptr -> list byte -> PyObject_ptr -> M Z;
  PyObject_SetAttr : PyObject_ptr -> PyObject_ptr -> PyObject_ptr -> M Z;
  PyObject_GetItem : PyObject_ptr -> PyObject_ptr -> M PyObject_ptr;
  PyObject_SetItem : PyObject_ptr -> PyObject_ptr -> PyObject_ptr -> M Z;
  PyLong_FromSsize_t : Z -> M PyObject_ptr;
  PyUnicode_FromString : list byte -> M PyObject_ptr;
  PyUnicode_FromStringAndSize : list byte -> Z -> M PyObject_ptr
}.

(** ** The C library

    [vsnprintf], [malloc] and [free] by their contract in the C standard. *)
Module libc.

Definition INT_MAX : Z := 2 ^ 31 - 1.

(** [vsnprintf(buf, n, fmt, args)], where [out] is what [fmt] expands to
    with [args]: at most [n - 1] bytes of [out] and a terminator are
    stored, and the length of [out] is returned (a negative value when it
    does not fit an [int]). *)
Definition vsnprintf (n : Z) (out : list byte) : list byte * Z :=
  (if n =? 0 then [] else take (Z.to_nat (n - 1)) out ++ [x00],
   if Z.of_nat (length out) <=? INT_MAX then Z.of_nat (length out) else -1).

(** Whether [malloc(n)] returns a block. *)
Definition malloc (n : Z) : M bool := fun s =>
  if n <=? c_avail s
  then Return true (MkState (objects s) (ob_refcnt s) (curexc s) (next_addr s)
                            (py_avail s) (c_avail s - n))
  else Return false s.

Definition free (n : Z) : M unit := fun s =>
  Return tt (MkState (objects s) (ob_refcnt s) (curexc s) (next_addr s)
                     (py_avail s) (c_avail s + n)).

(** The string a [char *] points to: the bytes before the first
    terminator.  Reading past the end of the block is undefined. *)
Fixpoint c_str (mem : list byte) : option (list byte) :=
  match mem with
  | [] => None
  | b :: rest => if Byte.eqb b x00 then Some [] else (b ::.) <$> c_str rest
  end.

Definition abort {A} (stderr : list byte) : M A := fun s => Abort stderr s.

(** A list of bytes that can be the content of a C string. *)
Definition no_nul (l : list byte) : bool :=
  forallb (fun b => negb (Byte.eqb b x00)) l.

End libc.

(** [throw e] *)
Definition throw {A} (e : exception) : M A := fun s => Throw e s.

(** [std::runtime_error(p)] copies the string at [p]. *)
Definition std_runtime_error (p : list byte) : M exception :=
  match libc.c_str p with
  | Some msg => mret (runtime_error msg)
  | None => undefined
  end.

(** Modelled from the spec: the constructor of [python_error], which is not
    part of [common.cpp]; the failure object takes the pending error of the
    interpreter with it. *)
Definition python_error_ctor : M exception := fun s =>
  match curexc s with
  | Some e => Return (python_error e) (set_curexc None s)
  | None => Undefined
  end.

(** The capsule and module calls that [common.cpp] uses.  A function
    pointer [void ( * )(void * )] is a function on addresses, or null; the
    destructor of a capsule is a function on the capsule. *)
Definition free_fn := option (N -> M unit).

Record PyModuleDef := MkModuleDef {
  m_name : list byte;
  m_doc : option (list byte);
  m_size : Z;
  m_methods : option N;
  m_slots : option N;
  m_traverse : option N;
  m_clear : option N;
  m_free : option N
}.

Class ModuleProtocol := {
  PyCapsule_New : N -> option (list byte) -> (PyObject_ptr -> M unit) -> M PyObject_ptr;
  PyCapsule_SetContext : PyObject_ptr -> free_fn -> M Z;
  PyCapsule_GetContext : PyObject_ptr -> M free_fn;
  PyCapsule_GetPointer : PyObject_ptr -> option (list byte) -> M N;
  PyModule_Create : PyModuleDef -> M PyObject_ptr
}.

(** ** [common.cpp] *)
Module detail.
Import CPython.

Definition sizeof_buf : Z := 512.

(** [raise(fmt, ...)]; [out] is the expansion of [fmt] with the
    arguments. *)
Definition raise {A} (out : list byte) : M A :=
  let '(buf, r) := libc.vsnprintf sizeof_buf out in
  let size := int_cast size_t r in
  if size <? sizeof_buf then
    e ← std_runtime_error buf; throw e
  else
    ptr ← libc.malloc (int_cast size_t (size + 1));
    if negb ptr then
      libc.abort (list_byte_of_string "nb::detail::raise(): out of memory!")
    else
      let '(mem, _) := libc.vsnprintf (int_cast size_t (size + 1)) out in
      err ← std_runtime_error mem;
      libc.free (int_cast size_t (size + 1));;
      throw err.

(** [fail(fmt, ...)] *)
Definition fail {A} (out : list byte) : M A :=
  libc.abort (list_byte_of_string "Critical nanobind error: " ++ out).

Definition python_error_raise {A} : M A :=
  occurred ← PyErr_Occurred;
  if (occurred : bool) then
    e ← python_error_ctor; throw e
  else
    fail (list_byte_of_string
      "nanobind::detail::raise_python_error() called without an error condition!").

Section Shim.
Context `{ObjectProtocol}.

Definition obj_len (o : PyObject_ptr) : M Z :=
  res ← PyObject_Length o;
  (if res <? 0 then python_error_raise else mret tt);;
  mret (int_cast size_t res).

Definition obj_repr (o : PyObject_ptr) : M PyObject_ptr :=
  res ← PyObject_Repr o;
  (if is_null res then python_error_raise else mret tt);;
  mret res.

Definition obj_compare (a b : PyObject_ptr) (value : Z) : M bool :=
  rv ← PyObject_RichCompareBool a b value;
  (if rv =? -1 then python_error_raise else mret tt);;
  mret (rv =? 1).

Definition obj_op_1 (a : PyObject_ptr) (op : PyObject_ptr -> M PyObject_ptr)
  : M PyObject_ptr :=
  res ← op a;
  (if is_null res then python_error_raise else mret tt);;
  mret res.

Definition obj_op_2 (a b : PyObject_ptr)
    (op : PyObject_ptr -> PyObject_ptr -> M PyObject_ptr) : M PyObject_ptr :=
  res ← op a b;
  (if is_null res then python_error_raise else mret tt);;
  mret res.

(** [getattr(obj, const char *key)] and [getattr(obj, PyObject *key)] *)
Definition getattr_str (obj : PyObject_ptr) (key : list byte) : M PyObject_ptr :=
  res ← PyObject_GetAttrString obj key;
  (if is_null res then python_error_raise else mret tt);;
  mret res.

Definition getattr_obj (obj key : PyObject_ptr) : M PyObject_ptr :=
  res ← PyObject_GetAttr obj key;
  (if is_null res then python_error_raise else mret tt);;
  mret res.

(** The overloads with a default value, [getattr(obj, key, def)] *)
Definition getattr_str_def (obj : PyObject_ptr) (key : list byte)
    (def : PyObject_ptr) : M PyObject_ptr :=
  res ← PyObject_GetAttrString obj key;
  if negb (is_null res) then mret res
  else PyErr_Clear;; Py_XINCREF def;; mret def.

Definition getattr_obj_def (obj key def : PyObject_ptr) : M PyObject_ptr :=
  res ← PyObject_GetAttr obj key;
  if negb (is_null res) then mret res
  else PyErr_Clear;; Py_XINCREF def;; mret def.

(** [getattr_maybe(obj, key, PyObject **out)]: the slot [*out] is
    passed in and its new content is returned. *)
Definition getattr_maybe_str (obj : PyObject_ptr) (key : list byte)
    (out : PyObject_ptr) : M PyObject_ptr :=
  if negb (is_null out) then mret out
  else
    res ← PyObject_GetAttrString obj key;
    (if is_null res then python_error_raise else mret tt);;
    mret res.

Definition getattr_maybe_obj (obj key out : PyObject_ptr) : M PyObject_ptr :=
  if negb (is_null out) then mret out
  else
    res ← PyObject_GetAttr obj key;
    (if is_null res then python_error_raise else mret tt);;
    mret res.

Definition setattr_str (obj : PyObject_ptr) (key : list byte)
    (value : PyObject_ptr) : M unit :=
  rv ← PyObject_SetAttrString obj key value;
  if negb (rv =? 0) then python_error_raise else mret tt.

Definition setattr_obj (obj key value : PyObject_ptr) : M unit :=
  rv ← PyObject_SetAttr obj key value;
  if negb (rv =? 0) then python_error_raise else mret tt.

(** [getitem_maybe] with a [Py_ssize_t], a [const char *] and a
    [PyObject *] key *)
Definition getitem_maybe_int (obj : PyObject_ptr) (key_ : Z)
    (out : PyObject_ptr) : M PyObject_ptr :=
  if negb (is_null out) then mret out
  else
    key ← PyLong_FromSsize_t key_;
    (if is_null key then python_error_raise else mret tt);;
    res ← PyObject_GetItem obj key;
    Py_DECREF key;;
    (if is_null res then python_error_raise else mret tt);;
    mret res.

Definition getitem_maybe_str (obj : PyObject_ptr) (key_ : list byte)
    (out : PyObject_ptr) : M PyObject_ptr :=
  if negb (is_null out) then mret out
  else
    key ← PyUnicode_FromString key_;
    (if is_null key then python_error_raise else mret tt);;
    res ← PyObject_GetItem obj key;
    Py_DECREF key;;
    (if is_null res then python_error_raise else mret tt);;
    mret res.

Definition getitem_maybe_obj (obj key out : PyObject_ptr) : M PyObject_ptr :=
  if negb (is_null out) then mret out
  else
    res ← PyObject_GetItem obj key;
    (if is_null res then python_error_raise else mret tt);;
    mret res.

Definition setitem_int (obj : PyObject_ptr) (key_ : Z) (value : PyObject_ptr)
  : M unit :=
  key ← PyLong_FromSsize_t key_;
  (if is_null key then python_error_raise else mret tt);;
  rv ← PyObject_SetItem obj key value;
  Py_DECREF key;;
  if negb (rv =? 0) then python_error_raise else mret tt.

Definition setitem_str (obj : PyObject_ptr) (key_ : list byte)
    (value : PyObject_ptr) : M unit :=
  key ← PyUnicode_FromString key_;
  (if is_null key then python_error_raise else mret tt);;
  rv ← PyObject_SetItem obj key value;
  Py_DECREF key;;
  if negb (rv =? 0) then python_error_raise else mret tt.

Definition setitem_obj (obj key value : PyObject_ptr) : M unit :=
  rv ← PyObject_SetItem obj key value;
  if negb (rv =? 0) then python_error_raise else mret tt.

Definition str_from_obj (o : PyObject_ptr) : M PyObject_ptr :=
  result ← PyObject_Str o;
  (if is_null result then python_error_raise else mret tt);;
  mret result.

Definition str_from_cstr (str : list byte) : M PyObject_ptr :=
  result ← PyUnicode_FromString str;
  (if is_null result
   then raise (list_byte_of_string
                 "nanobind::detail::str_from_cstr(): conversion error!")
   else mret tt);;
  mret result.

Definition str_from_cstr_and_size (str : list byte) (size : Z) : M PyObject_ptr :=
  result ← PyUnicode_FromStringAndSize str (int_cast Py_ssize_t size);
  (if is_null result
   then raise (list_byte_of_string
                 "nanobind::detail::str_from_cstr_and_size(): conversion error!")
   else mret tt);;
  mret result.
End Shim.

(** A C array of object pointers; an access outside of it is undefined. *)
Definition array_get (out : list PyObject_ptr) (i : nat) : M PyObject_ptr :=
  match out !! i with Some o => mret o | None => undefined end.
Definition array_set (out : list PyObject_ptr) (i : nat) (o : PyObject_ptr)
  : M (list PyObject_ptr) :=
  if bool_decide (i < length out)%nat then mret (<[i := o]> out) else undefined.

(** [for (size_t j = 0; j < i; ++j) Py_DECREF(out[j]);] *)
Fixpoint release_fetched (out : list PyObject_ptr) (i : nat) : M unit :=
  match i with
  | O => mret tt
  | S j => release_fetched out j;; o ← array_get out j; Py_DECREF o
  end.

(** The loop of [seq_size_fetch], with [n] iterations left at index [i]. *)
Fixpoint fetch_from (seq : PyObject_ptr) (n i : nat) (out : list PyObject_ptr)
  : M (bool * list PyObject_ptr) :=
  match n with
  | O => mret (true, out)
  | S n' =>
      item ← PySequence_GetItem seq (int_cast Py_ssize_t (Z.of_nat i));
      out ← array_set out i item;
      if is_null item then
        release_fetched out i;; mret (false, out)
      else fetch_from seq n' (S i) out
  end.

(** [seq_size_fetch(seq, size, out)]: the array [out] is passed in and
    returned with the result. *)
Definition seq_size_fetch (seq : PyObject_ptr) (size : Z) (out : list PyObject_ptr)
  : M (bool * list PyObject_ptr) :=
  rv ← PySequence_Size seq;
  (if rv =? -1 then PyErr_Clear else mret tt);;
  if negb (rv =? int_cast Py_ssize_t size) then mret (false, out)
  else fetch_from seq (Z.to_nat size) 0 out.

Section Capsule.
Context `{ModuleProtocol}.

(** The lambda [capsule_free] of [capsule_new] *)
Definition capsule_free (o : PyObject_ptr) : M unit :=
  free_2 ← PyCapsule_GetContext o;
  match free_2 with
  | Some f => p ← PyCapsule_GetPointer o None; f p
  | None => mret tt
  end.

Definition capsule_new (ptr : N) (free : free_fn) : M PyObject_ptr :=
  c ← PyCapsule_New ptr None capsule_free;
  (if is_null c
   then fail (list_byte_of_string
                "nanobind::detail::capsule_new(): allocation failed!")
   else mret tt);;
  rv ← PyCapsule_SetContext c free;
  (if negb (rv =? 0)
   then fail (list_byte_of_string
                "nanobind::detail::capsule_new(): could not set context!")
   else mret tt);;
  mret c.

(** [module_new(name, def)]: the definition written to [def] is the one
    handed to [PyModule_Create]. *)
Definition module_new (name : list byte) : M PyObject_ptr :=
  let def := MkModuleDef name None (-1) None None None None None in
  m ← PyModule_Create def;
  (if is_null m
   then fail (list_byte_of_string
                "nanobind::detail::module_new(): allocation failed!")
   else mret tt);;
  mret m.
End Capsule.

End detail.

(** ** Handles *)
Abbreviation handle := PyObject_ptr (only parsing).

(** Modelled from the spec: the classes [handle], [object] and [none] and
    the functions [steal] and [borrow] of the handle header, which is not
    among the sources.  A [handle] is a bare pointer; an [object] owns one
    reference, which its destructor gives back; [release] hands the pointer
    out without touching the count. *)
Module Handle.
Import CPython.

Definition is_valid (h : handle) : bool := negb (is_null h).
Definition ptr (h : handle) : PyObject_ptr := h.
Definition is_none (h : handle) : bool := bool_decide (h = Some Py_None).
Definition inc_ref (h : handle) : M handle := Py_XINCREF h;; mret h.
Definition dec_ref (h : handle) : M handle := Py_XDECREF h;; mret h.

(** [steal(h)]: an [object] that takes over a reference already counted *)
Definition steal (h : handle) : M handle := mret h.
(** [borrow(h)]: an [object] with a reference of its own *)
Definition borrow (h : handle) : M handle := Py_XINCREF h;; mret h.
(** [o.release()] *)
Definition release (o : handle) : M handle := mret o.
(** [~object()] *)
Definition object_dtor (o : handle) : M unit := Py_XDECREF o.
(** [none()] *)
Definition none : M handle := borrow (Some Py_None).

End Handle.

(** ** Return value policies *)
Module rv_policy.
Inductive t :=
| automatic
| automatic_reference
| take_ownership
| copy
| move
| reference
| reference_internal.

Definition eqb (a b : t) : bool :=
  match a, b with
  | automatic, automatic | automatic_reference, automatic_reference
  | take_ownership, take_ownership | copy, copy | move, move
  | reference, reference | reference_internal, reference_internal => true
  | _, _ => false
  end.
End rv_policy.

(** ** Casters

    A specialisation of [type_caster<T>] is an instance of the class below.
    [load] returns the content of the [value] member when the C++ function
    returns [true]; [cast_ptr] is the overload of [cast] that takes a
    pointer; [destroy] is what the destructor of a loaded value does. *)
Class type_caster (T : Type) := {
  load : handle -> bool -> M (option T);
  cast : T -> rv_policy.t -> handle -> M handle;
  cast_ptr : option T -> rv_policy.t -> handle -> M handle;
  destroy : T -> M unit
}.
Arguments load {T} _ src convert.
Arguments cast {T} _ src policy parent.
Arguments cast_ptr {T} _ p policy parent.
Arguments destroy {T} _ value.

(** The overload of [cast] that [NB_TYPE_CASTER] adds to a caster. *)
Definition NB_TYPE_CASTER {T} (cast : T -> rv_policy.t -> handle -> M handle)
    (p : option T) (policy : rv_policy.t) (parent : handle) : M handle :=
  match p with
  | None => o ← Handle.none; Handle.release o
  | Some v => cast v policy parent
  end.

Module caster.
Import CPython.

(** *** [type_caster<T>] for arithmetic [T] *)
Section Arithmetic.
Variable dm : data_model.

Definition num_is_signed (T : num_type) : bool :=
  match T with NInt U => is_signed U | NFloat _ => true end.

Definition make_unsigned (U : int_type) : int_type := IntType false (size U).

Definition T0 (T : num_type) : int_type :=
  if num_sizeof T <=? sizeof (long dm) then long dm else long_long.
Definition T1 (T : num_type) : int_type :=
  if num_is_signed T then T0 T else make_unsigned (T0 T).
Definition Tp (T : num_type) : num_type :=
  if is_floating_point T then NFloat Float64 else NInt (T1 T).

(** [(T) value_p] *)
Definition narrow (T : num_type) : num_value (Tp T) -> num_value T :=
  match T with
  | NInt U => int_cast U
  | NFloat F => float_cast F
  end.

(** The integer branch up to the assignment of [value_p]: the call of
    the conversion that fits [Tp], and the cast of its result to [Tp]. *)
Definition long_as_Tp (U : int_type) (src : handle) : M Z :=
  let T := NInt U in
  if negb (is_signed (T1 T)) then
    if sizeof U <=? sizeof (long dm)
    then v ← PyLong_AsUnsignedLong dm (Handle.ptr src); mret (int_cast (T1 T) v)
    else v ← PyLong_AsUnsignedLongLong (Handle.ptr src); mret (int_cast (T1 T) v)
  else
    if sizeof U <=? sizeof (long dm)
    then v ← PyLong_AsLong dm (Handle.ptr src); mret (int_cast (T1 T) v)
    else v ← PyLong_AsLongLong (Handle.ptr src); mret (int_cast (T1 T) v).

(** [load] up to the test for a pending error; [None] stands for an
    early [return false]. *)
Definition load_value_p (T : num_type) (src : handle) (convert : bool)
  : M (option (num_value (Tp T))) :=
  match T return M (option (num_value (Tp T))) with
  | NFloat F =>
      is_float ← PyFloat_Check (Handle.ptr src);
      if negb convert && negb is_float then mret None
      else
        d ← PyFloat_AsDouble (Handle.ptr src);
        mret (Some (float_cast Float64 d))
  | NInt U =>
      let T := NInt U in
      is_long ← PyLong_Check (Handle.ptr src);
      if negb convert && negb is_long then mret None
      else
        value_p ← long_as_Tp U src;
        if negb (sizeof (T1 T) =? sizeof U)
           && negb (value_p =? int_cast (T1 T) (int_cast U value_p))
        then mret None
        else mret (Some value_p)
  end.

Definition load_arithmetic (T : num_type) (src : handle) (convert : bool)
  : M (option (num_value T)) :=
  if negb (Handle.is_valid src) then mret None
  else
    r ← load_value_p T src convert;
    match r with
    | None => mret None
    | Some value_p =>
        occurred ← PyErr_Occurred;
        if num_eqb (Tp T) value_p (num_minus_one (Tp T)) && occurred then
          PyErr_Clear;; mret None
        else mret (Some (narrow T value_p))
    end.

Definition cast_arithmetic (T : num_type) (src : num_value T)
    (policy : rv_policy.t) (parent : handle) : M handle :=
  match T return num_value T -> M handle with
  | NFloat F => fun src => PyFloat_FromDouble (float_cast Float64 src)
  | NInt U => fun src =>
      if negb (is_signed U) && (sizeof U <=? sizeof (long dm)) then
        PyLong_FromUnsignedLong (int_cast (unsigned_long dm) src)
      else if is_signed U && (sizeof U <=? sizeof (long dm)) then
        PyLong_FromLong (int_cast (long dm) src)
      else if negb (is_signed U) then
        PyLong_FromUnsignedLongLong (int_cast unsigned_long_long src)
      else if is_signed U then
        PyLong_FromLongLong (int_cast long_long src)
      else detail.fail (list_byte_of_string "invalid number cast")
  end src.

#[export] Instance arithmetic (T : num_type) : type_caster (num_value T) := {
  load := load_arithmetic T;
  cast := cast_arithmetic T;
  cast_ptr := NB_TYPE_CASTER (cast_arithmetic T);
  destroy := fun _ => mret tt
}.
End Arithmetic.

(** *** [type_caster<std::nullptr_t>] *)
Definition load_nullptr (src : handle) (convert : bool) : M (option unit) :=
  if Handle.is_valid src && Handle.is_none src then mret (Some tt)
  else mret None.

Definition cast_nullptr (src : unit) (policy : rv_policy.t) (parent : handle)
  : M handle :=
  o ← Handle.none;
  r ← Handle.inc_ref o;
  Handle.object_dtor o;;
  mret r.

#[export] Instance nullptr : type_caster unit := {
  load := load_nullptr;
  cast := cast_nullptr;
  cast_ptr := NB_TYPE_CASTER cast_nullptr;
  destroy := fun _ => mret tt
}.

(** *** [type_caster<bool>] *)
Definition load_bool (src : handle) (convert : bool) : M (option bool) :=
  if bool_decide (Handle.ptr src = Some Py_True) then mret (Some true)
  else if bool_decide (Handle.ptr src = Some Py_False) then mret (Some false)
  else mret None.

Definition cast_bool (src : bool) (policy : rv_policy.t) (parent : handle)
  : M handle :=
  Handle.inc_ref (Some (if src then Py_True else Py_False)).

#[export] Instance boolean : type_caster bool := {
  load := load_bool;
  cast := cast_bool;
  cast_ptr := NB_TYPE_CASTER cast_bool;
  destroy := fun _ => mret tt
}.

(** *** [type_caster<std::pair<T1, T2>>] *)
Section Pair.
Context {T1 T2 : Type} (C1 : type_caster T1) (C2 : type_caster T2).

(** The label [fail:] *)
Definition load_pair_fail {A} (o : list PyObject_ptr) : M (option A) :=
  o0 ← detail.array_get o 0;
  Py_DECREF o0;;
  o1 ← detail.array_get o 1;
  Py_DECREF o1;;
  mret None.

(** The casters [c1] and [c2] are locals: a value that [c1] has loaded
    and that was not moved into the pair is destroyed on the way out. *)
Definition load_pair (src : handle) (convert : bool) : M (option (T1 * T2)) :=
  '(ok, o) ← detail.seq_size_fetch (Handle.ptr src) 2 [None; None];
  if negb ok then mret None
  else
    o0 ← detail.array_get o 0;
    r1 ← load C1 o0 convert;
    match r1 with
    | None => load_pair_fail o
    | Some first =>
        o1 ← detail.array_get o 1;
        r2 ← load C2 o1 convert;
        match r2 with
        | None => r ← load_pair_fail o; destroy C1 first;; mret r
        | Some second => mret (Some (first, second))
        end
    end.

Definition cast_pair (value : T1 * T2) (policy : rv_policy.t) (parent : handle)
  : M handle :=
  c1 ← cast C1 (fst value) policy parent;
  o1 ← Handle.steal c1;
  if negb (Handle.is_valid o1) then
    Handle.object_dtor o1;; mret None
  else
    c2 ← cast C2 (snd value) policy parent;
    o2 ← Handle.steal c2;
    if negb (Handle.is_valid o2) then
      Handle.object_dtor o2;; Handle.object_dtor o1;; mret None
    else
      r ← PyTuple_New 2;
      p1 ← Handle.release o1;
      PyTuple_SET_ITEM r 0 (Handle.ptr p1);;
      p2 ← Handle.release o2;
      PyTuple_SET_ITEM r 1 (Handle.ptr p2);;
      mret r.

#[export] Instance pair : type_caster (T1 * T2) := {
  load := load_pair;
  cast := cast_pair;
  cast_ptr := NB_TYPE_CASTER cast_pair;
  destroy := fun v => destroy C2 (snd v);; destroy C1 (fst v)
}.
End Pair.

(** *** [type_caster<T>] for [T] derived from [handle]

    [is_handle] tells whether [T] is [handle] itself, and [check] is the
    test behind [isinstance<T>]. *)
Section HandleSubtype.
Variable is_handle : bool.
Variable check : handle -> M bool.

Definition isinstance (src : handle) : M bool := check src.

Definition load_handle (src : handle) (convert : bool) : M (option handle) :=
  ok ← isinstance src;
  if negb ok then mret None
  else if is_handle then mret (Some src)
  else value ← Handle.borrow src; mret (Some value).

Definition cast_handle (src : handle) (policy : rv_policy.t) (parent : handle)
  : M handle :=
  Handle.inc_ref src.

#[export] Instance handle_subtype : type_caster handle := {
  load := load_handle;
  cast := cast_handle;
  cast_ptr := NB_TYPE_CASTER cast_handle;
  destroy := fun v => if is_handle then mret tt else Handle.object_dtor v
}.
End HandleSubtype.

(** *** The primary template: types known to the type registry

    Native instances are known by their address ([0] is the null
    pointer); [typeid(T)] is a number. *)
Definition void_ptr := N.
Definition type_info := N.

(** The registry behind [detail::type_get] and [detail::type_put]; it is
    implemented outside of the sources at hand.  [type_get] returns the
    pointer it stores through its last argument when it returns [true]. *)
Class Registry := {
  type_get : type_info -> PyObject_ptr -> bool -> M (option void_ptr);
  type_put : type_info -> void_ptr -> rv_policy.t -> PyObject_ptr -> M handle
}.

(** How the native value reaches [cast]: as [const T *], [const T &] or
    [const T &&].  Overload resolution picks the function. *)
Inductive value_category := by_pointer | by_lvalue | by_rvalue.

Section Generic.
Context `{Registry}.
Variable typeid : type_info.

Definition load_generic (src : handle) (convert : bool) : M (option void_ptr) :=
  type_get typeid (Handle.ptr src) convert.

Definition cast_impl (p : void_ptr) (policy : rv_policy.t) (parent : handle)
  : M handle :=
  type_put typeid p policy (Handle.ptr parent).

(** [cast(const T *p, policy, parent)] *)
Definition cast_pointer (p : void_ptr) (policy : rv_policy.t) (parent : handle)
  : M handle :=
  let policy :=
    if rv_policy.eqb policy rv_policy.automatic then rv_policy.take_ownership
    else if rv_policy.eqb policy rv_policy.automatic_reference
         then rv_policy.reference
         else policy in
  cast_impl p policy parent.

(** [cast(const T &p, policy, parent)]; the argument is [&p] *)
Definition cast_lvalue (p : void_ptr) (policy : rv_policy.t) (parent : handle)
  : M handle :=
  let policy :=
    if rv_policy.eqb policy rv_policy.automatic
       || rv_policy.eqb policy rv_policy.automatic_reference
    then rv_policy.copy
    else policy in
  cast_impl p policy parent.

(** [cast(const T &&p, policy, parent)]; the argument is [&p] *)
Definition cast_rvalue (p : void_ptr) (policy : rv_policy.t) (parent : handle)
  : M handle :=
  cast_impl p rv_policy.move parent.

Definition cast_generic (c : value_category) :=
  match c with
  | by_pointer => cast_pointer
  | by_lvalue => cast_lvalue
  | by_rvalue => cast_rvalue
  end.

(** The caster as a component of a pair: the member of the pair is an
    lvalue of class type. *)
#[export] Instance generic : type_caster void_ptr := {
  load := load_generic;
  cast := cast_lvalue;
  cast_ptr := fun p => cast_pointer (default 0%N p);
  destroy := fun _ => mret tt
}.
End Generic.

End caster.

(** ** Statements of the specification, as written there *)
Module Spec.
Import caster.

(** The normalisation table of the specification (sections 4.4 and 4.5):
    [automatic] by value category, [automatic_reference] to
    [reference]. *)
Definition normalize (c : value_category) (policy : rv_policy.t) : rv_policy.t :=
  match policy with
  | rv_policy.automatic =>
      match c with
      | by_pointer => rv_policy.take_ownership
      | by_lvalue => rv_policy.copy
      | by_rvalue => rv_policy.move
      end
  | rv_policy.automatic_reference => rv_policy.reference
  | p => p
  end.

End Spec.

(** The policy that the overloads of the primary template hand to the
    registry, read off the three function bodies. *)
Definition resolved_policy (c : caster.value_category) (policy : rv_policy.t)
  : rv_policy.t :=
  match c, policy with
  | caster.by_pointer, rv_policy.automatic => rv_policy.take_ownership
  | caster.by_pointer, rv_policy.automatic_reference => rv_policy.reference
  | caster.by_pointer, p => p
  | caster.by_lvalue, rv_policy.automatic => rv_policy.copy
  | caster.by_lvalue, rv_policy.automatic_reference => rv_policy.copy
  | caster.by_lvalue, p => p
  | caster.by_rvalue, _ => rv_policy.move
  end.

(** The unsigned integer types that are narrower than their intermediate
    type [Tp]. *)
Definition narrow_unsigned (dm : data_model) (T : num_type) : bool :=
  match T with
  | NInt U => negb (is_signed U) && negb (sizeof (caster.T1 dm T) =? sizeof U)
  | NFloat _ => false
  end.

(** The casters whose pointer overload of [cast] comes from
    [NB_TYPE_CASTER]. *)
Inductive uses_NB_TYPE_CASTER : forall T, type_caster T -> Prop :=
| macro_arithmetic dm T : uses_NB_TYPE_CASTER _ (caster.arithmetic dm T)
| macro_nullptr : uses_NB_TYPE_CASTER _ caster.nullptr
| macro_bool : uses_NB_TYPE_CASTER _ caster.boolean
| macro_pair T1 T2 (C1 : type_caster T1) (C2 : type_caster T2) :
    uses_NB_TYPE_CASTER _ (caster.pair C1 C2)
| macro_handle is_handle check :
    uses_NB_TYPE_CASTER _ (caster.handle_subtype is_handle check).

(** Two states that differ at most in reference counts. *)
Definition same_but_refcnt (s s' : State) : Prop :=
  objects s' = objects s /\ curexc s' = curexc s /\ next_addr s' = next_addr s
  /\ py_avail s' = py_avail s /\ c_avail s' = c_avail s.

(** The outcome of a wrapper that left through the error bridge: it is the
    outcome of [python_error_raise] or of [raise] in some state. *)
Definition through_error_bridge {A} (r : result A) : Prop :=
  (exists s', r = detail.python_error_raise s')
  \/ (exists out s', r = detail.raise out s').

(** How many of the pointers in [l] point to [a]. *)
Fixpoint count_in (a : addr) (l : list PyObject_ptr) : Z :=
  match l with
  | [] => 0
  | o :: l' => (if bool_decide (o = Some a) then 1 else 0) + count_in a l'
  end.

(** The first [i] entries of the array [out] hold objects. *)
Definition fetched (out : list PyObject_ptr) (i : nat) : Prop :=
  forall j, (j < i)%nat -> exists a, out !! j = Some (Some a).

(** A caster whose [load] leaves the reference counts alone when it
    fails, and whose loaded value gives back in its destructor, whenever it
    runs, the references [d] that [load] took. *)
Definition refcnt_balanced {T} (C : type_caster T) : Prop :=
  (forall src convert s s',
     load C src convert s = Return None s' -> forall a, refcnt s' a = refcnt s a)
  /\ (forall src convert s v s',
        load C src convert s = Return (Some v) s' ->
        exists d : addr -> Z,
          (forall a, refcnt s' a = refcnt s a + d a)
          /\ forall t, exists t',
               destroy C v t = Return tt t'
               /\ forall a, refcnt t' a = refcnt t a - d a).

(** A conversion either succeeds without touching the state, or sets an
    error and returns its error value. *)
Definition clean_or {A} (err : A) (s : State) (r : A) (s' : State) : Prop :=
  s' = s \/ (r = err /\ exists e, s' = set_curexc (Some e) s).

(** What [PySequence_Size] answers for an object in the state [s]: its
    length, or nothing when it has none, and also when the result of
    [__len__] is rejected because an error is pending. *)
Definition sequence_length (s : State) (v : py_value) : option Z :=
  match v with
  | PyTupleV items => Some (Z.of_nat (length items))
  | PyInstanceV i =>
      match tp_len i with
      | Some n => if CPython.error_pending s || (n <? 0) then None else Some n
      | None => None
      end
  | _ => None
  end.

(** The small integers are in place: every address of their block holds
    the [int] object of its value. *)
Definition small_ints_cached (s : State) : Prop :=
  forall v, CPython.is_small_int v = true ->
    objects s !! CPython.small_int v = Some (PyLongV v).

(** The allocator stays below the block of the small integers. *)
Definition small_ints_reserved (s : State) : Prop :=
  Z.pos (next_addr s) + Z.of_nat (py_avail s)
  <= CPython.small_ints - CPython.NSMALLNEGINTS.

(** An address that the allocator has handed out, or that lies in the block
    of the small integers: it is not handed out again. *)
Definition allocated (s : State) (a : addr) : Prop :=
  (a < next_addr s)%positive
  \/ CPython.small_ints - CPython.NSMALLNEGINTS <= Z.pos a.

(** The integers that have a shared object, and whether they are all in
    place in [s]. *)
Definition small_int_values : list Z :=
  (fun i => Z.of_nat i - CPython.NSMALLNEGINTS)
    <$> seq 0 (Z.to_nat (CPython.NSMALLNEGINTS + CPython.NSMALLPOSINTS)).

Definition small_ints_cachedb (s : State) : bool :=
  forallb (fun v => match objects s !! CPython.small_int v with
                    | Some (PyLongV n) => n =? v
                    | _ => false
                    end) small_int_values.

(** The handle that [cast] of the numeric caster returns without
    allocating: the shared object of a small integer. *)
Definition shared_object (T : num_type) : num_value T -> option addr :=
  match T with
  | NInt _ => fun v =>
      if CPython.is_small_int v then Some (CPython.small_int v) else None
  | NFloat _ => fun _ => None
  end.

(** The outcome of a wrapper that has handed the failure of a call, which
    left the interpreter in [s'], to the error bridge: it is that of
    [python_error_raise] in [s'], so that it throws [python_error] with
    the error that is pending in [s']. *)
Definition raises_python_error {A} (r : result A) (s' : State) : Prop :=
  r = detail.python_error_raise s'
  /\ forall e, curexc s' = Some e ->
       r = Throw (python_error e) (set_curexc None s').

(** The object that [cast] of a number makes. *)
Definition num_object (T : num_type) : num_value T -> py_value :=
  match T with
  | NInt _ => fun v => PyLongV v
  | NFloat _ => fun v => PyFloatV (float_cast Float64 v)
  end.

(** A caster whose [load] never changes a reference count. *)
Definition load_keeps_refcnt {T} (C : type_caster T) : Prop :=
  forall src convert s r s',
    load C src convert s = Return r s' -> forall a, refcnt s' a = refcnt s a.

(** A caster whose [cast] does not look at the policy or the parent. *)
Definition policy_independent {T} (C : type_caster T) : Prop :=
  forall v policy parent policy' parent',
    cast C v policy parent = cast C v policy' parent'.

(** *** Sample data *)
Module Sample.
Import caster.

(** A registry that answers with [None] exactly for [reference]. *)
#[export] Instance registry : Registry := {
  type_get := fun _ _ _ => mret None;
  type_put := fun _ _ policy _ =>
    mret (if rv_policy.eqb policy rv_policy.reference then Some Py_None else None)
}.

(** An interpreter with the three singletons and room for more. *)
Definition state : State :=
  MkState (<[Py_None := PyNoneV]> (<[Py_True := PyBoolV true]>
            (<[Py_False := PyBoolV false]> ∅)))
          (<[Py_None := 10]> (<[Py_True := 5]> (<[Py_False := 5]> ∅)))
          None 4%positive 8%nat 4096.

(** The same interpreter with an allocator that has run dry. *)
Definition exhausted : State :=
  MkState (objects state) (ob_refcnt state) None 4%positive 0%nat 0.

(** An interpreter that also holds the tuple [(True, None)] at address 4
    and, at address 5, an instance of a class with [__len__] 2 whose
    [__getitem__] yields [True] at index 0 and raises at index 1. *)
Definition with_sequences : State :=
  MkState (<[4%positive := PyTupleV [Some Py_True; Some Py_None]]>
             (<[5%positive := PyInstanceV (MkInstance (Some 2) [Some Py_True; None] None None)]>
                (objects state)))
          (<[4%positive := 1]> (<[5%positive := 1]> (ob_refcnt state)))
          None 6%positive 8%nat 4096.

(** An interpreter that holds the [int] objects [2 ^ 40], [-1] and [7] at
    the addresses 4, 5 and 6, with no error pending. *)
Definition with_numbers : State :=
  MkState (<[4%positive := PyLongV (2 ^ 40)]>
             (<[5%positive := PyLongV (-1)]>
                (<[6%positive := PyLongV 7]> (objects state))))
          (<[4%positive := 1]> (<[5%positive := 1]> (<[6%positive := 1]>
             (ob_refcnt state))))
          None 7%positive 8%nat 4096.

Definition uint32_t : int_type := IntType false Size4.
Definition int64_t : int_type := IntType true Size8.

(** A message longer than the stack buffer of [raise]. *)
Definition long_message : list byte := replicate 600 "a"%byte.

(** An interpreter in which no object has attributes or items: the
    lookups fail with an error set, everything else succeeds on [None]. *)
#[export] Instance protocol : ObjectProtocol := {
  PyObject_Length := fun _ => mret 0;
  PyObject_Repr := fun _ => mret (Some Py_None);
  PyObject_Str := fun _ => mret (Some Py_None);
  PyObject_RichCompareBool := fun _ _ _ => mret 1;
  PyObject_GetAttrString := fun _ _ => CPython.PyErr_SetNone AttributeError;; mret None;
  PyObject_GetAttr := fun _ _ => CPython.PyErr_SetNone AttributeError;; mret None;
  PyObject_SetAttrString := fun _ _ _ => CPython.PyErr_SetNone AttributeError;; mret (-1);
  PyObject_SetAttr := fun _ _ _ => CPython.PyErr_SetNone AttributeError;; mret (-1);
  PyObject_GetItem := fun _ _ => CPython.PyErr_SetNone KeyError;; mret None;
  PyObject_SetItem := fun _ _ _ => CPython.PyErr_SetNone KeyError;; mret (-1);
  PyLong_FromSsize_t := CPython.long_from;
  PyUnicode_FromString := fun _ => mret (Some Py_None);
  PyUnicode_FromStringAndSize := fun _ _ => mret (Some Py_None)
}.

(** An interpreter whose capsules cannot take a context, and that is out
    of memory for modules. *)
#[export] Instance modules : ModuleProtocol := {
  PyCapsule_New := fun _ _ _ => CPython.new_object PyNoneV;
  PyCapsule_SetContext := fun _ _ => CPython.PyErr_SetNone ValueError;; mret (-1);
  PyCapsule_GetContext := fun _ => mret None;
  PyCapsule_GetPointer := fun _ _ => mret 0%N;
  PyModule_Create := fun _ => CPython.PyErr_SetNone MemoryError;; mret None
}.

(** An interpreter with an error pending. *)
Definition with_error : State := set_curexc (Some KeyError) with_numbers.

(** The interpreter [state] with its small integers in place. *)
Definition started : State :=
  MkState (foldr (fun v m => <[CPython.small_int v := PyLongV v]> m)
                 (objects state) small_int_values)
          (foldr (fun v m => <[CPython.small_int v := 1]> m)
                 (ob_refcnt state) small_int_values)
          None 4%positive 8%nat 4096.

End Sample.

(** ** Reference counts *)
Section Refcnt.
Import CPython.

Lemma refcnt_incref_eq a s : refcnt (incref a s) a = refcnt s a + 1.
Proof. unfold refcnt, incref, set_refcnt; simpl. by rewrite lookup_insert_eq. Qed.

Lemma refcnt_incref_ne a b s : a ≠ b -> refcnt (incref a s) b = refcnt s b.
Proof. intros. unfold refcnt, incref, set_refcnt; simpl. by rewrite lookup_insert_ne. Qed.

Lemma refcnt_decref_eq a s : refcnt (decref a s) a = refcnt s a - 1.
Proof. unfold refcnt, decref, set_refcnt; simpl. by rewrite lookup_insert_eq. Qed.

Lemma refcnt_decref_ne a b s : a ≠ b -> refcnt (decref a s) b = refcnt s b.
Proof. intros. unfold refcnt, decref, set_refcnt; simpl. by rewrite lookup_insert_ne. Qed.

Lemma refcnt_decref_incref a b s : refcnt (decref a (incref a s)) b = refcnt s b.
Proof.
  destruct (decide (a = b)) as [->|].
  - rewrite refcnt_decref_eq, refcnt_incref_eq. lia.
  - by rewrite refcnt_decref_ne, refcnt_incref_ne.
Qed.

Lemma refcnt_set_curexc e s a : refcnt (set_curexc e s) a = refcnt s a.
Proof. reflexivity. Qed.
End Refcnt.

(** ** The primary template and the return value policy *)
Section GenericCast.
Import caster.

(** C1, as amended: whatever the registry, the type, the pointer and the
    parent, each overload of the primary template's [cast] is the call of
    [type_put] with the policy of [resolved_policy]: [automatic] becomes
    [take_ownership], [copy] or [move] by value category,
    [automatic_reference] becomes [reference] for a pointer but [copy]
    for an lvalue, and an rvalue is always handed over with [move]. *)
Theorem cast_generic_resolved_policy :
  forall (R : Registry) (typeid : type_info) (c : value_category)
         (p : void_ptr) (policy : rv_policy.t) (parent : handle),
    cast_generic typeid c p policy parent
    = type_put typeid p (resolved_policy c policy) (Handle.ptr parent).
Proof.
  intros R typeid c p policy parent.
  destruct c, policy; reflexivity.
Qed.

(** C1, as stated, fails: an lvalue cast with [automatic_reference]
    reaches the registry with [copy], where the table of the
    specification says [reference]. *)
Lemma cast_generic_not_spec_table :
  ~ (forall (R : Registry) (typeid : type_info) (c : value_category)
            (p : void_ptr) (policy : rv_policy.t) (parent : handle) (s : State),
       cast_generic typeid c p policy parent s
       = type_put typeid p (Spec.normalize c policy) (Handle.ptr parent) s).
Proof.
  intros Hall.
  specialize (Hall Sample.registry 0%N by_lvalue 1%N
                   rv_policy.automatic_reference None Sample.state).
  discriminate Hall.
Qed.
End GenericCast.

(** ** The casters of [bool] and [std::nullptr_t] *)
Section Singletons.
Import caster CPython.

(** C8: [load] of the [bool] caster returns [true] storing [b] exactly for
    the singleton of [b] and fails on everything else, whatever [convert]
    is; [load] of the [nullptr_t] caster succeeds exactly for [Py_None];
    [cast] returns the singleton and adds one to its reference count,
    leaving every other count and the objects alone. *)
Theorem bool_nullptr_casters_strict :
  (forall src convert s b,
     load boolean src convert s = Return (Some b) s
     <-> src = Some (if b then Py_True else Py_False))
  /\ (forall src convert s,
        src ≠ Some Py_True -> src ≠ Some Py_False ->
        load boolean src convert s = Return None s)
  /\ (forall src convert s,
        load nullptr src convert s = Return (Some tt) s <-> src = Some Py_None)
  /\ (forall src convert s,
        src ≠ Some Py_None -> load nullptr src convert s = Return None s)
  /\ (forall (b : bool) policy parent s,
        let o := if b then Py_True else Py_False in
        cast boolean b policy parent s = Return (Some o) (incref o s)
        /\ refcnt (incref o s) o = refcnt s o + 1)
  /\ (forall policy parent s,
        exists s',
          cast nullptr tt policy parent s = Return (Some Py_None) s'
          /\ refcnt s' Py_None = refcnt s Py_None + 1
          /\ (forall a, a ≠ Py_None -> refcnt s' a = refcnt s a)
          /\ same_but_refcnt s s').
Proof.
  split; [|split; [|split; [|split; [|split]]]].
  - intros src convert s b. simpl. unfold load_bool, Handle.ptr. split.
    + repeat case_bool_decide; subst; destruct b; cbv; try congruence.
    + intros ->. destruct b; reflexivity.
  - intros src convert s H1 H2. simpl. unfold load_bool, Handle.ptr.
    by repeat (case_bool_decide; try congruence).
  - intros src convert s. simpl. unfold load_nullptr, Handle.is_none. split.
    + destruct src; simpl; [case_bool_decide|]; unfold mret, M_ret; congruence.
    + intros ->. reflexivity.
  - intros src convert s Hs. simpl. unfold load_nullptr, Handle.is_none.
    destruct src; simpl; [case_bool_decide|]; unfold mret, M_ret; congruence.
  - intros b policy parent s o. split.
    + destruct b; reflexivity.
    + apply refcnt_incref_eq.
  - intros policy parent s. eexists. split; [reflexivity|].
    split; [|split; [|done]].
    + rewrite refcnt_decref_eq, !refcnt_incref_eq. lia.
    + intros a Ha. by rewrite refcnt_decref_ne, !refcnt_incref_ne.
Qed.

Lemma bool_nullptr_casters_strict_witness :
  load boolean (Some Py_None) true Sample.state = Return None Sample.state
  /\ load nullptr (Some Py_True) true Sample.state = Return None Sample.state.
Proof.
  destruct bool_nullptr_casters_strict as (_ & Hbool & _ & Hnull & _).
  split.
  - apply Hbool; discriminate.
  - apply Hnull; discriminate.
Defined.

(** C10: for every caster that gets its pointer overload from
    [NB_TYPE_CASTER], [cast] of a null pointer returns [Py_None] with one
    more reference, whatever the policy and the parent. *)
Theorem cast_null_pointer_is_none :
  forall T (C : type_caster T), uses_NB_TYPE_CASTER T C ->
  forall policy parent s,
    cast_ptr C None policy parent s = Return (Some Py_None) (incref Py_None s)
    /\ Handle.is_valid (Some Py_None) = true
    /\ refcnt (incref Py_None s) Py_None = refcnt s Py_None + 1.
Proof.
  intros T C HC policy parent s.
  split; [|split; [reflexivity|apply refcnt_incref_eq]].
  destruct HC; reflexivity.
Qed.

Lemma cast_null_pointer_is_none_witness :
  cast_ptr (pair boolean (arithmetic LP64 (NInt int))) None
           rv_policy.reference_internal (Some Py_True) Sample.state
  = Return (Some Py_None) (incref Py_None Sample.state)
  /\ Handle.is_valid (Some Py_None) = true
  /\ refcnt (incref Py_None Sample.state) Py_None = refcnt Sample.state Py_None + 1.
Proof.
  exact (cast_null_pointer_is_none _ _ (macro_pair _ _ _ _) _ _ _).
Defined.
End Singletons.

(** ** The monad *)
Lemma bind_return {A B} (m : M A) (k : A -> M B) s a s' :
  m s = Return a s' -> (m ≫= k) s = k a s'.
Proof. intros Hm. unfold mbind, M_bind. by rewrite Hm. Qed.

Lemma bind_modify {B} (f : State -> State) (k : unit -> M B) s :
  (modify f ≫= k) s = k tt (f s).
Proof. reflexivity. Qed.

(** ** The error bridge *)
Section ErrorBridge.
Import detail.

Lemma python_error_raise_outcome {A} s :
  @python_error_raise A s
  = match curexc s with
    | Some e => Throw (python_error e) (set_curexc None s)
    | None =>
        Abort (list_byte_of_string "Critical nanobind error: "
               ++ list_byte_of_string
                    "nanobind::detail::raise_python_error() called without an error condition!")
              s
    end.
Proof.
  unfold python_error_raise, mbind, M_bind, CPython.PyErr_Occurred, gets,
    CPython.error_pending, python_error_ctor, throw, fail, libc.abort.
  destruct (curexc s) eqn:E; [|done]. by rewrite E.
Qed.

Lemma python_error_raise_bind {A B} (k : A -> M B) s :
  (python_error_raise ≫= k) s = python_error_raise s.
Proof.
  unfold mbind at 1, M_bind at 1. rewrite !python_error_raise_outcome.
  by destruct (curexc s).
Qed.

Lemma raise_never_returns {A} out s (a : A) s' : raise out s ≠ Return a s'.
Proof.
  unfold raise. destruct (libc.vsnprintf sizeof_buf out) as [buf r]. cbv zeta.
  destruct (int_cast size_t r <? sizeof_buf).
  - unfold mbind, M_bind, std_runtime_error. by destruct (libc.c_str buf).
  - unfold mbind, M_bind, libc.malloc.
    destruct (_ <=? c_avail s); simpl; [|discriminate].
    unfold std_runtime_error. by destruct (libc.c_str _).
Qed.

Lemma raise_bind {A B} (k : A -> M B) out s :
  (raise out ≫= k) s = raise out s.
Proof.
  unfold mbind at 1, M_bind at 1. unfold raise.
  destruct (libc.vsnprintf sizeof_buf out) as [buf r]. cbv zeta.
  destruct (int_cast size_t r <? sizeof_buf).
  - unfold mbind, M_bind, std_runtime_error. by destruct (libc.c_str buf).
  - unfold mbind, M_bind, libc.malloc.
    destruct (_ <=? c_avail s); simpl; [|done].
    unfold std_runtime_error. by destruct (libc.c_str _).
Qed.

(** A wrapper that leaves through the error bridge returns nothing to its
    caller: it throws, or the process ends. *)
Lemma through_error_bridge_no_return {A} (r : result A) :
  through_error_bridge r -> forall a s, r ≠ Return a s.
Proof.
  intros [[s' ->]|(out & s' & ->)] a s.
  - rewrite python_error_raise_outcome. by destruct (curexc s').
  - apply raise_never_returns.
Qed.

(** With an error pending, as the C API promises after a failed call,
    the bridge throws [python_error] carrying that error. *)
Lemma python_error_raise_throws {A} s e :
  curexc s = Some e ->
  @python_error_raise A s = Throw (python_error e) (set_curexc None s).
Proof. intros He. by rewrite python_error_raise_outcome, He. Qed.

Lemma raises_python_error_intro {A} s' :
  raises_python_error (@python_error_raise A s') s'.
Proof. split; [done|]. intros e He. by apply python_error_raise_throws. Qed.
End ErrorBridge.

(** ** The object protocol shim *)
Section ShimErrors.
Import detail CPython.
Context `{ObjectProtocol}.

Ltac call Hc := erewrite (bind_return _ _ _ _ _ Hc); cbn beta.
Ltac bridged :=
  cbn [is_null negb Z.eqb Pos.eqb];
  repeat first
    [ rewrite python_error_raise_bind
    | rewrite raise_bind
    | rewrite bind_modify ];
  first [ apply raises_python_error_intro | reflexivity ].

Lemma ltb_of_lt x y : x < y -> (x <? y) = true.
Proof. apply Z.ltb_lt. Qed.
Lemma eqb_of_neq x y : x ≠ y -> (x =? y) = false.
Proof. apply Z.eqb_neq. Qed.

(** C5, as amended: every wrapper of the shim other than the two
    [getattr] overloads that take a default value hands the failure of the
    call it wraps (a negative length, a null result, the comparison result
    -1, a nonzero status) to the error bridge, also when the failure is
    that of building the key object of an item access: its outcome is that
    of [python_error_raise] in the state the call left (after the release
    of the key, where there is one), which throws [python_error] with the
    error that is pending there; the two string constructors throw the
    [runtime_error] of [raise] instead.  The [getattr] overloads with a
    default value clear the error and return the default with one more
    reference. *)
Theorem shim_failure_through_error_bridge :
  (forall o s res s', PyObject_Length o s = Return res s' -> res < 0 ->
     raises_python_error (obj_len o s) s')
  /\ (forall o s s', PyObject_Repr o s = Return None s' ->
        raises_python_error (obj_repr o s) s')
  /\ (forall o s s', PyObject_Str o s = Return None s' ->
        raises_python_error (str_from_obj o s) s')
  /\ (forall a b value s s', PyObject_RichCompareBool a b value s = Return (-1) s' ->
        raises_python_error (obj_compare a b value s) s')
  /\ (forall a op s s', op a s = Return None s' ->
        raises_python_error (obj_op_1 a op s) s')
  /\ (forall a b op s s', op a b s = Return None s' ->
        raises_python_error (obj_op_2 a b op s) s')
  /\ (forall obj key s s', PyObject_GetAttrString obj key s = Return None s' ->
        raises_python_error (getattr_str obj key s) s'
        /\ raises_python_error (getattr_maybe_str obj key None s) s')
  /\ (forall obj key s s', PyObject_GetAttr obj key s = Return None s' ->
        raises_python_error (getattr_obj obj key s) s'
        /\ raises_python_error (getattr_maybe_obj obj key None s) s')
  /\ (forall obj key value s rv s',
        PyObject_SetAttrString obj key value s = Return rv s' -> rv ≠ 0 ->
        raises_python_error (setattr_str obj key value s) s')
  /\ (forall obj key value s rv s',
        PyObject_SetAttr obj key value s = Return rv s' -> rv ≠ 0 ->
        raises_python_error (setattr_obj obj key value s) s')
  /\ (forall obj key_ s s', PyLong_FromSsize_t key_ s = Return None s' ->
        raises_python_error (getitem_maybe_int obj key_ None s) s'
        /\ forall value, raises_python_error (setitem_int obj key_ value s) s')
  /\ (forall obj key_ s s', PyUnicode_FromString key_ s = Return None s' ->
        raises_python_error (getitem_maybe_str obj key_ None s) s'
        /\ forall value, raises_python_error (setitem_str obj key_ value s) s')
  /\ (forall obj key_ s k s1 s2,
        PyLong_FromSsize_t key_ s = Return (Some k) s1 ->
        PyObject_GetItem obj (Some k) s1 = Return None s2 ->
        raises_python_error (getitem_maybe_int obj key_ None s) (decref k s2))
  /\ (forall obj key_ s k s1 s2,
        PyUnicode_FromString key_ s = Return (Some k) s1 ->
        PyObject_GetItem obj (Some k) s1 = Return None s2 ->
        raises_python_error (getitem_maybe_str obj key_ None s) (decref k s2))
  /\ (forall obj key s s', PyObject_GetItem obj key s = Return None s' ->
        raises_python_error (getitem_maybe_obj obj key None s) s')
  /\ (forall obj key_ value s k s1 rv s2,
        PyLong_FromSsize_t key_ s = Return (Some k) s1 ->
        PyObject_SetItem obj (Some k) value s1 = Return rv s2 -> rv ≠ 0 ->
        raises_python_error (setitem_int obj key_ value s) (decref k s2))
  /\ (forall obj key_ value s k s1 rv s2,
        PyUnicode_FromString key_ s = Return (Some k) s1 ->
        PyObject_SetItem obj (Some k) value s1 = Return rv s2 -> rv ≠ 0 ->
        raises_python_error (setitem_str obj key_ value s) (decref k s2))
  /\ (forall obj key value s rv s',
        PyObject_SetItem obj key value s = Return rv s' -> rv ≠ 0 ->
        raises_python_error (setitem_obj obj key value s) s')
  /\ (forall str s s', PyUnicode_FromString str s = Return None s' ->
        str_from_cstr str s
        = Throw (runtime_error (list_byte_of_string
                   "nanobind::detail::str_from_cstr(): conversion error!")) s')
  /\ (forall str size s s',
        PyUnicode_FromStringAndSize str (int_cast Py_ssize_t size) s = Return None s' ->
        str_from_cstr_and_size str size s
        = Throw (runtime_error (list_byte_of_string
                   "nanobind::detail::str_from_cstr_and_size(): conversion error!")) s')
  /\ (forall obj key def s s', PyObject_GetAttrString obj key s = Return None s' ->
        getattr_str_def obj key def s
        = Return def match def with
                     | Some d => incref d (set_curexc None s')
                     | None => set_curexc None s'
                     end)
  /\ (forall obj key def s s', PyObject_GetAttr obj key s = Return None s' ->
        getattr_obj_def obj key def s
        = Return def match def with
                     | Some d => incref d (set_curexc None s')
                     | None => set_curexc None s'
                     end)
  /\ (forall d s',
        curexc (incref d (set_curexc None s')) = None
        /\ refcnt (incref d (set_curexc None s')) d = refcnt s' d + 1).
Proof.
  repeat apply conj.
  - intros o s res s' Hc Hres. unfold obj_len. call Hc.
    rewrite (ltb_of_lt _ _ Hres). bridged.
  - intros o s s' Hc. unfold obj_repr. call Hc. bridged.
  - intros o s s' Hc. unfold str_from_obj. call Hc. bridged.
  - intros a b value s s' Hc. unfold obj_compare. call Hc. bridged.
  - intros a op s s' Hc. unfold obj_op_1. call Hc. bridged.
  - intros a b op s s' Hc. unfold obj_op_2. call Hc. bridged.
  - intros obj key s s' Hc. split.
    + unfold getattr_str. call Hc. bridged.
    + unfold getattr_maybe_str. cbn [is_null negb]. call Hc. bridged.
  - intros obj key s s' Hc. split.
    + unfold getattr_obj. call Hc. bridged.
    + unfold getattr_maybe_obj. cbn [is_null negb]. call Hc. bridged.
  - intros obj key value s rv s' Hc Hrv. unfold setattr_str. call Hc.
    rewrite (eqb_of_neq _ _ Hrv). bridged.
  - intros obj key value s rv s' Hc Hrv. unfold setattr_obj. call Hc.
    rewrite (eqb_of_neq _ _ Hrv). bridged.
  - intros obj key_ s s' Hc. split.
    + unfold getitem_maybe_int. cbn [is_null negb]. call Hc. bridged.
    + intros value. unfold setitem_int. call Hc. bridged.
  - intros obj key_ s s' Hc. split.
    + unfold getitem_maybe_str. cbn [is_null negb]. call Hc. bridged.
    + intros value. unfold setitem_str. call Hc. bridged.
  - intros obj key_ s k s1 s2 Hk Hc. unfold getitem_maybe_int. cbn [is_null negb].
    call Hk. cbn [is_null]. rewrite (bind_return (mret tt) _ s1 tt s1 eq_refl).
    call Hc. unfold Py_DECREF. bridged.
  - intros obj key_ s k s1 s2 Hk Hc. unfold getitem_maybe_str. cbn [is_null negb].
    call Hk. cbn [is_null]. rewrite (bind_return (mret tt) _ s1 tt s1 eq_refl).
    call Hc. unfold Py_DECREF. bridged.
  - intros obj key s s' Hc. unfold getitem_maybe_obj. cbn [is_null negb].
    call Hc. bridged.
  - intros obj key_ value s k s1 rv s2 Hk Hc Hrv. unfold setitem_int.
    call Hk. cbn [is_null]. rewrite (bind_return (mret tt) _ s1 tt s1 eq_refl).
    call Hc. unfold Py_DECREF. rewrite bind_modify, (eqb_of_neq _ _ Hrv). bridged.
  - intros obj key_ value s k s1 rv s2 Hk Hc Hrv. unfold setitem_str.
    call Hk. cbn [is_null]. rewrite (bind_return (mret tt) _ s1 tt s1 eq_refl).
    call Hc. unfold Py_DECREF. rewrite bind_modify, (eqb_of_neq _ _ Hrv). bridged.
  - intros obj key value s rv s' Hc Hrv. unfold setitem_obj. call Hc.
    rewrite (eqb_of_neq _ _ Hrv). bridged.
  - intros str s s' Hc. unfold str_from_cstr. call Hc. bridged.
  - intros str size s s' Hc. unfold str_from_cstr_and_size. call Hc. bridged.
  - intros obj key def s s' Hc. unfold getattr_str_def. call Hc.
    by destruct def.
  - intros obj key def s s' Hc. unfold getattr_obj_def. call Hc.
    by destruct def.
  - intros d s'. split; [done|].
    by rewrite refcnt_incref_eq, refcnt_set_curexc.
Qed.
End ShimErrors.

(** The claim, as stated, fails for the overloads of [getattr] that take a
    default value: in an interpreter where the lookup fails, they return
    the default to the caller. *)
Lemma getattr_default_not_through_error_bridge :
  ~ (forall (P : ObjectProtocol) obj key def s s',
       @PyObject_GetAttrString P obj key s = Return None s' ->
       through_error_bridge (@detail.getattr_str_def P obj key def s)).
Proof.
  intros Hall.
  pose proof (Hall Sample.protocol (Some Py_None) (list_byte_of_string "name")
                (Some Py_True) Sample.state _ eq_refl) as Hb.
  eapply through_error_bridge_no_return in Hb. apply Hb. reflexivity.
Qed.

(** What the overload does instead: the error is cleared and the default
    comes back with one more reference. *)
Example getattr_default_sample :
  @detail.getattr_str_def Sample.protocol (Some Py_None)
    (list_byte_of_string "name") (Some Py_True) Sample.state
  = Return (Some Py_True) (CPython.incref Py_True Sample.state).
Proof. reflexivity. Qed.

Lemma shim_failure_through_error_bridge_witness :
  @detail.getattr_str Sample.protocol (Some Py_None)
     (list_byte_of_string "name") Sample.state
  = Throw (python_error AttributeError)
          (set_curexc None (set_curexc (Some AttributeError) Sample.state)).
Proof.
  destruct (@shim_failure_through_error_bridge Sample.protocol)
    as (_ & _ & _ & _ & _ & _ & Hgetattr & _).
  exact (proj2 (proj1 (Hgetattr (Some Py_None) (list_byte_of_string "name")
                         Sample.state _ eq_refl))
               AttributeError eq_refl).
Defined.

(** ** Integer conversions *)
Section IntFacts.

Ltac int_cases T :=
  destruct T as [[] []];
  unfold in_range, in_rangeb, int_cast, int_min, int_max, bits, sizeof; cbn.

Lemma in_rangeb_spec T z : in_rangeb T z = true <-> in_range T z.
Proof. unfold in_rangeb, in_range. rewrite andb_true_iff, !Z.leb_le. tauto. Qed.

Lemma in_rangeb_false T z : in_rangeb T z = false <-> ~ in_range T z.
Proof. rewrite <- in_rangeb_spec. destruct (in_rangeb T z); split; congruence. Qed.

Lemma int_cast_in_range T z : in_range T z -> int_cast T z = z.
Proof. int_cases T; intros Hz; rewrite Z.mod_small; lia. Qed.

Lemma int_cast_range T z : in_range T (int_cast T z).
Proof.
  int_cases T;
    match goal with |- context [?a mod ?b] =>
      pose proof (Z.mod_pos_bound a b ltac:(lia)) end; lia.
Qed.

Lemma int_cast_fixpoint T z : int_cast T z = z <-> in_range T z.
Proof.
  split; [|apply int_cast_in_range].
  intros <-. apply int_cast_range.
Qed.

Lemma in_range_widen T T' z :
  is_signed T = is_signed T' -> sizeof T <= sizeof T' ->
  in_range T z -> in_range T' z.
Proof.
  destruct T as [[] []], T' as [[] []];
    unfold in_range, int_min, int_max, bits, sizeof; cbn; intros; try lia;
    discriminate.
Qed.
End IntFacts.

(** ** [raise] *)
Section Raise.
Import detail.

Lemma c_str_terminated l rest :
  libc.no_nul l = true -> libc.c_str (l ++ x00 :: rest) = Some l.
Proof.
  induction l as [|b l IH]; simpl; [done|].
  rewrite andb_true_iff, negb_true_iff. intros [-> Hl]. by rewrite IH.
Qed.

Lemma no_nul_take n l : libc.no_nul l = true -> libc.no_nul (take n l) = true.
Proof.
  revert n. induction l as [|b l IH]; intros [|n]; simpl; try done.
  rewrite !andb_true_iff. intros [-> Hl]. auto.
Qed.

Lemma state_c_avail_restored s n :
  MkState (objects s) (ob_refcnt s) (curexc s) (next_addr s) (py_avail s)
          (c_avail s - n + n) = s.
Proof. destruct s; simpl. f_equal. lia. Qed.

Lemma size_t_small z : 0 <= z <= libc.INT_MAX + 1 -> int_cast size_t z = z.
Proof.
  intros Hz. apply int_cast_in_range.
  unfold in_range, int_min, int_max, bits, sizeof, size_t, libc.INT_MAX in *.
  cbn in *. lia.
Qed.

(** C9: for a message [out] (the expansion of the format, a C string that
    fits an [int] length), [raise] throws a [runtime_error] that carries
    exactly [out]: from the 512-byte stack buffer when [out] is shorter
    than the buffer, and otherwise through a heap block of [length out + 1]
    bytes, which is given back before the throw, provided [malloc] grants
    the block. *)
Theorem raise_carries_formatted_message :
  forall (A : Type) (out : list byte) (s : State),
    libc.no_nul out = true ->
    Z.of_nat (length out) <= libc.INT_MAX ->
    (Z.of_nat (length out) < sizeof_buf ->
       @raise A out s = Throw (runtime_error out) s)
    /\ (sizeof_buf <= Z.of_nat (length out) ->
        Z.of_nat (length out) + 1 <= c_avail s ->
          libc.malloc (Z.of_nat (length out) + 1) s
          = Return true (MkState (objects s) (ob_refcnt s) (curexc s) (next_addr s)
                           (py_avail s) (c_avail s - (Z.of_nat (length out) + 1)))
          /\ @raise A out s = Throw (runtime_error out) s).
Proof.
  intros A out s Hnul Hlen.
  assert (Hsz : int_cast size_t (Z.of_nat (length out)) = Z.of_nat (length out))
    by (apply size_t_small; lia).
  assert (Hsz1 : int_cast size_t (Z.of_nat (length out) + 1)
                 = Z.of_nat (length out) + 1) by (apply size_t_small; lia).
  split.
  - intros Hshort. unfold raise, libc.vsnprintf.
    rewrite (proj2 (Z.leb_le _ _) Hlen). cbv zeta. rewrite Hsz.
    rewrite (proj2 (Z.ltb_lt _ _) Hshort).
    unfold sizeof_buf in *.
    rewrite take_ge by (change (Z.to_nat (512 - 1)) with 511%nat; lia).
    cbn [Z.eqb]. unfold mbind, M_bind, std_runtime_error.
    by rewrite c_str_terminated.
  - intros Hlong Hmem. split.
    { unfold libc.malloc. by rewrite (proj2 (Z.leb_le _ _) Hmem). }
    unfold raise, libc.vsnprintf.
    rewrite (proj2 (Z.leb_le _ _) Hlen). cbv zeta. rewrite Hsz, Hsz1.
    rewrite (proj2 (Z.ltb_ge _ _) Hlong).
    unfold mbind, M_bind, libc.malloc.
    rewrite (proj2 (Z.leb_le _ _) Hmem). cbn [negb].
    replace (Z.of_nat (length out) + 1 =? 0) with false
      by (symmetry; apply Z.eqb_neq; lia).
    rewrite take_ge by lia.
    unfold std_runtime_error. rewrite c_str_terminated by done.
    unfold mret, M_ret, libc.free, throw. cbn [c_avail objects ob_refcnt curexc next_addr py_avail].
    by rewrite state_c_avail_restored.
Qed.

(** When [malloc] does not grant the block, the process is aborted. *)
Lemma raise_out_of_memory (A : Type) (out : list byte) (s : State) :
  Z.of_nat (length out) <= libc.INT_MAX ->
  sizeof_buf <= Z.of_nat (length out) ->
  c_avail s < Z.of_nat (length out) + 1 ->
  @raise A out s
  = Abort (list_byte_of_string "nb::detail::raise(): out of memory!") s.
Proof.
  intros Hlen Hlong Hmem.
  unfold raise, libc.vsnprintf.
  rewrite (proj2 (Z.leb_le _ _) Hlen). cbv zeta.
  rewrite !size_t_small by lia.
  rewrite (proj2 (Z.ltb_ge _ _) Hlong).
  unfold mbind, M_bind, libc.malloc.
  by rewrite (proj2 (Z.leb_gt _ _) Hmem).
Qed.
End Raise.

Lemma raise_carries_formatted_message_witness :
  @detail.raise unit (list_byte_of_string "conversion error!") Sample.state
  = Throw (runtime_error (list_byte_of_string "conversion error!")) Sample.state
  /\ @detail.raise unit Sample.long_message Sample.state
     = Throw (runtime_error Sample.long_message) Sample.state.
Proof.
  split.
  - refine (proj1 (raise_carries_formatted_message unit
              (list_byte_of_string "conversion error!") Sample.state _ _) _);
      vm_compute; congruence.
  - refine (proj2 (proj2 (raise_carries_formatted_message unit
              Sample.long_message Sample.state _ _) _ _));
      vm_compute; congruence.
Defined.

(** ** The pair caster: [cast] *)
Section PairCast.
Import caster CPython.
Context {T1 T2 : Type} (C1 : type_caster T1) (C2 : type_caster T2).

Lemma PyTuple_SET_ITEM_stores a items i o s :
  objects s !! a = Some (PyTupleV items) ->
  0 <= i < Z.of_nat (length items) ->
  PyTuple_SET_ITEM (Some a) i o s
  = Return tt (set_object a (PyTupleV (<[Z.to_nat i := o]> items)) s).
Proof.
  intros Ha Hi. unfold PyTuple_SET_ITEM, mbind, M_bind, value_of. rewrite Ha.
  replace ((0 <=? i) && (i <? Z.of_nat (length items))) with true; [done|].
  symmetry. apply andb_true_iff. split; [apply Z.leb_le|apply Z.ltb_lt]; lia.
Qed.

(** C7: when the cast of the first component is invalid, [cast] of the
    pair returns an invalid handle in the state the component left; when
    the second is invalid, it returns an invalid handle after giving back
    the reference to the first; in both cases no tuple has been created.
    When both are valid (and the interpreter can allocate), the result is
    a new tuple of exactly the two component objects, which takes over the
    two references. *)
Theorem cast_pair_all_or_nothing :
  forall (value : T1 * T2) (policy : rv_policy.t) (parent : handle) (s : State),
    (forall s1,
       cast C1 (fst value) policy parent s = Return None s1 ->
       cast (pair C1 C2) value policy parent s = Return None s1)
    /\ (forall a1 s1 s2,
          cast C1 (fst value) policy parent s = Return (Some a1) s1 ->
          cast C2 (snd value) policy parent s1 = Return None s2 ->
          cast (pair C1 C2) value policy parent s = Return None (decref a1 s2)
          /\ objects (decref a1 s2) = objects s2)
    /\ (forall a1 s1 a2 s2,
          cast C1 (fst value) policy parent s = Return (Some a1) s1 ->
          cast C2 (snd value) policy parent s1 = Return (Some a2) s2 ->
          py_avail s2 ≠ 0%nat ->
          exists s3,
            cast (pair C1 C2) value policy parent s
            = Return (Some (next_addr s2)) s3
            /\ objects s3 = <[next_addr s2 := PyTupleV [Some a1; Some a2]]> (objects s2)
            /\ refcnt s3 (next_addr s2) = 1
            /\ (forall a, a ≠ next_addr s2 -> refcnt s3 a = refcnt s2 a)).
Proof.
  intros value policy parent s. split; [|split].
  - intros s1 H1. simpl. unfold cast_pair, mbind, M_bind. by rewrite H1.
  - intros a1 s1 s2 H1 H2. split; [|reflexivity].
    simpl. unfold cast_pair, mbind, M_bind. rewrite H1.
    unfold Handle.steal, mret, M_ret. cbn [Handle.is_valid is_null negb].
    by rewrite H2.
  - intros a1 s1 a2 s2 H1 H2 Hmem.
    simpl. unfold cast_pair, mbind, M_bind. rewrite H1.
    unfold Handle.steal, mret, M_ret. cbn [Handle.is_valid is_null negb].
    rewrite H2. cbn [Handle.is_valid is_null negb].
    unfold PyTuple_New, new_object, mbind, M_bind. cbn [Z.ltb Z.compare].
    destruct (py_avail s2) as [|n] eqn:Hn; [done|]. simpl.
    erewrite PyTuple_SET_ITEM_stores;
      [|simpl; apply lookup_insert_eq|simpl; lia].
    erewrite PyTuple_SET_ITEM_stores;
      [|simpl; apply lookup_insert_eq|simpl; lia].
    eexists. split; [reflexivity|].
    split; [|split].
    + simpl. by rewrite !insert_insert_eq.
    + unfold refcnt. simpl. by rewrite lookup_insert_eq.
    + intros a Ha. unfold refcnt. simpl. by rewrite lookup_insert_ne.
Qed.
End PairCast.

Lemma cast_pair_all_or_nothing_witness :
  let C := caster.pair caster.boolean (caster.arithmetic LP64 (NInt int)) in
  (cast C (true, 1000) rv_policy.move None Sample.exhausted
   = Return None
       (CPython.decref Py_True
          (set_curexc (Some MemoryError) (CPython.incref Py_True Sample.exhausted)))
   /\ objects (CPython.decref Py_True
          (set_curexc (Some MemoryError) (CPython.incref Py_True Sample.exhausted)))
      = objects (set_curexc (Some MemoryError) (CPython.incref Py_True Sample.exhausted)))
  /\ let s2 := MkState (<[4%positive := PyLongV 1000]> (objects Sample.state))
                       (<[4%positive := 1]> (<[Py_True := 6]> (ob_refcnt Sample.state)))
                       None 5%positive 7%nat 4096 in
     exists s3,
       cast C (true, 1000) rv_policy.move None Sample.state = Return (Some 5%positive) s3
       /\ objects s3
          = <[5%positive := PyTupleV [Some Py_True; Some 4%positive]]> (objects s2)
       /\ refcnt s3 5%positive = 1
       /\ (forall a, a ≠ 5%positive -> refcnt s3 a = refcnt s2 a).
Proof.
  intros C. split; [|intros s2].
  - exact (proj1 (proj2 (cast_pair_all_or_nothing caster.boolean
             (caster.arithmetic LP64 (NInt int)) (true, 1000) rv_policy.move None
             Sample.exhausted)) Py_True _ _ eq_refl eq_refl).
  - refine (proj2 (proj2 (cast_pair_all_or_nothing caster.boolean
             (caster.arithmetic LP64 (NInt int)) (true, 1000) rv_policy.move None
             Sample.state)) Py_True _ 4%positive _ eq_refl eq_refl _).
    vm_compute. congruence.
Defined.

(** ** Fetching the items of a sequence *)
Section SeqFetch.
Import detail CPython.

Lemma count_in_app a l1 l2 : count_in a (l1 ++ l2) = count_in a l1 + count_in a l2.
Proof. induction l1 as [|o l1 IH]; simpl; [done|]. rewrite IH. lia. Qed.

Lemma refcnt_incref b s a : refcnt (incref b s) a = refcnt s a + count_in a [Some b].
Proof.
  simpl. case_bool_decide as Hab.
  - injection Hab as ->. rewrite refcnt_incref_eq. lia.
  - rewrite refcnt_incref_ne by congruence. lia.
Qed.

Lemma refcnt_decref b s a : refcnt (decref b s) a = refcnt s a - count_in a [Some b].
Proof.
  simpl. case_bool_decide as Hab.
  - injection Hab as ->. rewrite refcnt_decref_eq. lia.
  - rewrite refcnt_decref_ne by congruence. lia.
Qed.

Lemma PySequence_Size_refcnt seq s n s' :
  PySequence_Size seq s = Return n s' -> forall a, refcnt s' a = refcnt s a.
Proof.
  unfold PySequence_Size, mbind, M_bind, value_of, gets.
  destruct seq as [p|]; [|by intros [= _ <-]].
  destruct (objects s !! p) as [[| | | | |i]|]; try by intros [= _ <-].
  cbn [result_rejected].
  destruct (tp_len i) as [m|]; [|by intros [= _ <-]].
  destruct (error_pending s); [by intros [= _ <-]|].
  destruct (m <? 0); by intros [= _ <-].
Qed.

(** A successful [PySequence_GetItem] adds one reference to the item it
    returns; a failed one leaves the counts alone. *)
Lemma PySequence_GetItem_refcnt seq i s r s' :
  PySequence_GetItem seq i s = Return r s' ->
  forall a, refcnt s' a = refcnt s a + count_in a [r].
Proof.
  assert (Hnull : forall a e, refcnt (set_curexc e s) a = refcnt s a + count_in a [None])
    by (intros; simpl; rewrite refcnt_set_curexc; lia).
  unfold PySequence_GetItem, mbind, M_bind, value_of, gets.
  destruct seq as [p|]; [|by intros [= <- <-]].
  destruct (objects s !! p) as [[| | | |items|inst]|]; try by intros [= <- <-].
  - destruct (_ && _); [|by intros [= <- <-]].
    destruct (items !! _) as [[b|]|]; try done.
    intros [= <- <-] a. apply refcnt_incref.
  - cbn [result_rejected].
    destruct (if 0 <=? i then _ else _) as [[b|]|]; try by intros [= <- <-].
    destruct (error_pending s); [by intros [= <- <-]|].
    intros [= <- <-] a. apply refcnt_incref.
Qed.

Lemma release_fetched_spec out i s :
  fetched out i ->
  exists s', release_fetched out i s = Return tt s'
             /\ forall a, refcnt s' a = refcnt s a - count_in a (take i out).
Proof.
  induction i as [|j IH]; intros Hf.
  - exists s. split; [done|]. intros a. rewrite take_0. simpl. lia.
  - destruct IH as (s1 & Hrel & Hcnt); [intros k Hk; apply Hf; lia|].
    destruct (Hf j ltac:(lia)) as [b Hb].
    exists (decref b s1). split.
    + cbn [release_fetched]. unfold mbind, M_bind. rewrite Hrel.
      unfold array_get. by rewrite Hb.
    + intros a. rewrite refcnt_decref, Hcnt.
      rewrite (take_S_r _ _ _ Hb), count_in_app. lia.
Qed.

Lemma fetched_insert out i o :
  fetched out i -> fetched (<[i := o]> out) i.
Proof.
  intros Hf j Hj. rewrite list_lookup_insert_ne by lia. by apply Hf.
Qed.

Lemma fetch_from_spec seq n : forall i out s ok out' s',
  fetched out i ->
  fetch_from seq n i out s = Return (ok, out') s' ->
  length out' = length out
  /\ if ok
     then fetched out' (i + n)
          /\ forall a, refcnt s' a
                       = refcnt s a + count_in a (take (i + n) out')
                         - count_in a (take i out)
     else forall a, refcnt s' a = refcnt s a - count_in a (take i out).
Proof.
  induction n as [|n IH]; intros i out s ok out' s' Hf.
  - intros [= <- <- <-]. rewrite Nat.add_0_r. split; [done|].
    split; [done|]. intros a. lia.
  - simpl. unfold mbind at 1, M_bind at 1.
    destruct (PySequence_GetItem seq _ s) as [item s1| | |] eqn:Hitem; try done.
    pose proof (PySequence_GetItem_refcnt _ _ _ _ _ Hitem) as Hs1.
    unfold mbind at 1, M_bind at 1, array_set.
    case_bool_decide as Hi; [|done]. cbn [mret M_ret].
    assert (Htake : take i (<[i := item]> out) = take i out)
      by (apply take_insert_ge; lia).
    destruct item as [b|]; cbn [is_null].
    + intros Hrec. apply IH in Hrec as [Hlen Hrec].
      2:{ intros j Hj. destruct (decide (j = i)) as [->|].
          - exists b. by apply list_lookup_insert_eq.
          - rewrite list_lookup_insert_ne by done. apply Hf. lia. }
      rewrite length_insert in Hlen. split; [done|].
      assert (Hcnt : forall a, count_in a (take (S i) (<[i := Some b]> out))
                               = count_in a (take i out) + count_in a [Some b]).
      { intros a. erewrite take_S_r by (by apply list_lookup_insert_eq).
        by rewrite count_in_app, Htake. }
      destruct ok.
      * destruct Hrec as [Hf' Hrec]. rewrite <- Nat.add_succ_comm.
        split; [done|]. intros a. rewrite Hrec, Hs1, Hcnt. lia.
      * intros a. rewrite Hrec, Hs1, Hcnt. lia.
    + destruct (release_fetched_spec (<[i := None]> out) i s1) as (s2 & Hrel & Hs2);
        [by apply fetched_insert|].
      unfold mbind, M_bind. rewrite Hrel. intros [= <- <- <-].
      rewrite length_insert. split; [done|].
      intros a. rewrite Hs2, Hs1, Htake. simpl. lia.
Qed.

(** [seq_size_fetch] returns [false] with every count as it found it. *)
Lemma seq_size_fetch_failure_refcnt seq size out s out' s' :
  seq_size_fetch seq size out s = Return (false, out') s' ->
  forall a, refcnt s' a = refcnt s a.
Proof.
  unfold seq_size_fetch. unfold mbind at 1, M_bind at 1.
  destruct (PySequence_Size seq s) as [rv s1| | |] eqn:Hsize; try done.
  pose proof (PySequence_Size_refcnt _ _ _ _ Hsize) as Hs1.
  set (s2 := if rv =? -1 then set_curexc None s1 else s1).
  assert (Hs2 : forall a, refcnt s2 a = refcnt s a)
    by (intros a; subst s2; destruct (rv =? -1); apply Hs1).
  assert (Hclear : forall B (k : unit -> M B),
            ((if rv =? -1 then PyErr_Clear else mret tt) ≫= k) s1 = k tt s2)
    by (intros; subst s2; by destruct (rv =? -1)).
  rewrite Hclear. destruct (negb _).
  - intros [= <- <-]. apply Hs2.
  - intros Hfetch a.
    apply fetch_from_spec in Hfetch as [_ Hfetch]; [|intros j Hj; lia].
    rewrite Hfetch, Hs2. simpl. lia.
Qed.

(** When it returns [true] for a pair, the array holds two objects, each
    with one more reference. *)
Lemma seq_size_fetch_pair seq s o s1 :
  seq_size_fetch seq 2 [None; None] s = Return (true, o) s1 ->
  exists a0 a1, o = [Some a0; Some a1]
                /\ forall a, refcnt s1 a = refcnt s a + count_in a o.
Proof.
  unfold seq_size_fetch. unfold mbind at 1, M_bind at 1.
  destruct (PySequence_Size seq s) as [rv s0| | |] eqn:Hsize; try done.
  pose proof (PySequence_Size_refcnt _ _ _ _ Hsize) as Hs0.
  set (s2 := if rv =? -1 then set_curexc None s0 else s0).
  assert (Hs2 : forall a, refcnt s2 a = refcnt s a)
    by (intros a; subst s2; destruct (rv =? -1); apply Hs0).
  assert (Hclear : forall B (k : unit -> M B),
            ((if rv =? -1 then PyErr_Clear else mret tt) ≫= k) s0 = k tt s2)
    by (intros; subst s2; by destruct (rv =? -1)).
  rewrite Hclear. destruct (negb _); [done|].
  intros Hfetch.
  apply fetch_from_spec in Hfetch as [Hlen [Hf Hcnt]]; [|intros j Hj; lia].
  destruct o as [|o0 [|o1 [|]]]; try done.
  destruct (Hf 0%nat ltac:(simpl; lia)) as [a0 [= ->]].
  destruct (Hf 1%nat ltac:(simpl; lia)) as [a1 [= ->]].
  exists a0, a1. split; [done|]. intros a.
  rewrite Hcnt, Hs2. simpl. lia.
Qed.
End SeqFetch.

(** ** The pair caster: [load] *)
Section PairLoad.
Import caster detail CPython.


Lemma load_pair_fail_releases {A} a0 a1 s :
  @load_pair_fail A [Some a0; Some a1] s = Return None (decref a1 (decref a0 s)).
Proof. reflexivity. Qed.

(** With balanced component casters, a failed [load] of a pair leaves
    every reference count as it found it. *)
Lemma load_pair_failure_neutral {T1 T2} (C1 : type_caster T1) (C2 : type_caster T2) :
  refcnt_balanced C1 -> refcnt_balanced C2 ->
  forall src convert s s',
    load (pair C1 C2) src convert s = Return None s' ->
    forall a, refcnt s' a = refcnt s a.
Proof.
  intros (Hfail1 & Hok1) (Hfail2 & _) src convert s s'.
  cbn [load pair]. unfold load_pair. unfold mbind at 1, M_bind at 1.
  destruct (seq_size_fetch _ 2 _ s) as [[ok o] s1| | |] eqn:Hfetch; try done.
  destruct ok; cbn [negb].
  2:{ intros [= <-]. eapply seq_size_fetch_failure_refcnt, Hfetch. }
  destruct (seq_size_fetch_pair _ _ _ _ Hfetch) as (a0 & a1 & -> & Hs1).
  unfold mbind, M_bind. cbn [array_get lookup list_lookup mret M_ret].
  destruct (load C1 (Some a0) convert s1) as [[v1|] s2| | |] eqn:H1; try done.
  - destruct (load C2 (Some a1) convert s2) as [[v2|] s3| | |] eqn:H2; try done.
    rewrite load_pair_fail_releases.
    destruct (Hok1 _ _ _ _ _ H1) as (d & Hs2 & Hd).
    destruct (Hd (decref a1 (decref a0 s3))) as (s4 & -> & Hs4).
    intros [= <-] a.
    rewrite Hs4, !refcnt_decref, (Hfail2 _ _ _ _ H2), Hs2, Hs1. simpl. lia.
  - rewrite load_pair_fail_releases.
    intros [= <-] a. rewrite !refcnt_decref, (Hfail1 _ _ _ _ H1), Hs1. simpl. lia.
Qed.

Lemma boolean_balanced : refcnt_balanced boolean.
Proof.
  split.
  - intros src convert s s'. cbn [load boolean]. unfold load_bool.
    repeat case_bool_decide; by intros [= <-].
  - intros src convert s v s'. cbn [load boolean destroy]. unfold load_bool.
    intros Hl. exists (fun _ => 0). split.
    + assert (s' = s) as ->
        by (revert Hl; unfold mret, M_ret; repeat case_bool_decide; congruence).
      intros; lia.
    + intros t. exists t. split; [done|]. intros; lia.
Qed.

Lemma nullptr_balanced : refcnt_balanced nullptr.
Proof.
  split.
  - intros src convert s s'. cbn [load nullptr]. unfold load_nullptr.
    destruct (_ && _); by intros [= <-].
  - intros src convert s v s'. cbn [load nullptr destroy]. unfold load_nullptr.
    intros Hl. exists (fun _ => 0). split.
    + assert (s' = s) as ->
        by (revert Hl; unfold mret, M_ret; destruct (_ && _); congruence).
      intros; lia.
    + intros t. exists t. split; [done|]. intros; lia.
Qed.
End PairLoad.


(** ** Conversions between [float] and [double] *)
Section FloatFacts.

Lemma binary_round_aux_canonical p em s m e :
  bounded p em m e = true ->
  binary_round_aux p em s (Zpos m) e loc_Exact = S754_finite s m e.
Proof.
  unfold bounded, canonical_mantissa. rewrite andb_true_iff, Z.eqb_eq, Z.leb_le.
  intros [Hc He].
  unfold binary_round_aux, shr_fexp, shr_record_of_loc. cbn [Zdigits2].
  rewrite Hc, Z.sub_diag. cbn [shr shr_m loc_of_shr_record round_nearest_even Zdigits2].
  rewrite Hc, Z.sub_diag. cbn [shr shr_m].
  by rewrite (proj2 (Z.leb_le _ _) He).
Qed.

Lemma binary_round_canonical p em s m e :
  bounded p em m e = true ->
  binary_round p em s m e = S754_finite s m e.
Proof.
  intros Hb. generalize Hb.
  unfold bounded at 1, canonical_mantissa. rewrite andb_true_iff, Z.eqb_eq.
  intros [Hc _].
  unfold binary_round, shl_align. rewrite Hc, Z.sub_diag.
  by apply binary_round_aux_canonical.
Qed.

Lemma iter_pos_iter {A} (f : A -> A) p : forall x, SpecFloat.iter_pos f p x = Pos.iter f x p.
Proof.
  induction p as [p IH|p IH|]; intros x; simpl; [|by rewrite !IH|done].
  by rewrite !IH, <- !Pos.iter_swap.
Qed.

Lemma digits2_pos_shift m k :
  Zpos (digits2_pos (Pos.iter xO m k)) = Zpos (digits2_pos m) + Zpos k.
Proof.
  induction k as [|k IH] using Pos.peano_ind.
  - simpl. lia.
  - rewrite Pos.iter_succ. simpl. lia.
Qed.

Lemma shr_shifted m k :
  SpecFloat.iter_pos shr_1 k (Build_shr_record (Zpos (Pos.iter xO m k)) false false)
  = Build_shr_record (Zpos m) false false.
Proof.
  rewrite iter_pos_iter.
  induction k as [|k IH] using Pos.peano_ind; [done|].
  rewrite !Pos.iter_succ, <- Pos.iter_swap. exact IH.
Qed.

Lemma bounded32_inv m e :
  bounded 24 128 m e = true ->
  Zpos (digits2_pos m) <= 24 /\ -149 <= e <= 104
  /\ Z.max (Zpos (digits2_pos m) + e - 24) (-149) = e.
Proof.
  unfold bounded, canonical_mantissa, fexp, emin.
  rewrite andb_true_iff, Z.eqb_eq, Z.leb_le. lia.
Qed.

(** A finite [float] becomes the [double] with the mantissa shifted up to
    53 digits. *)
Lemma widen_finite s m e :
  bounded 24 128 m e = true ->
  exists k, Zpos k = 53 - Zpos (digits2_pos m)
    /\ bounded 53 1024 (Pos.iter xO m k) (e - Zpos k) = true
    /\ binary_round 53 1024 s m e = S754_finite s (Pos.iter xO m k) (e - Zpos k).
Proof.
  intros Hb. destruct (bounded32_inv _ _ Hb) as (Hd & He & Hc).
  set (d := Zpos (digits2_pos m)) in *.
  exists (Z.to_pos (53 - d)). assert (Hk : Zpos (Z.to_pos (53 - d)) = 53 - d) by lia.
  split; [done|].
  set (k := Z.to_pos (53 - d)) in *.
  assert (Hf : fexp 53 1024 (d + e) = e - Zpos k) by (unfold fexp, emin; lia).
  assert (Hb64 : bounded 53 1024 (Pos.iter xO m k) (e - Zpos k) = true).
  { unfold bounded, canonical_mantissa. rewrite digits2_pos_shift. fold d.
    rewrite andb_true_iff, Z.eqb_eq, Z.leb_le. unfold fexp, emin. lia. }
  split; [done|].
  unfold binary_round, shl_align. fold d. rewrite Hf.
  replace (e - Zpos k - e) with (Zneg k) by lia.
  by apply binary_round_aux_canonical.
Qed.

(** Rounding that [double] to [float] shifts the mantissa back, exactly. *)
Lemma narrow_widened s m e k :
  bounded 24 128 m e = true ->
  Zpos k = 53 - Zpos (digits2_pos m) ->
  binary_round 24 128 s (Pos.iter xO m k) (e - Zpos k) = S754_finite s m e.
Proof.
  intros Hb Hk. destruct (bounded32_inv _ _ Hb) as (Hd & He & Hc).
  set (d := Zpos (digits2_pos m)) in *.
  assert (Hf : fexp 24 128 (d + e) = e) by (unfold fexp, emin; lia).
  unfold binary_round, shl_align. rewrite digits2_pos_shift. fold d.
  replace (d + Zpos k + (e - Zpos k)) with (d + e) by lia. rewrite Hf.
  replace (e - (e - Zpos k)) with (Zpos k) by lia.
  unfold binary_round_aux, shr_fexp, shr_record_of_loc. cbn [Zdigits2].
  rewrite digits2_pos_shift. fold d.
  replace (d + Zpos k + (e - Zpos k)) with (d + e) by lia. rewrite Hf.
  replace (e - (e - Zpos k)) with (Zpos k) by lia.
  cbn [shr]. rewrite shr_shifted.
  cbn [shr_m loc_of_shr_record round_nearest_even Zdigits2]. fold d.
  replace (e - Zpos k + Zpos k) with e by lia.
  rewrite Hf, Z.sub_diag. cbn [shr shr_m].
  by rewrite (proj2 (Z.leb_le e (128 - 24))) by lia.
Qed.

(** A conversion to the type a value already has changes nothing. *)
Lemma float_cast_same F x : is_float F x = true -> float_cast F x = x.
Proof.
  destruct x as [| | |s m e]; try done.
  unfold is_float, float_cast. simpl. apply binary_round_canonical.
Qed.

(** [float] to [double] is exact: the result is a [double], and
    converting it back gives the [float] again. *)
Lemma float_cast_widen x :
  is_float Float32 x = true ->
  is_float Float64 (float_cast Float64 x) = true
  /\ float_cast Float32 (float_cast Float64 x) = x.
Proof.
  destruct x as [| | |s m e]; try done.
  unfold is_float, float_cast. simpl. intros Hb.
  destruct (widen_finite s m e Hb) as (k & Hk & Hb64 & ->).
  split; [done|]. by apply narrow_widened.
Qed.

Lemma float_cast_double F x :
  is_float F x = true -> is_float Float64 (float_cast Float64 x) = true.
Proof.
  destruct F; intros Hx.
  - by apply float_cast_widen.
  - rewrite float_cast_same; assumption.
Qed.

Lemma float_cast_roundtrip F x :
  is_float F x = true -> float_cast F (float_cast Float64 x) = x.
Proof.
  destruct F; intros Hx.
  - by apply float_cast_widen.
  - rewrite (float_cast_same Float64 x Hx). by apply float_cast_same.
Qed.
End FloatFacts.

(** ** The numeric caster *)
Section Arithmetic.
Import caster CPython.

Lemma value_of_lookup a v s :
  objects s !! a = Some v -> value_of (Some a) s = Return v s.
Proof. intros Ha. unfold value_of. by rewrite Ha. Qed.

Lemma T1_signed dm U : is_signed (T1 dm (NInt U)) = is_signed U.
Proof. by destruct dm, U as [[] []]. Qed.

Lemma T1_wide dm U : sizeof U <= sizeof (T1 dm (NInt U)).
Proof. by destruct dm, U as [[] []]. Qed.

Lemma in_range_T1 dm U z : in_range U z -> in_range (T1 dm (NInt U)) z.
Proof.
  apply in_range_widen; [by rewrite T1_signed|apply T1_wide].
Qed.

Lemma index_value_long v n : long_value v = Some n -> index_value v = Some n.
Proof. by destruct v. Qed.

(** The widening conversion of an [int] object of value [n]: [n] itself
    when [Tp] can hold it, and otherwise [Tp(-1)] with [OverflowError]
    set. *)
Lemma long_as_Tp_value dm U a v n s :
  objects s !! a = Some v -> long_value v = Some n ->
  long_as_Tp dm U (Some a) s
  = if in_rangeb (T1 dm (NInt U)) n then Return n s
    else Return (int_cast (T1 dm (NInt U)) (-1)) (set_curexc (Some OverflowError) s).
Proof.
  intros Ha Hn. pose proof (index_value_long _ _ Hn) as Hi.
  assert (Hrej : result_rejected v s = false) by (by destruct v).
  destruct dm, U as [[] []];
    unfold long_as_Tp, PyLong_AsLong, PyLong_AsLongLong, PyLong_AsUnsignedLong,
      PyLong_AsUnsignedLongLong, as_signed, as_unsigned, Handle.ptr;
    cbv [T1 T0 num_is_signed num_sizeof is_signed make_unsigned negb long
         unsigned_long long_long unsigned_long_long long_size sizeof size bytes
         Z.leb Z.compare Pos.compare Pos.compare_cont];
    unfold mbind, M_bind, gets; rewrite (value_of_lookup _ _ _ Ha);
    rewrite ?Hrej, ?Hi, ?Hn;
    match goal with |- context [in_rangeb ?T n] =>
      destruct (in_rangeb T n) eqn:Hr end;
    try reflexivity;
    apply in_rangeb_spec in Hr;
    unfold mret, M_ret; by rewrite int_cast_in_range.
Qed.

Lemma long_as_Tp_range dm U src s value_p s1 :
  long_as_Tp dm U src s = Return value_p s1 ->
  in_range (T1 dm (NInt U)) value_p.
Proof.
  unfold long_as_Tp, mbind, M_bind.
  repeat match goal with |- context [if ?c then _ else _] => destruct c end;
    match goal with |- context [match ?m with _ => _ end] => destruct m end;
    try done; intros [= <- _]; apply int_cast_range.
Qed.

(** A value of [Tp] survives the narrowing to [T] and back exactly when
    it is a value of [T]. *)
Lemma survives_narrowing dm U value_p :
  in_range (T1 dm (NInt U)) value_p ->
  value_p = int_cast (T1 dm (NInt U)) (int_cast U value_p) <-> in_range U value_p.
Proof.
  intros Hp. split.
  - intros Heq. rewrite Heq.
    rewrite (int_cast_in_range (T1 dm (NInt U)))
      by apply in_range_T1, int_cast_range.
    apply int_cast_range.
  - intros Hu. rewrite (int_cast_in_range U) by done.
    by rewrite int_cast_in_range.
Qed.

(** [load] on an [int] object, after the widening conversion. *)
Lemma load_int_after_widening dm U a n convert s value_p s1 :
  objects s !! a = Some (PyLongV n) ->
  long_as_Tp dm U (Some a) s = Return value_p s1 ->
  load (arithmetic dm (NInt U)) (Some a) convert s
  = if negb (sizeof (T1 dm (NInt U)) =? sizeof U)
       && negb (value_p =? int_cast (T1 dm (NInt U)) (int_cast U value_p))
    then Return None s1
    else if (value_p =? int_cast (T1 dm (NInt U)) (-1)) && error_pending s1
         then Return None (set_curexc None s1)
         else Return (Some (int_cast U value_p)) s1.
Proof.
  intros Ha Hw. cbn [load arithmetic]. unfold load_arithmetic.
  cbn [Handle.is_valid is_null negb]. unfold load_value_p, PyLong_Check, Handle.ptr.
  unfold mbind, M_bind. rewrite (value_of_lookup _ _ _ Ha).
  cbn [mret M_ret negb andb]. rewrite andb_false_r. rewrite Hw.
  destruct (_ && _); [done|]. cbn [mret M_ret].
  unfold PyErr_Occurred, gets. cbn [num_eqb Tp is_floating_point num_minus_one narrow].
  by destruct (_ && _).
Qed.
End Arithmetic.

Section Narrowing.
Import caster CPython.

(** C3: in the integer branch, when [Tp] is wider than [T], a widened
    value that differs from its narrowing to [T] and re-widening makes
    [load] return [false]; a value that survives passes the check, and
    [load] goes on to the test for a pending error and stores the narrowed
    value.  Surviving means being a value of [T]; a successful [load]
    stores the value of the [int] object itself, and [load] returns
    [false] for every [int] object whose value [T] cannot hold: nothing is
    truncated. *)
Theorem narrowing_rejects_overflow :
  forall dm U a n convert s value_p s1,
    sizeof (T1 dm (NInt U)) ≠ sizeof U ->
    objects s !! a = Some (PyLongV n) ->
    long_as_Tp dm U (Some a) s = Return value_p s1 ->
    (value_p ≠ int_cast (T1 dm (NInt U)) (int_cast U value_p) ->
       load (arithmetic dm (NInt U)) (Some a) convert s = Return None s1)
    /\ (value_p = int_cast (T1 dm (NInt U)) (int_cast U value_p) ->
          load (arithmetic dm (NInt U)) (Some a) convert s
          = if (value_p =? int_cast (T1 dm (NInt U)) (-1)) && error_pending s1
            then Return None (set_curexc None s1)
            else Return (Some (int_cast U value_p)) s1)
    /\ (value_p = int_cast (T1 dm (NInt U)) (int_cast U value_p)
        <-> in_range U value_p)
    /\ (forall v s',
          load (arithmetic dm (NInt U)) (Some a) convert s = Return (Some v) s' ->
          v = n /\ in_range U n)
    /\ (~ in_range U n ->
        exists s', load (arithmetic dm (NInt U)) (Some a) convert s = Return None s').
Proof.
  intros dm U a n convert s value_p s1 Hsz Ha Hw.
  pose proof (load_int_after_widening dm U a n convert s value_p s1 Ha Hw) as Hload.
  pose proof (survives_narrowing dm U value_p (long_as_Tp_range _ _ _ _ _ _ Hw))
    as Hsurv.
  apply Z.eqb_neq in Hsz. rewrite Hsz in Hload. cbn [negb andb] in Hload.
  split; [|split; [|split; [done|split]]].
  - intros Hne. apply Z.eqb_neq in Hne. by rewrite Hload, Hne.
  - intros Heq. apply Z.eqb_eq in Heq. by rewrite Hload, Heq.
  - intros v s'. rewrite Hload.
    rewrite (long_as_Tp_value dm U a (PyLongV n) n s Ha eq_refl) in Hw.
    destruct (in_rangeb (T1 dm (NInt U)) n) eqn:Hr.
    + injection Hw as <- <-.
      destruct (n =? int_cast _ (int_cast U n)) eqn:Hn; cbn [negb]; [|done].
      apply Z.eqb_eq, Hsurv in Hn.
      destruct (_ && _); [done|]. intros [= <- _].
      by rewrite int_cast_in_range.
    + injection Hw as <- <-.
      destruct (negb _); [done|].
      by rewrite Z.eqb_refl.
  - intros Hn. rewrite Hload.
    rewrite (long_as_Tp_value dm U a (PyLongV n) n s Ha eq_refl) in Hw.
    destruct (in_rangeb (T1 dm (NInt U)) n) eqn:Hr.
    + injection Hw as <- <-.
      assert (Hne : n ≠ int_cast (T1 dm (NInt U)) (int_cast U n))
        by (intros Heq; by apply Hn, Hsurv).
      apply Z.eqb_neq in Hne. rewrite Hne. by exists s.
    + injection Hw as <- <-.
      destruct (negb _); [by eexists|].
      rewrite Z.eqb_refl. by eexists.
Qed.

Lemma narrowing_rejects_overflow_witness :
  load (arithmetic LP64 (NInt int)) (Some 4%positive) false Sample.with_numbers
  = Return None Sample.with_numbers
  /\ load (arithmetic LP64 (NInt int)) (Some 6%positive) false Sample.with_numbers
     = Return (Some 7) Sample.with_numbers.
Proof.
  split.
  - refine (proj1 (narrowing_rejects_overflow LP64 int 4%positive (2 ^ 40) false
              Sample.with_numbers (2 ^ 40) Sample.with_numbers _ eq_refl eq_refl) _);
      vm_compute; congruence.
  - refine (proj1 (proj2 (narrowing_rejects_overflow LP64 int 6%positive 7 false
              Sample.with_numbers 7 Sample.with_numbers _ eq_refl eq_refl)) _);
      vm_compute; congruence.
Defined.
End Narrowing.

(** ** Errors raised by the numeric conversion *)
Section ConversionErrors.
Import caster CPython.

Lemma as_signed_outcome T o s r s' :
  as_signed T o s = Return r s' -> clean_or (-1) s r s'.
Proof.
  unfold as_signed, mbind, M_bind, value_of, gets.
  destruct o as [a|]; [|done]. destruct (objects s !! a) as [v|]; [|done].
  destruct (index_value v) as [n|];
    [destruct (result_rejected v s); [|destruct (in_rangeb T n)]|];
    intros [= <- <-]; (by left) || (right; eauto).
Qed.

Lemma as_unsigned_outcome T o s r s' :
  as_unsigned T o s = Return r s' -> clean_or (int_cast T (-1)) s r s'.
Proof.
  unfold as_unsigned, mbind, M_bind, value_of.
  destruct o as [a|]; [|done]. destruct (objects s !! a) as [v|]; [|done].
  destruct (long_value v) as [n|]; [destruct (in_rangeb T n)|];
    intros [= <- <-]; (by left) || (right; eauto).
Qed.

Lemma long_as_double_outcome n s r s' :
  long_as_double n s = Return r s' -> clean_or minus_one_double s r s'.
Proof.
  unfold long_as_double.
  destruct (double_of_Z n); intros [= <- <-]; (by left) || (right; eauto).
Qed.

Lemma PyFloat_AsDouble_outcome o s r s' :
  PyFloat_AsDouble o s = Return r s' -> clean_or minus_one_double s r s'.
Proof.
  unfold PyFloat_AsDouble, mbind, M_bind, value_of, gets.
  destruct o as [a|]; [|done]. destruct (objects s !! a) as [v|]; [|done].
  destruct v as [| | | | |i]; cbn [long_value result_rejected];
    try (by apply long_as_double_outcome);
    try (intros [= <- <-]; (by left) || (right; eauto)).
  destruct (tp_float i), (tp_index i), (error_pending s);
    try (by apply long_as_double_outcome);
    intros [= <- <-]; (by left) || (right; eauto).
Qed.

Lemma long_as_Tp_outcome dm U src s value_p s1 :
  long_as_Tp dm U src s = Return value_p s1 ->
  clean_or (int_cast (T1 dm (NInt U)) (-1)) s value_p s1.
Proof.
  destruct dm, U as [[] []];
    unfold long_as_Tp, PyLong_AsLong, PyLong_AsLongLong, PyLong_AsUnsignedLong,
      PyLong_AsUnsignedLongLong, Handle.ptr;
    cbv [T1 T0 num_is_signed num_sizeof is_signed make_unsigned negb long
         unsigned_long long_long unsigned_long_long long_size sizeof size bytes
         Z.leb Z.compare Pos.compare Pos.compare_cont];
    unfold mbind, M_bind;
    match goal with
    | |- context [as_signed ?T src s] =>
        destruct (as_signed T src s) as [r s'| | |] eqn:Hc; try done;
        apply as_signed_outcome in Hc
    | |- context [as_unsigned ?T src s] =>
        destruct (as_unsigned T src s) as [r s'| | |] eqn:Hc; try done;
        apply as_unsigned_outcome in Hc
    end;
    intros [= <- <-]; (destruct Hc as [->|[-> He]]; [by left|by right]).
Qed.

(** The numeric caster, except at the unsigned types narrower than [Tp]:
    when no error was pending before [load], none is pending after it,
    whatever the object and whatever the conversion did. *)
Lemma load_clears_conversion_error dm T src convert s r s' :
  narrow_unsigned dm T = false ->
  curexc s = None ->
  load (arithmetic dm T) src convert s = Return r s' ->
  curexc s' = None.
Proof.
  intros Hnu Hs. cbn [load arithmetic]. unfold load_arithmetic.
  destruct src as [a|]; cbn [Handle.is_valid is_null negb]; [|by intros [= _ <-]].
  unfold mbind at 1, M_bind at 1.
  destruct (load_value_p dm T (Some a) convert s) as [[value_p|] s1| | |] eqn:Hv;
    try done.
  2:{ intros [= _ <-]. revert Hv. destruct T as [U|F]; unfold load_value_p.
      - unfold mbind at 1, M_bind at 1, PyLong_Check.
        unfold mbind at 1, M_bind at 1, value_of, Handle.ptr.
        destruct (objects s !! a) as [v|]; [|done]. cbn [mret M_ret].
        destruct (_ && _); [by intros [= <-]|].
        unfold mbind, M_bind.
        destruct (long_as_Tp dm U (Some a) s) as [w s2| | |] eqn:Hw; try done.
        destruct (long_as_Tp_outcome _ _ _ _ _ _ Hw) as [->|[-> [e ->]]].
        + destruct (_ && _); by intros [= <-].
        + (* the error value survives the narrowing unless [T] is a narrow
             unsigned type *)
          assert (Hkeep : negb (sizeof (T1 dm (NInt U)) =? sizeof U)
                    && negb (int_cast (T1 dm (NInt U)) (-1)
                             =? int_cast (T1 dm (NInt U))
                                  (int_cast U (int_cast (T1 dm (NInt U)) (-1))))
                  = false)
            by (revert Hnu; clear; by destruct dm, U as [[] []]).
          by rewrite Hkeep.
      - unfold mbind at 1, M_bind at 1, PyFloat_Check.
        unfold mbind at 1, M_bind at 1, value_of, Handle.ptr.
        destruct (objects s !! a) as [v|]; [|done]. cbn [mret M_ret].
        destruct (_ && _); [by intros [= <-]|].
        unfold mbind, M_bind. by destruct (PyFloat_AsDouble _ s). }
  unfold PyErr_Occurred, gets, mbind, M_bind.
  destruct (_ && error_pending s1) eqn:Hpend; [by intros [= _ <-]|].
  intros [= _ <-]. revert Hv Hpend. destruct T as [U|F]; unfold load_value_p.
  - unfold mbind at 1, M_bind at 1, PyLong_Check.
    unfold mbind at 1, M_bind at 1, value_of, Handle.ptr.
    destruct (objects s !! a) as [v|]; [|done]. cbn [mret M_ret].
    destruct (_ && _); [done|].
    unfold mbind, M_bind.
    destruct (long_as_Tp dm U (Some a) s) as [w s2| | |] eqn:Hw; try done.
    destruct (_ && _); [done|]. intros [= <- <-].
    destruct (long_as_Tp_outcome _ _ _ _ _ _ Hw) as [->|[-> [e ->]]]; [done|].
    cbn [num_eqb Tp is_floating_point num_minus_one].
    by rewrite Z.eqb_refl.
  - unfold mbind at 1, M_bind at 1, PyFloat_Check.
    unfold mbind at 1, M_bind at 1, value_of, Handle.ptr.
    destruct (objects s !! a) as [v|]; [|done]. cbn [mret M_ret].
    destruct (_ && _); [done|].
    unfold mbind, M_bind.
    destruct (PyFloat_AsDouble (Some a) s) as [d s2| | |] eqn:Hd; try done.
    intros [= <- <-].
    destruct (PyFloat_AsDouble_outcome _ _ _ _ Hd) as [->|[-> [e ->]]]; [done|].
    by vm_compute.
Qed.

(** C6 fails at [uint32_t] on an LP64 platform (and at every unsigned
    type narrower than [Tp]): for the [int] object [-1],
    [PyLong_AsUnsignedLong] sets [OverflowError] and returns
    [(unsigned long) -1], which does not survive the narrowing, and [load]
    returns [false] at the narrowing check, before [PyErr_Clear]: the
    error stays pending. *)
Lemma load_uint32_leaves_error_pending :
  curexc Sample.with_numbers = None
  /\ load (arithmetic LP64 (NInt Sample.uint32_t)) (Some 5%positive) true
          Sample.with_numbers
     = Return None (set_curexc (Some OverflowError) Sample.with_numbers)
  /\ curexc (set_curexc (Some OverflowError) Sample.with_numbers)
     = Some OverflowError.
Proof. repeat split. Qed.

(** At [int64_t], where the same conversion error reaches the test for a
    pending error, it is cleared. *)
Example load_int64_clears_error :
  load (arithmetic LP64 (NInt Sample.int64_t)) (Some 4%positive) true
       (set_object 4%positive (PyLongV (2 ^ 70)) Sample.with_numbers)
  = Return None (set_object 4%positive (PyLongV (2 ^ 70)) Sample.with_numbers).
Proof. reflexivity. Qed.
End ConversionErrors.

(** ** Round trip through the numeric caster *)
Section RoundTrip.
Import caster CPython.

(** [cast] of an integer asks the interpreter for an [int] object of the
    same value. *)
Lemma cast_int_long_from dm U v policy parent s :
  in_range U v ->
  cast (arithmetic dm (NInt U)) v policy parent s = long_from v s.
Proof.
  intros Hv. cbn [cast arithmetic cast_arithmetic].
  destruct dm, U as [[] []];
    cbv [is_signed negb andb sizeof size bytes long long_size Z.leb Z.compare
         Pos.compare Pos.compare_cont];
    unfold PyLong_FromLong, PyLong_FromLongLong, PyLong_FromUnsignedLong,
      PyLong_FromUnsignedLongLong;
    rewrite int_cast_in_range; try done;
    (eapply in_range_widen; [| |exact Hv]; [done|by vm_compute]).
Qed.

Lemma long_from_small v s :
  is_small_int v = true ->
  long_from v s = Return (Some (small_int v)) (incref (small_int v) s).
Proof. intros Hv. unfold long_from. by rewrite Hv. Qed.

Lemma long_from_large v s :
  is_small_int v = false -> long_from v s = new_object (PyLongV v) s.
Proof. intros Hv. unfold long_from. by rewrite Hv. Qed.

Lemma small_int_values_spec v :
  is_small_int v = true -> v ∈ small_int_values.
Proof.
  unfold is_small_int, small_int_values, NSMALLNEGINTS, NSMALLPOSINTS.
  rewrite andb_true_iff, Z.leb_le, Z.ltb_lt. intros [Hlo Hhi].
  apply list_elem_of_fmap. exists (Z.to_nat (v + 5)). split; [lia|].
  apply elem_of_seq. lia.
Qed.

Lemma small_ints_cachedb_spec s :
  small_ints_cachedb s = true -> small_ints_cached s.
Proof.
  unfold small_ints_cachedb. rewrite forallb_forall. intros Hall v Hv.
  specialize (Hall v
    (proj1 (list_elem_of_In _ _) (small_int_values_spec v Hv))).
  destruct (objects s !! small_int v) as [[| |n| | |]|]; try done.
  by apply Z.eqb_eq in Hall as ->.
Qed.

Lemma new_object_available v s :
  py_avail s ≠ 0%nat ->
  exists s1,
    new_object v s = Return (Some (next_addr s)) s1
    /\ objects s1 !! next_addr s = Some v
    /\ curexc s1 = curexc s.
Proof.
  intros Hmem. unfold new_object. destruct (py_avail s); [done|].
  eexists. split; [done|]. split; [|done]. simpl. apply lookup_insert_eq.
Qed.

(** [load] of a [float] object of value [d], with no error pending. *)
Lemma load_float_object dm F a d convert s :
  objects s !! a = Some (PyFloatV d) ->
  curexc s = None ->
  load (arithmetic dm (NFloat F)) (Some a) convert s
  = Return (Some (float_cast F (float_cast Float64 d))) s.
Proof.
  intros Ha Hs. cbn [load arithmetic]. unfold load_arithmetic.
  cbn [Handle.is_valid is_null negb].
  unfold load_value_p, PyFloat_Check, PyFloat_AsDouble, Handle.ptr, mbind, M_bind.
  rewrite (value_of_lookup _ _ _ Ha). cbn [mret M_ret negb andb].
  rewrite andb_false_r, (value_of_lookup _ _ _ Ha).
  unfold PyErr_Occurred, gets, error_pending. cbn [mret M_ret]. rewrite Hs.
  by rewrite andb_false_r.
Qed.

(** C2: for every arithmetic type [T] of the model (the signed and
    unsigned integer types of 1, 2, 4 and 8 bytes, [float] and [double]),
    on both data models, and every value [v] of [T]: in an interpreter
    that has its small integers in place, has no error pending and can
    allocate, [cast] produces an object (the shared one for a small
    integer, a new one otherwise), and [load] of that object, with or
    without conversion, succeeds and stores [v]. *)
Theorem arithmetic_round_trip :
  forall dm T (v : num_value T) policy parent convert s,
    is_value T v ->
    small_ints_cached s ->
    curexc s = None ->
    py_avail s ≠ 0%nat ->
    exists o s1,
      cast (arithmetic dm T) v policy parent s = Return (Some o) s1
      /\ load (arithmetic dm T) (Some o) convert s1 = Return (Some v) s1.
Proof.
  intros dm [U|F] v policy parent convert s Hv Hcache Hs Hmem.
  - cbn [is_value] in Hv. rewrite (cast_int_long_from _ _ _ _ _ _ Hv).
    assert (Hobj : exists o s1,
              long_from v s = Return (Some o) s1
              /\ objects s1 !! o = Some (PyLongV v) /\ curexc s1 = curexc s).
    { destruct (is_small_int v) eqn:Hsmall.
      - rewrite (long_from_small _ _ Hsmall).
        exists (small_int v), (incref (small_int v) s).
        split; [done|]. split; [exact (Hcache v Hsmall)|done].
      - rewrite (long_from_large _ _ Hsmall).
        destruct (new_object_available (PyLongV v) s Hmem) as (s1 & ? & ? & ?).
        by exists (next_addr s), s1. }
    destruct Hobj as (o & s1 & Hnew & Ho & Hs1).
    exists o, s1. split; [done|].
    pose proof (long_as_Tp_value dm U _ _ v s1 Ho eq_refl) as Hw.
    rewrite (proj2 (in_rangeb_spec _ _) (in_range_T1 dm U v Hv)) in Hw.
    rewrite (load_int_after_widening dm U _ v convert s1 v s1 Ho Hw).
    rewrite (int_cast_in_range U v Hv).
    rewrite (int_cast_in_range _ v (in_range_T1 dm U v Hv)), Z.eqb_refl.
    cbn [negb]. rewrite andb_false_r.
    unfold error_pending. rewrite Hs1, Hs. by rewrite andb_false_r.
  - cbn [is_value] in Hv. cbn [cast arithmetic cast_arithmetic].
    unfold PyFloat_FromDouble.
    destruct (new_object_available (PyFloatV (float_cast Float64 v)) s Hmem)
      as (s1 & Hnew & Ho & Hs1).
    exists (next_addr s), s1. split; [done|].
    rewrite (load_float_object dm F _ _ convert s1 Ho) by congruence.
    rewrite (float_cast_same Float64) by (by eapply float_cast_double).
    by rewrite float_cast_roundtrip.
Qed.

Lemma arithmetic_round_trip_witness :
  exists o s1,
    cast (arithmetic LLP64 (NInt Sample.int64_t)) (-1) rv_policy.copy None
         Sample.started
    = Return (Some o) s1
    /\ load (arithmetic LLP64 (NInt Sample.int64_t)) (Some o) false s1
       = Return (Some (-1)) s1.
Proof.
  refine (arithmetic_round_trip LLP64 (NInt Sample.int64_t) (-1) rv_policy.copy
            None false Sample.started _ _ eq_refl _).
  - vm_compute. split; discriminate.
  - apply small_ints_cachedb_spec. vm_compute. reflexivity.
  - discriminate.
Defined.

(** The value [-1] with an error already pending when [load] starts is
    taken for the error value of the conversion: [load] fails and clears
    the error that was there. *)
Example load_minus_one_with_error_pending :
  load (arithmetic LP64 (NInt Sample.int64_t)) (Some 5%positive) false
       (set_curexc (Some KeyError) Sample.with_numbers)
  = Return None Sample.with_numbers.
Proof. reflexivity. Qed.
End RoundTrip.

(** ** Further facts about the numeric and the pair caster *)
Section Extent.
Import caster CPython.

(** The error of C6 stays pending at every unsigned type narrower than
    [Tp], for every [int] object that [Tp] cannot hold. *)
Lemma load_narrow_unsigned_leaves_error dm U a n convert s :
  narrow_unsigned dm (NInt U) = true ->
  objects s !! a = Some (PyLongV n) ->
  ~ in_range (T1 dm (NInt U)) n ->
  load (arithmetic dm (NInt U)) (Some a) convert s
  = Return None (set_curexc (Some OverflowError) s).
Proof.
  intros Hnu Ha Hn.
  pose proof (long_as_Tp_value dm U a _ n s Ha eq_refl) as Hw.
  rewrite (proj2 (in_rangeb_false _ _) Hn) in Hw.
  rewrite (load_int_after_widening dm U a n convert s _ _ Ha Hw).
  replace (negb (sizeof (T1 dm (NInt U)) =? sizeof U)
           && negb (int_cast (T1 dm (NInt U)) (-1)
                    =? int_cast (T1 dm (NInt U))
                         (int_cast U (int_cast (T1 dm (NInt U)) (-1)))))
    with true; [done|].
  revert Hnu. clear. by destruct dm, U as [[] []].
Qed.

(** [PyTuple_New] is not checked by [cast] of the pair caster: when it
    returns [NULL], [PyTuple_SET_ITEM] writes through a null pointer. *)
Lemma cast_pair_tuple_not_allocated {T1 T2} (C1 : type_caster T1)
    (C2 : type_caster T2) value policy parent s a1 s1 a2 s2 :
  cast C1 (fst value) policy parent s = Return (Some a1) s1 ->
  cast C2 (snd value) policy parent s1 = Return (Some a2) s2 ->
  py_avail s2 = 0%nat ->
  cast (pair C1 C2) value policy parent s = Undefined.
Proof.
  intros H1 H2 Hmem. cbn [cast pair]. unfold cast_pair, mbind, M_bind.
  rewrite H1. unfold Handle.steal, mret, M_ret.
  cbn [Handle.is_valid is_null negb]. rewrite H2.
  cbn [Handle.is_valid is_null negb].
  unfold PyTuple_New, new_object, mbind, M_bind. cbn [Z.ltb Z.compare].
  by rewrite Hmem.
Qed.
End Extent.

(** * Further properties of the code *)

(** ** The error bridge *)
Section ErrorBridgeMore.
Import detail.

Lemma python_error_raise_never_returns {A} s (a : A) s' :
  python_error_raise s ≠ Return a s'.
Proof. rewrite python_error_raise_outcome. by destruct (curexc s). Qed.




(** X2: when the message does not fit the stack buffer and [malloc] does
    not grant the block of [length out + 1] bytes, [raise] throws nothing:
    it writes its out-of-memory diagnostic and aborts the process, in the
    state it was called in. *)
Theorem raise_aborts_when_malloc_fails :
  forall (A : Type) (out : list byte) (s : State),
    Z.of_nat (length out) <= libc.INT_MAX ->
    sizeof_buf <= Z.of_nat (length out) ->
    c_avail s < Z.of_nat (length out) + 1 ->
    @raise A out s
    = Abort (list_byte_of_string "nb::detail::raise(): out of memory!") s.
Proof. intros A out s. apply raise_out_of_memory. Qed.

Lemma raise_aborts_when_malloc_fails_witness :
  @raise unit Sample.long_message Sample.exhausted
  = Abort (list_byte_of_string "nb::detail::raise(): out of memory!")
          Sample.exhausted.
Proof.
  refine (raise_aborts_when_malloc_fails unit Sample.long_message
            Sample.exhausted _ _ _); vm_compute; congruence.
Defined.

(** X3: the exception carries a C string: when the expansion of the format
    holds a NUL byte, the message of the [runtime_error] is the part before
    the first NUL, on the stack path and on the heap path alike. *)
Theorem raise_message_ends_at_nul :
  forall (A : Type) (pre post : list byte) (s : State),
    let out := pre ++ x00 :: post in
    libc.no_nul pre = true ->
    Z.of_nat (length out) <= libc.INT_MAX ->
    Z.of_nat (length out) < sizeof_buf \/ Z.of_nat (length out) + 1 <= c_avail s ->
    @raise A out s = Throw (runtime_error pre) s.
Proof.
  intros A pre post s out Hnul Hlen Hfit.
  assert (Hsz : int_cast size_t (Z.of_nat (length out)) = Z.of_nat (length out))
    by (apply size_t_small; lia).
  assert (Hsz1 : int_cast size_t (Z.of_nat (length out) + 1)
                 = Z.of_nat (length out) + 1) by (apply size_t_small; lia).
  assert (Hstr : forall rest, libc.c_str (out ++ rest) = Some pre).
  { intros rest. subst out. rewrite <- app_assoc. simpl.
    by apply c_str_terminated. }
  unfold raise, libc.vsnprintf.
  rewrite (proj2 (Z.leb_le _ _) Hlen). cbv zeta. rewrite Hsz, Hsz1.
  destruct (Z.of_nat (length out) <? sizeof_buf) eqn:Hshort.
  - apply Z.ltb_lt in Hshort. unfold sizeof_buf in *.
    rewrite take_ge by (change (Z.to_nat (512 - 1)) with 511%nat; lia).
    cbn [Z.eqb]. unfold mbind, M_bind, std_runtime_error. by rewrite Hstr.
  - apply Z.ltb_ge in Hshort. destruct Hfit as [Hfit|Hmem]; [lia|].
    unfold mbind, M_bind, libc.malloc.
    rewrite (proj2 (Z.leb_le _ _) Hmem). cbn [negb].
    replace (Z.of_nat (length out) + 1 =? 0) with false
      by (symmetry; apply Z.eqb_neq; lia).
    rewrite take_ge by lia.
    unfold std_runtime_error. rewrite Hstr.
    unfold mret, M_ret, libc.free, throw.
    cbn [c_avail objects ob_refcnt curexc next_addr py_avail].
    by rewrite state_c_avail_restored.
Qed.

Lemma raise_message_ends_at_nul_witness :
  @raise unit (list_byte_of_string "ab" ++ x00 :: list_byte_of_string "cd")
         Sample.state
  = Throw (runtime_error (list_byte_of_string "ab")) Sample.state.
Proof.
  refine (raise_message_ends_at_nul unit (list_byte_of_string "ab")
            (list_byte_of_string "cd") Sample.state eq_refl _ _).
  - vm_compute. congruence.
  - left. vm_compute. reflexivity.
Defined.

(** X4: with an error pending, [python_error_raise] throws [python_error]
    carrying that error, which the exception takes from the interpreter;
    called without one, it ends the process through [fail] with the
    diagnostic of the invariant violation. *)
Theorem python_error_raise_throws_or_aborts :
  forall (A : Type) (s : State),
    (curexc s = None ->
       @python_error_raise A s
       = Abort (list_byte_of_string "Critical nanobind error: "
                ++ list_byte_of_string
                     "nanobind::detail::raise_python_error() called without an error condition!")
               s)
    /\ (forall e, curexc s = Some e ->
          @python_error_raise A s = Throw (python_error e) (set_curexc None s)).
Proof.
  intros A s. rewrite python_error_raise_outcome. split.
  - by intros ->.
  - by intros e ->.
Qed.

Lemma python_error_raise_throws_or_aborts_witness :
  @python_error_raise unit Sample.state
  = Abort (list_byte_of_string "Critical nanobind error: "
           ++ list_byte_of_string
                "nanobind::detail::raise_python_error() called without an error condition!")
          Sample.state
  /\ @python_error_raise unit Sample.with_error
     = Throw (python_error KeyError) (set_curexc None Sample.with_error).
Proof.
  split.
  - exact (proj1 (python_error_raise_throws_or_aborts unit Sample.state) eq_refl).
  - exact (proj2 (python_error_raise_throws_or_aborts unit Sample.with_error)
             KeyError eq_refl).
Defined.
End ErrorBridgeMore.

(** ** The object protocol shim: normal returns *)
Section ShimReturns.
Import detail CPython.
Context `{ObjectProtocol}.

Lemma raise_or_unit_returns {A} (c : bool) (m : M unit) (k : unit -> M A) s r s' :
  (forall u t, m s ≠ Return u t) ->
  ((if c then m else mret tt) ≫= k) s = Return r s' ->
  c = false /\ k tt s = Return r s'.
Proof.
  intros Hm. destruct c; [|done].
  unfold mbind, M_bind. remember (m s) as o eqn:Hms.
  destruct o as [u t| | |]; try done. by destruct (Hm u t).
Qed.

Ltac returned Hr :=
  apply raise_or_unit_returns in Hr as [Hc Hr];
  [|first [ intros; apply python_error_raise_never_returns
          | intros; apply raise_never_returns ]].

Ltac called Hr U :=
  unfold mbind at 1, M_bind at 1 in Hr;
  destruct U as [?r ?s| | |] eqn:?Hu; try done.

(** X5: a wrapper that returns an object never returns a null pointer:
    when it returns at all, its result is the non-null result of the call
    it wraps, in the state that call left. *)
Theorem shim_results_are_not_null :
  (forall o s r s', obj_repr o s = Return r s' ->
     r ≠ None /\ PyObject_Repr o s = Return r s')
  /\ (forall o s r s', str_from_obj o s = Return r s' ->
        r ≠ None /\ PyObject_Str o s = Return r s')
  /\ (forall a op s r s', obj_op_1 a op s = Return r s' ->
        r ≠ None /\ op a s = Return r s')
  /\ (forall a b op s r s', obj_op_2 a b op s = Return r s' ->
        r ≠ None /\ op a b s = Return r s')
  /\ (forall obj key s r s', getattr_str obj key s = Return r s' ->
        r ≠ None /\ PyObject_GetAttrString obj key s = Return r s')
  /\ (forall obj key s r s', getattr_obj obj key s = Return r s' ->
        r ≠ None /\ PyObject_GetAttr obj key s = Return r s')
  /\ (forall str s r s', str_from_cstr str s = Return r s' ->
        r ≠ None /\ PyUnicode_FromString str s = Return r s')
  /\ (forall str size s r s', str_from_cstr_and_size str size s = Return r s' ->
        r ≠ None
        /\ PyUnicode_FromStringAndSize str (int_cast Py_ssize_t size) s = Return r s').
Proof.
  repeat apply conj.
  - intros o s r s' Hr. unfold obj_repr in Hr. called Hr (PyObject_Repr o s).
    returned Hr. injection Hr as <- <-. by destruct r0.
  - intros o s r s' Hr. unfold str_from_obj in Hr. called Hr (PyObject_Str o s).
    returned Hr. injection Hr as <- <-. by destruct r0.
  - intros a op s r s' Hr. unfold obj_op_1 in Hr. called Hr (op a s).
    returned Hr. injection Hr as <- <-. by destruct r0.
  - intros a b op s r s' Hr. unfold obj_op_2 in Hr. called Hr (op a b s).
    returned Hr. injection Hr as <- <-. by destruct r0.
  - intros obj key s r s' Hr. unfold getattr_str in Hr.
    called Hr (PyObject_GetAttrString obj key s).
    returned Hr. injection Hr as <- <-. by destruct r0.
  - intros obj key s r s' Hr. unfold getattr_obj in Hr.
    called Hr (PyObject_GetAttr obj key s).
    returned Hr. injection Hr as <- <-. by destruct r0.
  - intros str s r s' Hr. unfold str_from_cstr in Hr.
    called Hr (PyUnicode_FromString str s).
    returned Hr. injection Hr as <- <-. by destruct r0.
  - intros str size s r s' Hr. unfold str_from_cstr_and_size in Hr.
    called Hr (PyUnicode_FromStringAndSize str (int_cast Py_ssize_t size) s).
    returned Hr. injection Hr as <- <-. by destruct r0.
Qed.

(** X6: the wrappers of calls that report a status return only after a
    success: [obj_len] returns the non-negative length the call gave
    (unchanged when it is a [Py_ssize_t] value), [obj_compare] returns
    whether the comparison result was 1 and never on the result -1, and
    [setattr] and [setitem] return only on status 0. *)
Theorem shim_status_results :
  (forall o s n s', obj_len o s = Return n s' ->
     exists res, PyObject_Length o s = Return res s' /\ 0 <= res
                 /\ n = int_cast size_t res
                 /\ (res <= int_max Py_ssize_t -> n = res))
  /\ (forall a b value s r s', obj_compare a b value s = Return r s' ->
        exists rv, PyObject_RichCompareBool a b value s = Return rv s'
                   /\ rv ≠ -1 /\ r = (rv =? 1))
  /\ (forall obj key value s u s', setattr_str obj key value s = Return u s' ->
        PyObject_SetAttrString obj key value s = Return 0 s')
  /\ (forall obj key value s u s', setattr_obj obj key value s = Return u s' ->
        PyObject_SetAttr obj key value s = Return 0 s')
  /\ (forall obj key value s u s', setitem_obj obj key value s = Return u s' ->
        PyObject_SetItem obj key value s = Return 0 s').
Proof.
  assert (Hstatus : forall rv (s1 : State) (u : unit) s',
            (if negb (rv =? 0) then python_error_raise else mret ()) s1 = Return u s' ->
            rv = 0 /\ s1 = s').
  { intros rv s1 u s'. destruct (rv =? 0) eqn:Hrv; cbn [negb].
    - intros [= <-]. by apply Z.eqb_eq in Hrv.
    - intros Hr. by apply python_error_raise_never_returns in Hr. }
  repeat apply conj.
  - intros o s n s' Hr. unfold obj_len in Hr. called Hr (PyObject_Length o s).
    returned Hr. injection Hr as <- <-. apply Z.ltb_ge in Hc.
    exists r. repeat split; try done.
    intros Hmax. apply int_cast_in_range. split; [done|].
    etrans; [exact Hmax|]. by vm_compute.
  - intros a b value s r s' Hr. unfold obj_compare in Hr.
    called Hr (PyObject_RichCompareBool a b value s).
    returned Hr. injection Hr as <- <-. apply Z.eqb_neq in Hc. by exists r0.
  - intros obj key value s u s' Hr. unfold setattr_str in Hr.
    called Hr (PyObject_SetAttrString obj key value s).
    by apply Hstatus in Hr as [-> ->].
  - intros obj key value s u s' Hr. unfold setattr_obj in Hr.
    called Hr (PyObject_SetAttr obj key value s).
    by apply Hstatus in Hr as [-> ->].
  - intros obj key value s u s' Hr. unfold setitem_obj in Hr.
    called Hr (PyObject_SetItem obj key value s).
    by apply Hstatus in Hr as [-> ->].
Qed.
End ShimReturns.

Lemma shim_results_are_not_null_witness :
  Some Py_None ≠ None
  /\ @PyObject_Repr Sample.protocol (Some Py_True) Sample.state
     = Return (Some Py_None) Sample.state.
Proof.
  destruct (@shim_results_are_not_null Sample.protocol) as (Hrepr & _).
  exact (Hrepr (Some Py_True) Sample.state (Some Py_None) Sample.state eq_refl).
Defined.

Lemma shim_status_results_witness :
  exists res, @PyObject_Length Sample.protocol (Some Py_True) Sample.state
              = Return res Sample.state
              /\ 0 <= res /\ 0 = int_cast size_t res
              /\ (res <= int_max Py_ssize_t -> 0 = res).
Proof.
  destruct (@shim_status_results Sample.protocol) as (Hlen & _).
  exact (Hlen (Some Py_True) Sample.state 0 Sample.state eq_refl).
Defined.

(** ** The object protocol shim: slots, defaults and keys *)
Section ShimSlots.
Import detail CPython.
Context `{ObjectProtocol}.

Ltac returned Hr :=
  apply raise_or_unit_returns in Hr as [? Hr];
  [|first [ intros; apply python_error_raise_never_returns
          | intros; apply raise_never_returns ]].

Ltac called Hr U :=
  unfold mbind at 1, M_bind at 1 in Hr;
  destruct U as [?r ?s| | |] eqn:?Hu; try done.

(** X7: the caching variants fetch at most once.  With a slot that is
    already filled they return it without calling the interpreter, in the
    same state; and whenever they return, the slot is filled, so that any
    later call, for whatever object and key, changes nothing. *)
Theorem maybe_slot_fetched_once :
  (forall obj key k s, getattr_maybe_str obj key (Some k) s = Return (Some k) s)
  /\ (forall obj key k s, getattr_maybe_obj obj key (Some k) s = Return (Some k) s)
  /\ (forall obj key k s, getitem_maybe_int obj key (Some k) s = Return (Some k) s)
  /\ (forall obj key k s, getitem_maybe_str obj key (Some k) s = Return (Some k) s)
  /\ (forall obj key k s, getitem_maybe_obj obj key (Some k) s = Return (Some k) s)
  /\ (forall obj key out s out' s',
        getattr_maybe_str obj key out s = Return out' s' ->
        out' ≠ None
        /\ forall obj' key', getattr_maybe_str obj' key' out' s' = Return out' s')
  /\ (forall obj key out s out' s',
        getattr_maybe_obj obj key out s = Return out' s' ->
        out' ≠ None
        /\ forall obj' key', getattr_maybe_obj obj' key' out' s' = Return out' s')
  /\ (forall obj key out s out' s',
        getitem_maybe_int obj key out s = Return out' s' ->
        out' ≠ None
        /\ forall obj' key', getitem_maybe_int obj' key' out' s' = Return out' s')
  /\ (forall obj key out s out' s',
        getitem_maybe_str obj key out s = Return out' s' ->
        out' ≠ None
        /\ forall obj' key', getitem_maybe_str obj' key' out' s' = Return out' s')
  /\ (forall obj key out s out' s',
        getitem_maybe_obj obj key out s = Return out' s' ->
        out' ≠ None
        /\ forall obj' key', getitem_maybe_obj obj' key' out' s' = Return out' s').
Proof.
  repeat apply conj; try done.
  - intros obj key [k|] s out' s' Hr; [by injection Hr as <- <-|].
    unfold getattr_maybe_str in Hr. cbn [is_null negb] in Hr.
    called Hr (PyObject_GetAttrString obj key s).
    returned Hr. injection Hr as <- <-. by destruct r.
  - intros obj key [k|] s out' s' Hr; [by injection Hr as <- <-|].
    unfold getattr_maybe_obj in Hr. cbn [is_null negb] in Hr.
    called Hr (PyObject_GetAttr obj key s).
    returned Hr. injection Hr as <- <-. by destruct r.
  - intros obj key [k|] s out' s' Hr; [by injection Hr as <- <-|].
    unfold getitem_maybe_int in Hr. cbn [is_null negb] in Hr.
    called Hr (PyLong_FromSsize_t key s). returned Hr.
    called Hr (PyObject_GetItem obj r s0).
    destruct r as [k|]; [|done]. unfold Py_DECREF in Hr.
    rewrite bind_modify in Hr. returned Hr. injection Hr as <- <-.
    by destruct r0.
  - intros obj key [k|] s out' s' Hr; [by injection Hr as <- <-|].
    unfold getitem_maybe_str in Hr. cbn [is_null negb] in Hr.
    called Hr (PyUnicode_FromString key s). returned Hr.
    called Hr (PyObject_GetItem obj r s0).
    destruct r as [k|]; [|done]. unfold Py_DECREF in Hr.
    rewrite bind_modify in Hr. returned Hr. injection Hr as <- <-.
    by destruct r0.
  - intros obj key [k|] s out' s' Hr; [by injection Hr as <- <-|].
    unfold getitem_maybe_obj in Hr. cbn [is_null negb] in Hr.
    called Hr (PyObject_GetItem obj key s).
    returned Hr. injection Hr as <- <-. by destruct r.
Qed.

(** X8: the [getattr] overloads with a default value never leave through
    the error bridge.  A found attribute is returned as it is; when the
    lookup fails, the pending error is cleared and the default comes back
    with one more reference (a null default comes back as it is), all
    other counts and the objects being untouched. *)
Theorem getattr_default_absorbs_failure :
  (forall obj key def s r s1,
     PyObject_GetAttrString obj key s = Return (Some r) s1 ->
     getattr_str_def obj key def s = Return (Some r) s1)
  /\ (forall obj key def s r s1,
        PyObject_GetAttr obj key s = Return (Some r) s1 ->
        getattr_obj_def obj key def s = Return (Some r) s1)
  /\ (forall obj key def s s1,
        PyObject_GetAttrString obj key s = Return None s1 ->
        exists s2,
          getattr_str_def obj key def s = Return def s2
          /\ curexc s2 = None /\ objects s2 = objects s1
          /\ forall a, refcnt s2 a = refcnt s1 a + count_in a [def])
  /\ (forall obj key def s s1,
        PyObject_GetAttr obj key s = Return None s1 ->
        exists s2,
          getattr_obj_def obj key def s = Return def s2
          /\ curexc s2 = None /\ objects s2 = objects s1
          /\ forall a, refcnt s2 a = refcnt s1 a + count_in a [def]).
Proof.
  assert (Hdef : forall def s1, exists s2,
            (PyErr_Clear ≫= fun _ => Py_XINCREF def ≫= fun _ => mret def) s1
            = Return def s2
            /\ curexc s2 = None /\ objects s2 = objects s1
            /\ forall a, refcnt s2 a = refcnt s1 a + count_in a [def]).
  { intros [d|] s1.
    - exists (incref d (set_curexc None s1)). repeat split.
      intros a. by rewrite refcnt_incref, refcnt_set_curexc.
    - exists (set_curexc None s1). repeat split.
      intros a. rewrite refcnt_set_curexc. simpl. lia. }
  repeat apply conj.
  - intros obj key def s r s1 Hc. unfold getattr_str_def.
    by rewrite (bind_return _ _ _ _ _ Hc).
  - intros obj key def s r s1 Hc. unfold getattr_obj_def.
    by rewrite (bind_return _ _ _ _ _ Hc).
  - intros obj key def s s1 Hc. unfold getattr_str_def.
    rewrite (bind_return _ _ _ _ _ Hc). apply Hdef.
  - intros obj key def s s1 Hc. unfold getattr_obj_def.
    rewrite (bind_return _ _ _ _ _ Hc). apply Hdef.
Qed.

(** X9: the key object that an item access by integer or by string builds
    is released on every path once it exists: before the wrapper returns,
    and before it raises when the access fails. *)
Theorem item_key_released :
  (forall obj key_ s k s1 res s2,
     PyLong_FromSsize_t key_ s = Return (Some k) s1 ->
     PyObject_GetItem obj (Some k) s1 = Return res s2 ->
     getitem_maybe_int obj key_ None s
     = match res with
       | Some r => Return (Some r) (decref k s2)
       | None => python_error_raise (decref k s2)
       end)
  /\ (forall obj key_ s k s1 res s2,
        PyUnicode_FromString key_ s = Return (Some k) s1 ->
        PyObject_GetItem obj (Some k) s1 = Return res s2 ->
        getitem_maybe_str obj key_ None s
        = match res with
          | Some r => Return (Some r) (decref k s2)
          | None => python_error_raise (decref k s2)
          end)
  /\ (forall obj key_ value s k s1 rv s2,
        PyLong_FromSsize_t key_ s = Return (Some k) s1 ->
        PyObject_SetItem obj (Some k) value s1 = Return rv s2 ->
        setitem_int obj key_ value s
        = if rv =? 0 then Return tt (decref k s2)
          else python_error_raise (decref k s2))
  /\ (forall obj key_ value s k s1 rv s2,
        PyUnicode_FromString key_ s = Return (Some k) s1 ->
        PyObject_SetItem obj (Some k) value s1 = Return rv s2 ->
        setitem_str obj key_ value s
        = if rv =? 0 then Return tt (decref k s2)
          else python_error_raise (decref k s2))
  /\ (forall k s, refcnt (decref k s) k = refcnt s k - 1).
Proof.
  repeat apply conj.
  - intros obj key_ s k s1 res s2 Hk Hc. unfold getitem_maybe_int.
    cbn [is_null negb]. rewrite (bind_return _ _ _ _ _ Hk). cbn [is_null].
    rewrite (bind_return (mret tt) _ s1 tt s1 eq_refl).
    rewrite (bind_return _ _ _ _ _ Hc). unfold Py_DECREF. rewrite bind_modify.
    destruct res; cbn [is_null]; [done|]. by rewrite python_error_raise_bind.
  - intros obj key_ s k s1 res s2 Hk Hc. unfold getitem_maybe_str.
    cbn [is_null negb]. rewrite (bind_return _ _ _ _ _ Hk). cbn [is_null].
    rewrite (bind_return (mret tt) _ s1 tt s1 eq_refl).
    rewrite (bind_return _ _ _ _ _ Hc). unfold Py_DECREF. rewrite bind_modify.
    destruct res; cbn [is_null]; [done|]. by rewrite python_error_raise_bind.
  - intros obj key_ value s k s1 rv s2 Hk Hc. unfold setitem_int.
    rewrite (bind_return _ _ _ _ _ Hk). cbn [is_null].
    rewrite (bind_return (mret tt) _ s1 tt s1 eq_refl).
    rewrite (bind_return _ _ _ _ _ Hc). unfold Py_DECREF. rewrite bind_modify.
    by destruct (rv =? 0).
  - intros obj key_ value s k s1 rv s2 Hk Hc. unfold setitem_str.
    rewrite (bind_return _ _ _ _ _ Hk). cbn [is_null].
    rewrite (bind_return (mret tt) _ s1 tt s1 eq_refl).
    rewrite (bind_return _ _ _ _ _ Hc). unfold Py_DECREF. rewrite bind_modify.
    by destruct (rv =? 0).
  - intros k s. apply refcnt_decref_eq.
Qed.
End ShimSlots.

Lemma maybe_slot_fetched_once_witness :
  Some Py_True ≠ None
  /\ forall obj' key',
       @detail.getattr_maybe_str Sample.protocol obj' key' (Some Py_True) Sample.state
       = Return (Some Py_True) Sample.state.
Proof.
  destruct (@maybe_slot_fetched_once Sample.protocol)
    as (_ & _ & _ & _ & _ & Hslot & _).
  exact (Hslot (Some Py_None) (list_byte_of_string "name") (Some Py_True)
           Sample.state (Some Py_True) Sample.state eq_refl).
Defined.

Lemma getattr_default_absorbs_failure_witness :
  exists s2,
    @detail.getattr_str_def Sample.protocol (Some Py_None)
      (list_byte_of_string "name") (Some Py_True) Sample.state
    = Return (Some Py_True) s2
    /\ curexc s2 = None
    /\ objects s2 = objects (set_curexc (Some AttributeError) Sample.state)
    /\ forall a, refcnt s2 a
                 = refcnt (set_curexc (Some AttributeError) Sample.state) a
                   + count_in a [Some Py_True].
Proof.
  destruct (@getattr_default_absorbs_failure Sample.protocol)
    as (_ & _ & Hdef & _).
  exact (Hdef (Some Py_None) (list_byte_of_string "name") (Some Py_True)
           Sample.state _ eq_refl).
Defined.

Lemma item_key_released_witness :
  exists s2,
    @detail.setitem_int Sample.protocol (Some Py_None) 1000 (Some Py_True) Sample.state
    = detail.python_error_raise (CPython.decref 4%positive s2)
    /\ refcnt (CPython.decref 4%positive s2) 4%positive = 0.
Proof.
  eexists. split.
  - exact (proj1 (proj2 (proj2 (@item_key_released Sample.protocol)))
             (Some Py_None) 1000 (Some Py_True) Sample.state 4%positive _ (-1) _
             eq_refl eq_refl).
  - reflexivity.
Defined.

(** ** Capsules and modules *)
Section Capsules.
Import detail.
Context `{ModuleProtocol}.

(** X10: [capsule_new] and [module_new] never return a null pointer and
    never throw: when the interpreter cannot create the object, or cannot
    store the context of the capsule, the process ends through [fail] with
    the diagnostic of the failing step; otherwise the new object is
    returned.  The module definition handed to the interpreter carries the
    given name, size -1 and nothing else. *)
Theorem capsule_and_module_new_outcome :
  (forall ptr free s s1,
     PyCapsule_New ptr None capsule_free s = Return None s1 ->
     capsule_new ptr free s
     = Abort (list_byte_of_string "Critical nanobind error: "
              ++ list_byte_of_string
                   "nanobind::detail::capsule_new(): allocation failed!") s1)
  /\ (forall ptr free s c s1 rv s2,
        PyCapsule_New ptr None capsule_free s = Return (Some c) s1 ->
        PyCapsule_SetContext (Some c) free s1 = Return rv s2 ->
        capsule_new ptr free s
        = if rv =? 0 then Return (Some c) s2
          else Abort (list_byte_of_string "Critical nanobind error: "
                      ++ list_byte_of_string
                           "nanobind::detail::capsule_new(): could not set context!")
                     s2)
  /\ (forall name s m s1,
        PyModule_Create (MkModuleDef name None (-1) None None None None None) s
        = Return m s1 ->
        module_new name s
        = match m with
          | Some _ => Return m s1
          | None =>
              Abort (list_byte_of_string "Critical nanobind error: "
                     ++ list_byte_of_string
                          "nanobind::detail::module_new(): allocation failed!") s1
          end).
Proof.
  repeat apply conj.
  - intros ptr free s s1 Hc. unfold capsule_new.
    by rewrite (bind_return _ _ _ _ _ Hc).
  - intros ptr free s c s1 rv s2 Hc Hs. unfold capsule_new.
    rewrite (bind_return _ _ _ _ _ Hc). cbn [is_null].
    rewrite (bind_return (mret tt) _ s1 tt s1 eq_refl).
    rewrite (bind_return _ _ _ _ _ Hs). by destruct (rv =? 0).
  - intros name s m s1 Hc. unfold module_new. cbv zeta.
    rewrite (bind_return _ _ _ _ _ Hc). by destruct m.
Qed.

(** The destructor of a capsule calls the stored function, on the pointer
    of the capsule, only when a function is stored. *)
Lemma capsule_free_without_context o s s1 :
  PyCapsule_GetContext o s = Return None s1 ->
  capsule_free o s = Return tt s1.
Proof. intros Hc. unfold capsule_free. by rewrite (bind_return _ _ _ _ _ Hc). Qed.
End Capsules.

Lemma capsule_and_module_new_outcome_witness :
  @detail.capsule_new Sample.modules 7%N None Sample.exhausted
  = Abort (list_byte_of_string "Critical nanobind error: "
           ++ list_byte_of_string
                "nanobind::detail::capsule_new(): allocation failed!")
          (set_curexc (Some MemoryError) Sample.exhausted)
  /\ @detail.module_new Sample.modules (list_byte_of_string "ext") Sample.state
     = Abort (list_byte_of_string "Critical nanobind error: "
              ++ list_byte_of_string
                   "nanobind::detail::module_new(): allocation failed!")
             (set_curexc (Some MemoryError) Sample.state).
Proof.
  destruct (@capsule_and_module_new_outcome Sample.modules) as (Hcap & _ & Hmod).
  split.
  - exact (Hcap 7%N None Sample.exhausted _ eq_refl).
  - exact (Hmod (list_byte_of_string "ext") Sample.state None _ eq_refl).
Defined.

(** ** [seq_size_fetch]: sizes, tuples and errors *)
Section SeqFetchMore.
Import detail CPython.

Lemma PySequence_Size_length a v s :
  objects s !! a = Some v ->
  match sequence_length s v with
  | Some n => PySequence_Size (Some a) s = Return n s /\ 0 <= n
  | None => exists e, PySequence_Size (Some a) s
                      = Return (-1) (set_curexc (Some e) s)
  end.
Proof.
  intros Ha. unfold PySequence_Size, mbind, M_bind, gets.
  rewrite (value_of_lookup _ _ _ Ha).
  destruct v as [| | | |items|i]; cbn [sequence_length result_rejected]; eauto.
  - split; [done|]. cbn [mret M_ret]. lia.
  - destruct (tp_len i) as [n|]; [|eauto].
    destruct (error_pending s); cbn [orb]; [eauto|].
    destruct (n <? 0) eqn:Hn; [eauto|]. apply Z.ltb_ge in Hn. done.
Qed.

Lemma seq_size_fetch_mismatch seq size out s rv s1 :
  PySequence_Size seq s = Return rv s1 ->
  rv ≠ int_cast Py_ssize_t size ->
  seq_size_fetch seq size out s
  = Return (false, out) (if rv =? -1 then set_curexc None s1 else s1).
Proof.
  intros Hsize Hne. unfold seq_size_fetch.
  rewrite (bind_return _ _ _ _ _ Hsize).
  apply Z.eqb_neq in Hne. destruct (rv =? -1).
  - unfold PyErr_Clear. rewrite bind_modify. by rewrite Hne.
  - rewrite (bind_return (mret tt) _ s1 tt s1 eq_refl). by rewrite Hne.
Qed.

(** X11: [seq_size_fetch] rejects an object for which the size query
    fails or answers another length than the requested size, without
    fetching anything: the array is returned as it was.  The state is
    untouched when the query answered (a tuple in any state, an instance
    with [__len__] when no error is pending); when the query failed (no
    length, a negative length, or a result of [__len__] that is rejected
    because an error is pending), the call returns with no error pending. *)
Theorem seq_size_fetch_rejects_size :
  forall a v size out s,
    objects s !! a = Some v ->
    sequence_length s v ≠ Some (int_cast Py_ssize_t size) ->
    int_cast Py_ssize_t size ≠ -1 ->
    seq_size_fetch (Some a) size out s
    = Return (false, out)
        match sequence_length s v with
        | Some _ => s
        | None => set_curexc None s
        end.
Proof.
  intros a v size out s Ha Hlen Hsize.
  pose proof (PySequence_Size_length a v s Ha) as Hq.
  destruct (sequence_length s v) as [n|].
  - destruct Hq as [Hq Hn].
    rewrite (seq_size_fetch_mismatch _ size out _ _ _ Hq) by congruence.
    by replace (n =? -1) with false by (symmetry; apply Z.eqb_neq; lia).
  - destruct Hq as [e Hq].
    by rewrite (seq_size_fetch_mismatch _ size out _ _ _ Hq).
Qed.

Lemma seq_size_fetch_rejects_size_witness :
  seq_size_fetch (Some 4%positive) 3 [None; None; None] Sample.with_sequences
  = Return (false, [None; None; None]) Sample.with_sequences
  /\ seq_size_fetch (Some Py_None) 2 [None; None] Sample.with_error
     = Return (false, [None; None]) Sample.with_numbers
  /\ seq_size_fetch (Some 5%positive) 3 [None; None; None]
       (set_curexc (Some KeyError) Sample.with_sequences)
     = Return (false, [None; None; None]) Sample.with_sequences.
Proof.
  split; [|split].
  - refine (seq_size_fetch_rejects_size 4%positive
              (PyTupleV [Some Py_True; Some Py_None]) 3 [None; None; None]
              Sample.with_sequences eq_refl _ _); vm_compute; congruence.
  - refine (seq_size_fetch_rejects_size Py_None PyNoneV 2 [None; None]
              Sample.with_error eq_refl _ _); vm_compute; congruence.
  - refine (seq_size_fetch_rejects_size 5%positive
              (PyInstanceV (MkInstance (Some 2) [Some Py_True; None] None None))
              3 [None; None; None]
              (set_curexc (Some KeyError) Sample.with_sequences) eq_refl _ _);
      vm_compute; congruence.
Defined.

Lemma ssize_of_nat n :
  Z.of_nat n <= int_max Py_ssize_t -> in_range Py_ssize_t (Z.of_nat n).
Proof.
  intros Hn. split; [|done].
  assert (int_min Py_ssize_t <= 0) by (by vm_compute). lia.
Qed.

Lemma PySequence_GetItem_tuple a items i b s :
  objects s !! a = Some (PyTupleV items) ->
  items !! i = Some (Some b) ->
  Z.of_nat (length items) <= int_max Py_ssize_t ->
  PySequence_GetItem (Some a) (int_cast Py_ssize_t (Z.of_nat i)) s
  = Return (Some b) (incref b s).
Proof.
  intros Ha Hi Hmax. pose proof (lookup_lt_Some _ _ _ Hi) as Hlt.
  rewrite int_cast_in_range by (apply ssize_of_nat; lia).
  unfold PySequence_GetItem, mbind, M_bind. rewrite (value_of_lookup _ _ _ Ha).
  replace (Z.of_nat i <? 0) with false by (symmetry; apply Z.ltb_ge; lia).
  replace ((0 <=? Z.of_nat i) && (Z.of_nat i <? Z.of_nat (length items)))
    with true
    by (symmetry; apply andb_true_iff; split;
        [apply Z.leb_le|apply Z.ltb_lt]; lia).
  by rewrite Nat2Z.id, Hi.
Qed.

Lemma fetch_from_tuple a objs n : forall i out s,
  objects s !! a = Some (PyTupleV (Some <$> objs)) ->
  (i + n = length objs)%nat ->
  length out = length objs ->
  Z.of_nat (length objs) <= int_max Py_ssize_t ->
  exists s',
    fetch_from (Some a) n i out s
    = Return (true, take i out ++ (Some <$> drop i objs)) s'
    /\ same_but_refcnt s s'
    /\ forall x, refcnt s' x = refcnt s x + count_in x (Some <$> drop i objs).
Proof.
  induction n as [|n IH]; intros i out s Ha Hin Hout Hmax.
  - exists s. rewrite Nat.add_0_r in Hin. subst i.
    rewrite take_ge, drop_ge by lia. simpl. rewrite app_nil_r.
    repeat split. intros x. lia.
  - destruct (lookup_lt_is_Some_2 objs i ltac:(lia)) as [b Hb].
    assert (Hitem : (Some <$> objs) !! i = Some (Some b))
      by (by rewrite list_lookup_fmap, Hb).
    destruct (IH (S i) (<[i := Some b]> out) (incref b s)) as (s' & Hf & Hsame & Hcnt);
      [done|lia|by rewrite length_insert|done|].
    exists s'. split; [|split].
    + cbn [fetch_from]. unfold mbind at 1, M_bind at 1.
      rewrite (PySequence_GetItem_tuple _ _ _ _ _ Ha Hitem)
        by (by rewrite length_fmap).
      unfold mbind at 1, M_bind at 1, array_set.
      rewrite bool_decide_eq_true_2 by lia. cbn [mret M_ret is_null].
      rewrite Hf. do 2 f_equal.
      rewrite (drop_S _ _ _ Hb), fmap_cons.
      erewrite take_S_r by (apply list_lookup_insert_eq; lia).
      rewrite take_insert_ge by lia. by rewrite <- app_assoc.
    + destruct Hsame as (? & ? & ? & ? & ?). by repeat split.
    + intros x. rewrite Hcnt, refcnt_incref.
      rewrite (drop_S _ _ _ Hb), fmap_cons. simpl. lia.
Qed.

Lemma seq_size_fetch_tuple a objs out s :
  objects s !! a = Some (PyTupleV (Some <$> objs)) ->
  length out = length objs ->
  Z.of_nat (length objs) <= int_max Py_ssize_t ->
  exists s',
    seq_size_fetch (Some a) (Z.of_nat (length objs)) out s
    = Return (true, Some <$> objs) s'
    /\ same_but_refcnt s s'
    /\ forall x, refcnt s' x = refcnt s x + count_in x (Some <$> objs).
Proof.
  intros Ha Hout Hmax.
  destruct (fetch_from_tuple a objs (length objs) 0 out s Ha) as (s' & Hf & Hs');
    [done..|].
  exists s'. split; [|done].
  unfold seq_size_fetch, PySequence_Size, mbind, M_bind, gets.
  rewrite (value_of_lookup _ _ _ Ha). cbn [mret M_ret]. rewrite length_fmap.
  replace (Z.of_nat (length objs) =? -1) with false
    by (symmetry; apply Z.eqb_neq; lia).
  cbn [mret M_ret].
  rewrite (int_cast_in_range Py_ssize_t) by (by apply ssize_of_nat).
  rewrite Z.eqb_refl. cbn [negb]. by rewrite Nat2Z.id, Hf.
Qed.

(** X12: for a tuple of exactly [size] objects, [seq_size_fetch] returns
    [true] with the array holding the items of the tuple in order; every
    item has gained one reference for each place it has in the tuple, and
    nothing else in the state has changed. *)
Theorem seq_size_fetch_fills_from_tuple :
  forall a objs out s,
    objects s !! a = Some (PyTupleV (Some <$> objs)) ->
    length out = length objs ->
    Z.of_nat (length objs) <= int_max Py_ssize_t ->
    exists s',
      seq_size_fetch (Some a) (Z.of_nat (length objs)) out s
      = Return (true, Some <$> objs) s'
      /\ same_but_refcnt s s'
      /\ forall x, refcnt s' x = refcnt s x + count_in x (Some <$> objs).
Proof. exact seq_size_fetch_tuple. Qed.

Lemma seq_size_fetch_fills_from_tuple_witness :
  exists s',
    seq_size_fetch (Some 4%positive) 2 [None; None] Sample.with_sequences
    = Return (true, [Some Py_True; Some Py_None]) s'
    /\ same_but_refcnt Sample.with_sequences s'
    /\ forall x, refcnt s' x
                 = refcnt Sample.with_sequences x
                   + count_in x [Some Py_True; Some Py_None].
Proof.
  refine (seq_size_fetch_fills_from_tuple 4%positive [Py_True; Py_None]
            [None; None] Sample.with_sequences eq_refl eq_refl _).
  vm_compute. congruence.
Defined.
End SeqFetchMore.

Section SeqFetchErrors.
Import detail CPython.

Lemma PySequence_GetItem_null seq i s s' :
  PySequence_GetItem seq i s = Return None s' ->
  exists e, s' = set_curexc (Some e) s.
Proof.
  unfold PySequence_GetItem, mbind, M_bind, value_of, gets.
  destruct seq as [p|]; [|intros [= <-]; eauto].
  destruct (objects s !! p) as [[| | | |items|inst]|];
    try (intros [= <-]; eauto); try done.
  - destruct (_ && _); [|intros [= <-]; eauto].
    by destruct (items !! _) as [[b|]|].
  - cbn [result_rejected].
    destruct (if 0 <=? i then _ else _) as [[b|]|];
      try (intros [= <-]; eauto).
    destruct (error_pending s); [intros [= <-]; eauto|done].
Qed.

Lemma release_fetched_curexc out i : forall s s',
  release_fetched out i s = Return tt s' -> curexc s' = curexc s.
Proof.
  induction i as [|j IH]; intros s s'; [by intros [= <-]|].
  cbn [release_fetched]. unfold mbind, M_bind.
  destruct (release_fetched out j s) as [[] s1| | |] eqn:Hrel; try done.
  apply IH in Hrel. unfold array_get.
  destruct (out !! j) as [[b|]|]; try done.
  intros [= <-]. by rewrite <- Hrel.
Qed.

Lemma fetch_from_failure_error seq n : forall i out s out' s',
  fetch_from seq n i out s = Return (false, out') s' ->
  exists e, curexc s' = Some e.
Proof.
  induction n as [|n IH]; intros i out s out' s'; [done|].
  cbn [fetch_from]. unfold mbind at 1, M_bind at 1.
  destruct (PySequence_GetItem seq _ s) as [item s1| | |] eqn:Hitem; try done.
  unfold mbind at 1, M_bind at 1, array_set.
  case_bool_decide; [|done]. cbn [mret M_ret].
  destruct item as [b|]; cbn [is_null]; [by apply IH|].
  destruct (PySequence_GetItem_null _ _ _ _ Hitem) as [e ->].
  unfold mbind, M_bind.
  destruct (release_fetched _ i _) as [[] s2| | |] eqn:Hrel; try done.
  apply release_fetched_curexc in Hrel. intros [= _ <-]. by exists e.
Qed.

(** X13: when the size matches and [seq_size_fetch] still returns [false],
    an item could not be fetched, and the error of that fetch is still
    pending on return; only the error of a failed size query is cleared. *)
Theorem seq_size_fetch_item_error_stays :
  forall seq size out s rv s1 out' s',
    PySequence_Size seq s = Return rv s1 ->
    rv = int_cast Py_ssize_t size ->
    seq_size_fetch seq size out s = Return (false, out') s' ->
    exists e, curexc s' = Some e.
Proof.
  intros seq size out s rv s1 out' s' Hsize ->. unfold seq_size_fetch.
  rewrite (bind_return _ _ _ _ _ Hsize). unfold mbind, M_bind.
  destruct ((if _ =? -1 then PyErr_Clear else mret ()) s1) as [[] s2| | |];
    try done.
  rewrite Z.eqb_refl. cbn [negb]. apply fetch_from_failure_error.
Qed.

Lemma seq_size_fetch_item_error_stays_witness :
  exists e,
    curexc (decref Py_True
              (set_curexc (Some IndexError) (incref Py_True Sample.with_sequences)))
    = Some e.
Proof.
  exact (seq_size_fetch_item_error_stays (Some 5%positive) 2 [None; None]
           Sample.with_sequences 2 Sample.with_sequences [Some Py_True; None] _
           eq_refl eq_refl eq_refl).
Defined.
End SeqFetchErrors.

(** ** The numeric caster: what [load] and [cast] do to the state *)
Section ArithmeticState.
Import caster CPython.

Lemma set_curexc_same s : set_curexc (curexc s) s = s.
Proof. by destruct s. Qed.

Lemma clean_or_curexc {A} (err : A) s r s' :
  clean_or err s r s' -> exists e, s' = set_curexc e s.
Proof.
  intros [->|(_ & e & ->)]; [|eauto].
  exists (curexc s). by rewrite set_curexc_same.
Qed.

Lemma load_value_p_curexc dm T a convert s r s1 :
  load_value_p dm T (Some a) convert s = Return r s1 ->
  exists e, s1 = set_curexc e s.
Proof.
  assert (Hsame : exists e, s = set_curexc e s)
    by (exists (curexc s); by rewrite set_curexc_same).
  destruct T as [U|F]; unfold load_value_p.
  - unfold mbind at 1, M_bind at 1, PyLong_Check.
    unfold mbind at 1, M_bind at 1, value_of, Handle.ptr.
    destruct (objects s !! a) as [v|]; [|done]. cbn [mret M_ret].
    destruct (_ && _); [by intros [= _ <-]|].
    unfold mbind, M_bind.
    destruct (long_as_Tp dm U (Some a) s) as [w s2| | |] eqn:Hw; try done.
    apply long_as_Tp_outcome, clean_or_curexc in Hw.
    by destruct (_ && _); intros [= _ <-].
  - unfold mbind at 1, M_bind at 1, PyFloat_Check.
    unfold mbind at 1, M_bind at 1, value_of, Handle.ptr.
    destruct (objects s !! a) as [v|]; [|done]. cbn [mret M_ret].
    destruct (_ && _); [by intros [= _ <-]|].
    unfold mbind, M_bind.
    destruct (PyFloat_AsDouble (Some a) s) as [d s2| | |] eqn:Hd; try done.
    apply PyFloat_AsDouble_outcome, clean_or_curexc in Hd.
    by intros [= _ <-].
Qed.

Lemma load_arithmetic_curexc dm T src convert s r s' :
  load (arithmetic dm T) src convert s = Return r s' ->
  exists e, s' = set_curexc e s.
Proof.
  cbn [load arithmetic]. unfold load_arithmetic.
  destruct src as [a|]; cbn [Handle.is_valid is_null negb].
  2:{ intros [= _ <-]. exists (curexc s). by rewrite set_curexc_same. }
  unfold mbind at 1, M_bind at 1.
  destruct (load_value_p dm T (Some a) convert s) as [[value_p|] s1| | |] eqn:Hv;
    try done; apply load_value_p_curexc in Hv as [e ->].
  - unfold PyErr_Occurred, gets, mbind, M_bind.
    destruct (_ && _); intros [= _ <-]; eauto.
  - intros [= _ <-]. eauto.
Qed.






Lemma arithmetic_keeps_refcnt dm T : load_keeps_refcnt (arithmetic dm T).
Proof.
  intros src convert s r s' Hl a.
  by apply load_arithmetic_curexc in Hl as [e ->].
Qed.

Lemma arithmetic_balanced dm T : refcnt_balanced (arithmetic dm T).
Proof.
  split.
  - intros src convert s s' Hl. by apply (arithmetic_keeps_refcnt dm T _ _ _ _ _ Hl).
  - intros src convert s v s' Hl. exists (fun _ => 0). split.
    + intros a. rewrite (arithmetic_keeps_refcnt dm T _ _ _ _ _ Hl a). lia.
    + intros t. exists t. split; [done|]. intros; lia.
Qed.

(** [load] of the object that [cast] makes for [v], with no error
    pending. *)
Lemma load_num_object dm T a (v : num_value T) convert s :
  is_value T v ->
  objects s !! a = Some (num_object T v) ->
  curexc s = None ->
  load (arithmetic dm T) (Some a) convert s = Return (Some v) s.
Proof.
  destruct T as [U|F]; cbn [is_value num_object]; intros Hv Ha Hs.
  - pose proof (long_as_Tp_value dm U _ _ v s Ha eq_refl) as Hw.
    rewrite (proj2 (in_rangeb_spec _ _) (in_range_T1 dm U v Hv)) in Hw.
    rewrite (load_int_after_widening dm U _ v convert s v s Ha Hw).
    rewrite (int_cast_in_range U v Hv).
    rewrite (int_cast_in_range _ v (in_range_T1 dm U v Hv)), Z.eqb_refl.
    cbn [negb]. rewrite andb_false_r.
    unfold error_pending. rewrite Hs. by rewrite andb_false_r.
  - rewrite (load_float_object dm F _ _ convert s Ha Hs).
    rewrite (float_cast_same Float64) by (by eapply float_cast_double).
    by rewrite float_cast_roundtrip.
Qed.

(** [cast] of a value: the shared object of a small integer with one more
    reference, and otherwise a request for one new object. *)
Lemma cast_num_from dm T (v : num_value T) policy parent s :
  is_value T v ->
  cast (arithmetic dm T) v policy parent s
  = match shared_object T v with
    | Some a => Return (Some a) (incref a s)
    | None => new_object (num_object T v) s
    end.
Proof.
  destruct T as [U|F]; cbn [is_value num_object shared_object]; intros Hv.
  - rewrite (cast_int_long_from _ _ _ _ _ _ Hv). unfold long_from.
    by destruct (is_small_int v).
  - reflexivity.
Qed.
End ArithmeticState.


Section ArithmeticEdges.
Import caster CPython.

(** X15: except at the unsigned types narrower than their intermediate
    type, [load] of the numeric caster never leaves an error behind: when
    none was pending before the call, none is pending after it, whatever
    the object is and whether or not the conversion raised. *)
Theorem load_arithmetic_leaves_no_error :
  forall dm T src convert s r s',
    narrow_unsigned dm T = false ->
    curexc s = None ->
    load (arithmetic dm T) src convert s = Return r s' ->
    curexc s' = None.
Proof. exact load_clears_conversion_error. Qed.

Lemma load_arithmetic_leaves_no_error_witness :
  curexc (set_object 4%positive (PyLongV (2 ^ 70)) Sample.with_numbers) = None.
Proof.
  exact (load_arithmetic_leaves_no_error LP64 (NInt Sample.int64_t)
           (Some 4%positive) true
           (set_object 4%positive (PyLongV (2 ^ 70)) Sample.with_numbers)
           None _ eq_refl eq_refl eq_refl).
Defined.

(** X16: without conversion, the numeric caster accepts only an object of
    the matching kind: [load] into an integer type fails on every object
    that is not an [int] (or [bool]), [load] into a floating type fails on
    every object that is not a [float], [int] objects included; the state
    is left as it is. *)
Theorem load_arithmetic_strict :
  forall dm a v s,
    objects s !! a = Some v ->
    (forall U, long_value v = None ->
       load (arithmetic dm (NInt U)) (Some a) false s = Return None s)
    /\ (forall F, (forall d, v ≠ PyFloatV d) ->
          load (arithmetic dm (NFloat F)) (Some a) false s = Return None s).
Proof.
  intros dm a v s Ha. split.
  - intros U Hv. cbn [load arithmetic]. unfold load_arithmetic.
    cbn [Handle.is_valid is_null negb].
    unfold load_value_p, PyLong_Check, Handle.ptr, mbind, M_bind.
    rewrite (value_of_lookup _ _ _ Ha). by destruct v.
  - intros F Hv. cbn [load arithmetic]. unfold load_arithmetic.
    cbn [Handle.is_valid is_null negb].
    unfold load_value_p, PyFloat_Check, Handle.ptr, mbind, M_bind.
    rewrite (value_of_lookup _ _ _ Ha). destruct v; try done.
    by destruct (Hv d).
Qed.

Lemma load_arithmetic_strict_witness :
  load (arithmetic LP64 (NInt int)) (Some Py_None) false Sample.with_numbers
  = Return None Sample.with_numbers
  /\ load (arithmetic LP64 (NFloat Float64)) (Some 6%positive) false
          Sample.with_numbers
     = Return None Sample.with_numbers.
Proof.
  split.
  - exact (proj1 (load_arithmetic_strict LP64 Py_None PyNoneV
             Sample.with_numbers eq_refl) int eq_refl).
  - refine (proj2 (load_arithmetic_strict LP64 6%positive (PyLongV 7)
             Sample.with_numbers eq_refl) Float64 _).
    discriminate.
Defined.

(** X17: [load] cannot tell the value [Tp(-1)] from the error value of
    the conversion when an error is already pending at the call: for an
    [int] object equal to [Tp(-1)] that the target type can hold, and for
    the [float] object [-1.0], it returns [false] and clears the error
    that was pending. *)
Theorem load_arithmetic_minus_one_with_error_pending :
  forall dm a convert s,
    curexc s ≠ None ->
    (forall U n,
       objects s !! a = Some (PyLongV n) ->
       in_range U n -> n = int_cast (T1 dm (NInt U)) (-1) ->
       load (arithmetic dm (NInt U)) (Some a) convert s
       = Return None (set_curexc None s))
    /\ (forall F,
          objects s !! a = Some (PyFloatV minus_one_double) ->
          load (arithmetic dm (NFloat F)) (Some a) convert s
          = Return None (set_curexc None s)).
Proof.
  intros dm a convert s Hs.
  assert (Hpend : error_pending s = true)
    by (unfold error_pending; by destruct (curexc s)).
  split.
  - intros U n Ha Hn Hm1.
    pose proof (long_as_Tp_value dm U _ _ n s Ha eq_refl) as Hw.
    rewrite (proj2 (in_rangeb_spec _ _) (in_range_T1 dm U n Hn)) in Hw.
    rewrite (load_int_after_widening dm U _ n convert s n s Ha Hw).
    rewrite (int_cast_in_range U n Hn).
    rewrite (int_cast_in_range _ n (in_range_T1 dm U n Hn)), Z.eqb_refl.
    cbn [negb]. rewrite andb_false_r, Hpend, <- Hm1, Z.eqb_refl. done.
  - intros F Ha. cbn [load arithmetic]. unfold load_arithmetic.
    cbn [Handle.is_valid is_null negb].
    unfold load_value_p, PyFloat_Check, PyFloat_AsDouble, Handle.ptr, mbind, M_bind.
    rewrite (value_of_lookup _ _ _ Ha). cbn [mret M_ret negb andb].
    rewrite andb_false_r, (value_of_lookup _ _ _ Ha).
    unfold PyErr_Occurred, gets. cbn [mret M_ret]. rewrite Hpend.
    replace (num_eqb (Tp dm (NFloat F)) (float_cast Float64 minus_one_double)
               (num_minus_one (Tp dm (NFloat F)))) with true by (by vm_compute).
    done.
Qed.

Lemma load_arithmetic_minus_one_with_error_pending_witness :
  load (arithmetic LP64 (NInt Sample.int64_t)) (Some 5%positive) false
       Sample.with_error
  = Return None (set_curexc None Sample.with_error).
Proof.
  refine (proj1 (load_arithmetic_minus_one_with_error_pending LP64 5%positive
            false Sample.with_error _) Sample.int64_t (-1) eq_refl _ eq_refl).
  - discriminate.
  - vm_compute. split; discriminate.
Defined.

(** X18: [cast] of a value of a numeric type never reaches
    [fail("invalid number cast")].  For an integer from -5 to 256 it
    returns the shared object of that value with one more reference: it
    allocates nothing and cannot fail.  For every other value it asks the
    interpreter for one new object: with the allocator exhausted it returns
    an invalid handle with [MemoryError] set, and otherwise the handle of
    a new object that holds the value, with reference count 1, the other
    objects and counts and the error indicator being as before. *)
Theorem cast_arithmetic_outcome :
  forall dm T (v : num_value T) policy parent s,
    is_value T v ->
    match shared_object T v with
    | Some a =>
        cast (arithmetic dm T) v policy parent s = Return (Some a) (incref a s)
    | None =>
        (py_avail s = 0%nat ->
           cast (arithmetic dm T) v policy parent s
           = Return None (set_curexc (Some MemoryError) s))
        /\ (py_avail s ≠ 0%nat ->
            exists s1,
              cast (arithmetic dm T) v policy parent s
              = Return (Some (next_addr s)) s1
              /\ objects s1 = <[next_addr s := num_object T v]> (objects s)
              /\ ob_refcnt s1 = <[next_addr s := 1]> (ob_refcnt s)
              /\ curexc s1 = curexc s)
    end.
Proof.
  intros dm T v policy parent s Hv.
  rewrite (cast_num_from dm T v policy parent s Hv).
  destruct (shared_object T v) as [a|]; [done|].
  unfold new_object. split; intros Hmem.
  - by rewrite Hmem.
  - destruct (py_avail s); [done|]. by eexists.
Qed.

Lemma cast_arithmetic_outcome_witness :
  cast (arithmetic LP64 (NInt int)) 1000 rv_policy.copy None Sample.exhausted
  = Return None (set_curexc (Some MemoryError) Sample.exhausted)
  /\ cast (arithmetic LP64 (NInt int)) 7 rv_policy.copy None Sample.exhausted
     = Return (Some (small_int 7)) (incref (small_int 7) Sample.exhausted).
Proof.
  split.
  - refine (proj1 (cast_arithmetic_outcome LP64 (NInt int) 1000 rv_policy.copy
              None Sample.exhausted _) eq_refl).
    vm_compute. split; discriminate.
  - refine (cast_arithmetic_outcome LP64 (NInt int) 7 rv_policy.copy None
              Sample.exhausted _).
    vm_compute. split; discriminate.
Defined.
End ArithmeticEdges.

(** ** More on the pair caster *)
Section PairMore.
Import caster detail CPython.

Lemma boolean_keeps_refcnt : load_keeps_refcnt boolean.
Proof.
  intros src convert s r s'. cbn [load boolean]. unfold load_bool, mret, M_ret.
  repeat case_bool_decide; by intros [= _ <-].
Qed.

Lemma nullptr_keeps_refcnt : load_keeps_refcnt nullptr.
Proof.
  intros src convert s r s'. cbn [load nullptr]. unfold load_nullptr, mret, M_ret.
  destruct (_ && _); by intros [= _ <-].
Qed.

(** X19: when the casters of both components are balanced in their
    reference counts (a failed [load] leaves them alone, and the destructor
    of a loaded value gives back what [load] took), a failed [load] of the
    pair leaves every reference count as it found it, whichever of the
    three exits it took. *)
Theorem load_pair_failure_keeps_refcounts :
  forall T1 T2 (C1 : type_caster T1) (C2 : type_caster T2),
    refcnt_balanced C1 -> refcnt_balanced C2 ->
    forall src convert s s',
      load (pair C1 C2) src convert s = Return None s' ->
      forall a, refcnt s' a = refcnt s a.
Proof. intros T1 T2 C1 C2. exact (load_pair_failure_neutral C1 C2). Qed.

(** X20: a successful [load] of the pair does not release what
    [seq_size_fetch] acquired: with component casters whose [load] leaves
    the reference counts alone, each of the two fetched items holds one
    more reference after the call than before it. *)
Theorem load_pair_success_holds_items :
  forall T1 T2 (C1 : type_caster T1) (C2 : type_caster T2) src convert s v s',
    load_keeps_refcnt C1 -> load_keeps_refcnt C2 ->
    load (pair C1 C2) src convert s = Return (Some v) s' ->
    exists a0 a1 s1,
      seq_size_fetch (Handle.ptr src) 2 [None; None] s
      = Return (true, [Some a0; Some a1]) s1
      /\ forall a, refcnt s' a = refcnt s a + count_in a [Some a0; Some a1].
Proof.
  intros T1 T2 C1 C2 src convert s v s' H1 H2.
  cbn [load pair]. unfold load_pair. unfold mbind at 1, M_bind at 1.
  destruct (seq_size_fetch _ 2 _ s) as [[ok o] s1| | |] eqn:Hfetch; try done.
  destruct ok; cbn [negb]; [|done].
  destruct (seq_size_fetch_pair _ _ _ _ Hfetch) as (a0 & a1 & -> & Hs1).
  unfold mbind, M_bind. cbn [array_get lookup list_lookup mret M_ret].
  destruct (load C1 (Some a0) convert s1) as [[v1|] s2| | |] eqn:L1; try done.
  - destruct (load C2 (Some a1) convert s2) as [[v2|] s3| | |] eqn:L2; try done.
    + intros [= <- <-]. exists a0, a1, s1. split; [done|]. intros a.
      rewrite (H2 _ _ _ _ _ L2), (H1 _ _ _ _ _ L1). apply Hs1.
    + rewrite load_pair_fail_releases. by destruct (destroy C1 v1 _).
Qed.

Lemma new_object_state v s :
  py_avail s ≠ 0%nat ->
  exists s1,
    new_object v s = Return (Some (next_addr s)) s1
    /\ objects s1 = <[next_addr s := v]> (objects s)
    /\ curexc s1 = curexc s
    /\ next_addr s1 = Pos.succ (next_addr s)
    /\ S (py_avail s1) = py_avail s.
Proof.
  intros Hmem. unfold new_object. destruct (py_avail s); [done|]. by eexists.
Qed.

Lemma cast_pair_makes_tuple {T1 T2} (C1 : type_caster T1) (C2 : type_caster T2)
    value policy parent s a1 s1 a2 s2 :
  cast C1 (fst value) policy parent s = Return (Some a1) s1 ->
  cast C2 (snd value) policy parent s1 = Return (Some a2) s2 ->
  py_avail s2 ≠ 0%nat ->
  exists s3,
    cast (pair C1 C2) value policy parent s = Return (Some (next_addr s2)) s3
    /\ objects s3 = <[next_addr s2 := PyTupleV [Some a1; Some a2]]> (objects s2)
    /\ curexc s3 = curexc s2.
Proof.
  intros H1 H2 Hmem.
  cbn [cast pair]. unfold cast_pair, mbind, M_bind. rewrite H1.
  unfold Handle.steal, mret, M_ret. cbn [Handle.is_valid is_null negb].
  rewrite H2. cbn [Handle.is_valid is_null negb].
  unfold PyTuple_New, new_object, mbind, M_bind. cbn [Z.ltb Z.compare].
  destruct (py_avail s2) as [|n] eqn:Hn; [done|]. simpl.
  erewrite PyTuple_SET_ITEM_stores;
    [|simpl; apply lookup_insert_eq|simpl; lia].
  erewrite PyTuple_SET_ITEM_stores;
    [|simpl; apply lookup_insert_eq|simpl; lia].
  eexists. split; [reflexivity|]. split; [|done].
  simpl. by rewrite !insert_insert_eq.
Qed.

Lemma small_int_address v :
  is_small_int v = true -> Z.pos (small_int v) = small_ints + v.
Proof.
  unfold is_small_int, small_int, small_ints, NSMALLNEGINTS.
  rewrite andb_true_iff, Z.leb_le. intros [Hlo _].
  apply Z2Pos.id. change (2 ^ 32) with 4294967296. lia.
Qed.

Lemma allocated_not_next s a :
  allocated s a -> small_ints_reserved s -> py_avail s ≠ 0%nat ->
  a ≠ next_addr s.
Proof.
  unfold allocated, small_ints_reserved. intros [Ha|Ha] Hres Hmem ->; lia.
Qed.

(** What [cast] of a number does in an interpreter that has its small
    integers in place and can allocate. *)
Lemma cast_num_ready dm T (v : num_value T) policy parent s :
  is_value T v -> small_ints_cached s -> small_ints_reserved s ->
  py_avail s ≠ 0%nat ->
  exists o s1,
    cast (arithmetic dm T) v policy parent s = Return (Some o) s1
    /\ objects s1 !! o = Some (num_object T v)
    /\ allocated s1 o
    /\ (forall a, allocated s a ->
          allocated s1 a /\ objects s1 !! a = objects s !! a)
    /\ curexc s1 = curexc s
    /\ small_ints_reserved s1
    /\ (py_avail s <= S (py_avail s1))%nat.
Proof.
  intros Hv Hcache Hres Hmem. rewrite (cast_num_from dm T v policy parent s Hv).
  destruct (shared_object T v) as [a|] eqn:Hshared.
  - destruct T as [U|F]; cbn [shared_object] in Hshared; [|done].
    destruct (is_small_int v) eqn:Hsmall; [|done]. injection Hshared as <-.
    exists (small_int v), (incref (small_int v) s). split; [done|].
    split; [exact (Hcache v Hsmall)|]. split.
    { right. rewrite (small_int_address v Hsmall).
      revert Hsmall. unfold is_small_int.
      rewrite andb_true_iff, Z.leb_le. lia. }
    split; [done|]. split; [done|]. split; [done|].
    cbn [incref set_refcnt py_avail]. lia.
  - destruct (new_object_state (num_object T v) s Hmem)
      as (s1 & -> & Ho & He & Hn & Hm).
    exists (next_addr s), s1. split; [done|].
    split; [rewrite Ho; apply lookup_insert_eq|].
    split; [left; lia|].
    split.
    { intros a Ha. split.
      - destruct Ha as [Ha|Ha]; [left; lia|by right].
      - rewrite Ho. apply lookup_insert_ne.
        intros Heq. by apply (allocated_not_next s a Ha Hres Hmem). }
    split; [done|]. split; [|lia].
    unfold small_ints_reserved in *. lia.
Qed.

(** X21: round trip through the pair caster.  For two values of
    arithmetic types, in an interpreter that has its small integers in
    place, with no error pending and room for three objects, [cast] of the
    pair returns a tuple from which [load] of the same caster gives the
    pair back, with or without conversion. *)
Theorem pair_round_trip :
  forall dm TA TB (va : num_value TA) (vb : num_value TB) policy parent convert s,
    is_value TA va -> is_value TB vb ->
    small_ints_cached s -> small_ints_reserved s ->
    curexc s = None -> (3 <= py_avail s)%nat ->
    exists t s1 s2,
      cast (pair (arithmetic dm TA) (arithmetic dm TB)) (va, vb) policy parent s
      = Return (Some t) s1
      /\ load (pair (arithmetic dm TA) (arithmetic dm TB)) (Some t) convert s1
         = Return (Some (va, vb)) s2.
Proof.
  intros dm TA TB va vb policy parent convert s Hva Hvb Hcache Hres Hs Hmem.
  destruct (cast_num_ready dm TA va policy parent s Hva Hcache Hres ltac:(lia))
    as (a & sa & Ha & Hoa & Haa & Hkeepa & Hea & Hresa & Hma).
  assert (Hcachea : small_ints_cached sa).
  { intros v Hv.
    rewrite (proj2 (Hkeepa (small_int v) ltac:(
               right; rewrite (small_int_address v Hv);
               revert Hv; unfold is_small_int;
               rewrite andb_true_iff, Z.leb_le; lia))).
    by apply Hcache. }
  destruct (cast_num_ready dm TB vb policy parent sa Hvb Hcachea Hresa ltac:(lia))
    as (b & sb & Hb & Hob & Hab & Hkeepb & Heb & Hresb & Hmb).
  destruct (Hkeepb a Haa) as [Haa' Hoa'].
  assert (Hmemb : py_avail sb ≠ 0%nat) by lia.
  destruct (cast_pair_makes_tuple (arithmetic dm TA) (arithmetic dm TB)
              (va, vb) policy parent s _ _ _ _ Ha Hb Hmemb)
    as (s3 & Hcast & Ho3 & He3).
  set (t := next_addr sb) in *.
  assert (Hat : a ≠ t) by (by apply allocated_not_next).
  assert (Hbt : b ≠ t) by (by apply allocated_not_next).
  destruct (seq_size_fetch_tuple t [a; b] [None; None] s3) as (s4 & Hf & Hsame & _).
  { rewrite Ho3. apply lookup_insert_eq. }
  { done. }
  { by vm_compute. }
  destruct Hsame as (Ho4 & He4 & _).
  exists t, s3, s4. split; [exact Hcast|].
  cbn [load pair]. unfold load_pair. unfold mbind at 1, M_bind at 1.
  change (Handle.ptr (Some t)) with (Some t).
  change (Z.of_nat (length [a; b])) with 2 in Hf. rewrite Hf.
  cbn [negb fmap list_fmap]. unfold mbind, M_bind.
  cbn [array_get lookup list_lookup mret M_ret].
  rewrite (load_num_object dm TA a va convert s4 Hva).
  2:{ rewrite Ho4, Ho3, lookup_insert_ne by done. by rewrite Hoa'. }
  2:{ congruence. }
  rewrite (load_num_object dm TB b vb convert s4 Hvb).
  2:{ by rewrite Ho4, Ho3, lookup_insert_ne. }
  2:{ congruence. }
  reflexivity.
Qed.

(** X22: [load] of the pair caster returns [false] without running a
    component caster for a null handle and for every object for which the
    size query fails or answers another length than 2.  The state is
    untouched when the query answered (a tuple in any state, an instance
    with [__len__] when no error is pending); when it failed (a null
    handle, no length, a negative length, or a result of [__len__] that is
    rejected because an error is pending), [load] returns with no error
    pending, whether or not one was pending before. *)
Theorem load_pair_rejects_other_sizes :
  forall T1 T2 (C1 : type_caster T1) (C2 : type_caster T2) convert s,
    load (pair C1 C2) None convert s = Return None (set_curexc None s)
    /\ forall a v,
         objects s !! a = Some v ->
         sequence_length s v ≠ Some 2 ->
         load (pair C1 C2) (Some a) convert s
         = Return None match sequence_length s v with
                       | Some _ => s
                       | None => set_curexc None s
                       end.
Proof.
  intros T1 T2 C1 C2 convert s. split.
  - reflexivity.
  - intros a v Ha Hlen. cbn [load pair]. unfold load_pair.
    change (Handle.ptr (Some a)) with (Some a).
    pose proof (PySequence_Size_length a v s Ha) as Hq.
    destruct (sequence_length s v) as [n|].
    + destruct Hq as [Hq Hn].
      rewrite (bind_return _ _ _ _ _
                 (seq_size_fetch_mismatch _ 2 [None; None] _ _ _ Hq
                    ltac:(vm_compute; congruence))).
      by replace (n =? -1) with false by (symmetry; apply Z.eqb_neq; lia).
    + destruct Hq as [e Hq].
      by rewrite (bind_return _ _ _ _ _
                    (seq_size_fetch_mismatch _ 2 [None; None] _ _ _ Hq
                       ltac:(by vm_compute))).
Qed.

(** X23: the result of [PyTuple_New] is not checked by [cast] of the pair
    caster: when both components have been converted and the interpreter
    cannot allocate the tuple, [PyTuple_SET_ITEM] writes through a null
    pointer, which is undefined. *)
Theorem cast_pair_unchecked_tuple :
  forall T1 T2 (C1 : type_caster T1) (C2 : type_caster T2)
         value policy parent s a1 s1 a2 s2,
    cast C1 (fst value) policy parent s = Return (Some a1) s1 ->
    cast C2 (snd value) policy parent s1 = Return (Some a2) s2 ->
    py_avail s2 = 0%nat ->
    cast (pair C1 C2) value policy parent s = Undefined.
Proof. intros T1 T2 C1 C2. exact (cast_pair_tuple_not_allocated C1 C2). Qed.
End PairMore.

Lemma load_pair_failure_keeps_refcounts_witness :
  let s' := CPython.decref Py_None (CPython.decref Py_True
              (CPython.incref Py_None (CPython.incref Py_True
                 Sample.with_sequences))) in
  load (caster.pair caster.nullptr (caster.arithmetic LP64 (NInt int)))
       (Some 4%positive) false Sample.with_sequences = Return None s'
  /\ refcnt s' Py_True = refcnt Sample.with_sequences Py_True
  /\ refcnt s' Py_None = refcnt Sample.with_sequences Py_None.
Proof.
  intros s'. split; [reflexivity|].
  split.
  - exact (load_pair_failure_keeps_refcounts _ _ caster.nullptr
             (caster.arithmetic LP64 (NInt int)) nullptr_balanced
             (arithmetic_balanced LP64 (NInt int)) (Some 4%positive) false
             Sample.with_sequences s' eq_refl Py_True).
  - exact (load_pair_failure_keeps_refcounts _ _ caster.nullptr
             (caster.arithmetic LP64 (NInt int)) nullptr_balanced
             (arithmetic_balanced LP64 (NInt int)) (Some 4%positive) false
             Sample.with_sequences s' eq_refl Py_None).
Defined.

Lemma load_pair_success_holds_items_witness :
  exists a0 a1 s1,
    detail.seq_size_fetch (Some 4%positive) 2 [None; None] Sample.with_sequences
    = Return (true, [Some a0; Some a1]) s1
    /\ forall a,
         refcnt (CPython.incref Py_None (CPython.incref Py_True
                   Sample.with_sequences)) a
         = refcnt Sample.with_sequences a + count_in a [Some a0; Some a1].
Proof.
  exact (load_pair_success_holds_items _ _ caster.boolean caster.nullptr
           (Some 4%positive) false Sample.with_sequences (true, tt) _
           boolean_keeps_refcnt nullptr_keeps_refcnt eq_refl).
Defined.

Lemma pair_round_trip_witness :
  let C := caster.pair (caster.arithmetic LP64 (NInt Sample.uint32_t))
                       (caster.arithmetic LP64 (NFloat Float32)) in
  exists t s1 s2,
    cast C (3, S754_zero false) rv_policy.automatic None Sample.started
    = Return (Some t) s1
    /\ load C (Some t) false s1 = Return (Some (3, S754_zero false)) s2.
Proof.
  refine (pair_round_trip LP64 (NInt Sample.uint32_t) (NFloat Float32) 3
            (S754_zero false) rv_policy.automatic None false Sample.started
            _ eq_refl _ _ eq_refl _).
  - vm_compute. split; discriminate.
  - apply small_ints_cachedb_spec. vm_compute. reflexivity.
  - vm_compute. discriminate.
  - vm_compute. lia.
Defined.

Lemma load_pair_rejects_other_sizes_witness :
  load (caster.pair caster.boolean caster.boolean) (Some Py_None) true
       Sample.with_error
  = Return None Sample.with_numbers
  /\ load (caster.pair caster.boolean caster.boolean) (Some 5%positive) true
          (set_curexc (Some KeyError) Sample.with_sequences)
     = Return None Sample.with_sequences.
Proof.
  split.
  - refine (proj2 (load_pair_rejects_other_sizes _ _ caster.boolean caster.boolean
              true Sample.with_error) Py_None PyNoneV eq_refl _).
    discriminate.
  - refine (proj2 (load_pair_rejects_other_sizes _ _ caster.boolean caster.boolean
              true (set_curexc (Some KeyError) Sample.with_sequences))
              5%positive
              (PyInstanceV (MkInstance (Some 2) [Some Py_True; None] None None))
              eq_refl _).
    discriminate.
Defined.

Lemma cast_pair_unchecked_tuple_witness :
  cast (caster.pair caster.boolean caster.boolean) (true, false) rv_policy.copy
       None Sample.exhausted
  = Undefined.
Proof.
  exact (cast_pair_unchecked_tuple _ _ caster.boolean caster.boolean
           (true, false) rv_policy.copy None Sample.exhausted
           Py_True _ Py_False _ eq_refl eq_refl eq_refl).
Defined.

(** ** The casters of handles and of the singletons *)
Section HandleMore.
Import caster CPython.

Lemma count_in_null a : count_in a [None] = 0.
Proof. reflexivity. Qed.

(** X24: reference accounting of the caster of a handle type.  When the
    type test leaves the reference counts alone: a failed [load] changes
    no count; a successful [load] stores the handle it was given and, for
    a type other than [handle] itself, takes exactly one reference to that
    object ([borrow]) and none to any other; the destructor of the loaded
    value gives exactly that reference back; [load] into [handle] takes no
    reference and its destructor gives none back.  So the caster is
    balanced. *)
Theorem handle_subtype_balanced :
  forall is_handle check,
    (forall src s r s', check src s = Return r s' ->
       forall a, refcnt s' a = refcnt s a) ->
    (forall src convert s s',
       load (handle_subtype is_handle check) src convert s = Return None s' ->
       forall a, refcnt s' a = refcnt s a)
    /\ (forall src convert s v s',
          load (handle_subtype is_handle check) src convert s = Return (Some v) s' ->
          v = src
          /\ forall a, refcnt s' a
                       = refcnt s a + (if is_handle then 0 else count_in a [src]))
    /\ (forall v t,
          exists t',
            destroy (handle_subtype is_handle check) v t = Return tt t'
            /\ forall a, refcnt t' a
                         = refcnt t a - (if is_handle then 0 else count_in a [v]))
    /\ refcnt_balanced (handle_subtype is_handle check).
Proof.
  intros is_handle check Hcheck.
  assert (Hfail : forall src convert s s',
            load (handle_subtype is_handle check) src convert s = Return None s' ->
            forall a, refcnt s' a = refcnt s a).
  { intros src convert s s'. cbn [load handle_subtype].
    unfold load_handle, isinstance, mbind, M_bind.
    destruct (check src s) as [ok s0| | |] eqn:Hc; try done.
    destruct ok; cbn [negb].
    - destruct is_handle; [done|]. by destruct src.
    - intros [= <-]. by apply (Hcheck _ _ _ _ Hc). }
  assert (Hok : forall src convert s v s',
            load (handle_subtype is_handle check) src convert s = Return (Some v) s' ->
            v = src
            /\ forall a, refcnt s' a
                         = refcnt s a + (if is_handle then 0 else count_in a [src])).
  { intros src convert s v s'. cbn [load handle_subtype].
    unfold load_handle, isinstance, mbind, M_bind.
    destruct (check src s) as [ok s0| | |] eqn:Hc; try done.
    pose proof (Hcheck _ _ _ _ Hc) as Hs0.
    destruct ok; cbn [negb]; [|done].
    destruct is_handle.
    - intros [= <- <-]. split; [done|]. intros a. rewrite Hs0. lia.
    - destruct src as [b|]; intros [= <- <-]; (split; [done|]); intros a.
      + by rewrite refcnt_incref, Hs0.
      + rewrite Hs0. simpl. lia. }
  assert (Hdtor : forall v t,
            exists t',
              destroy (handle_subtype is_handle check) v t = Return tt t'
              /\ forall a, refcnt t' a
                           = refcnt t a - (if is_handle then 0 else count_in a [v])).
  { intros v t. cbn [destroy handle_subtype]. destruct is_handle.
    - exists t. split; [done|]. intros a. lia.
    - destruct v as [b|].
      + exists (decref b t). split; [done|]. intros a. apply refcnt_decref.
      + exists t. split; [done|]. intros a. simpl. lia. }
  split; [exact Hfail|]. split; [exact Hok|]. split; [exact Hdtor|].
  split; [exact Hfail|].
  intros src convert s v s' Hl. destruct (Hok _ _ _ _ _ Hl) as [-> Hs'].
  exists (fun a => if is_handle then 0 else count_in a [src]).
  split; [exact Hs'|]. intros t. apply Hdtor.
Qed.

(** X25: the casters of numbers, of [nullptr], of [bool] and of handle
    types ignore the return value policy and the parent in [cast], and the
    pair caster only hands them on to its components: a pair of casters
    that ignore them ignores them.  The caster of the primary template
    does not: its [cast] hands the policy to the registry. *)
Theorem cast_policy_ignored :
  (forall dm T, policy_independent (arithmetic dm T))
  /\ policy_independent nullptr
  /\ policy_independent boolean
  /\ (forall is_handle check, policy_independent (handle_subtype is_handle check))
  /\ (forall T1 T2 (C1 : type_caster T1) (C2 : type_caster T2),
        policy_independent C1 -> policy_independent C2 ->
        policy_independent (pair C1 C2))
  /\ ~ (forall (R : Registry) typeid, policy_independent (@generic R typeid)).
Proof.
  split; [|split; [|split; [|split; [|split]]]].
  - intros dm [U|F] v policy parent policy' parent'; reflexivity.
  - intros v policy parent policy' parent'. reflexivity.
  - intros v policy parent policy' parent'. reflexivity.
  - intros is_handle check v policy parent policy' parent'. reflexivity.
  - intros T1 T2 C1 C2 H1 H2 v policy parent policy' parent'.
    cbn [cast pair]. unfold cast_pair.
    rewrite (H1 (fst v) policy parent policy' parent').
    by rewrite (H2 (snd v) policy parent policy' parent').
  - intros Hall.
    pose proof (Hall Sample.registry 0%N 0%N rv_policy.reference None
                  rv_policy.copy None) as Heq.
    apply (f_equal (fun m => m Sample.state)) in Heq. discriminate Heq.
Qed.

(** X26: round trip through the casters of [bool] and of [nullptr].
    [cast] returns the singleton ([True], [False] or [None]) with exactly
    one more reference and nothing else changed, and [load] of that object
    gives the value back without touching the state. *)
Theorem singleton_casters_round_trip :
  forall policy parent convert s,
    (forall b : bool,
       let o := if b then Py_True else Py_False in
       exists s1,
         cast boolean b policy parent s = Return (Some o) s1
         /\ same_but_refcnt s s1
         /\ (forall a, refcnt s1 a = refcnt s a + count_in a [Some o])
         /\ load boolean (Some o) convert s1 = Return (Some b) s1)
    /\ exists s1,
         cast nullptr tt policy parent s = Return (Some Py_None) s1
         /\ same_but_refcnt s s1
         /\ (forall a, refcnt s1 a = refcnt s a + count_in a [Some Py_None])
         /\ load nullptr (Some Py_None) convert s1 = Return (Some tt) s1.
Proof.
  intros policy parent convert s. split.
  - intros b o. exists (incref o s). split; [done|]. split; [done|].
    split; [intros a; apply refcnt_incref|].
    subst o. by destruct b.
  - exists (decref Py_None (incref Py_None (incref Py_None s))).
    split; [done|]. split; [done|]. split; [|done].
    intros a. rewrite refcnt_decref, !refcnt_incref. lia.
Qed.
End HandleMore.

Lemma handle_subtype_balanced_witness :
  Some Py_True = Some Py_True
  /\ forall a, refcnt (CPython.incref Py_True Sample.state) a
               = refcnt Sample.state a + count_in a [Some Py_True].
Proof.
  refine (proj1 (proj2 (handle_subtype_balanced false
                          (fun src s => Return (Handle.is_valid src) s) _))
                (Some Py_True) false Sample.state (Some Py_True)
                (CPython.incref Py_True Sample.state) eq_refl).
  intros src s r s' Hc a. injection Hc as _ <-. reflexivity.
Defined.

Lemma cast_policy_ignored_witness :
  policy_independent
    (caster.pair caster.boolean (caster.arithmetic LP64 (NInt int))).
Proof.
  apply (proj1 (proj2 (proj2 (proj2 (proj2 cast_policy_ignored))))).
  - exact (proj1 (proj2 (proj2 cast_policy_ignored))).
  - exact (proj1 cast_policy_ignored LP64 (NInt int)).
Defined.
